(** * go-ds-sql: a datastore over a SQL table

    A shallow embedding of the [sqlds] package (the [Datastore] and its
    [batch]), of the two dialect providers ([postgres], [sqlite]) and of the
    collaborators they call: [fmt.Sprintf], [ds.NewKey], the [dsq] result
    streams and the [database/sql] executor.

    Go strings are [string], byte slices are [list byte], Go [int] is [Z].
    A Go [error] result is an [option error] ([None] is [nil]).  A function
    returning [(T, error)] returns a pair when its value is plain data; a
    call that returns a handle or an error, never both, returns an
    [outcome].  Every function that talks to the executor takes the [World]
    and returns the new one. *)

From Stdlib Require Import String Ascii List ZArith Bool DecimalString DecimalPos Lia.
From Stdlib.Init Require Byte.
Import ListNotations.

Open Scope string_scope.
Open Scope Z_scope.

Definition bytes := list Byte.byte.

(** Go's [error] values met in this code base. *)
Inductive error : Type :=
| ErrNotFound                       (* ds.ErrNotFound *)
| ErrNoRows                         (* sql.ErrNoRows *)
| ErrTxDone                         (* sql.ErrTxDone *)
| ErrDBClosed                       (* "sql: database is closed" *)
| ErrNew (msg : string)             (* errors.New, fmt.Errorf, driver errors *)
| ErrWrap (cause : error) (msg : string).   (* errors.Wrap *)

(** A Go call either returns or panics. *)
Inductive go (A : Type) : Type :=
| Returns (a : A)
| Panics (msg : string).
Arguments Returns {A} a.
Arguments Panics {A} msg.

Definition nil_dereference : string :=
  "runtime error: invalid memory address or nil pointer dereference".

(** ** Strings *)

Fixpoint strip_prefix (p s : string) : option string :=
  match p with
  | EmptyString => Some s
  | String a p' =>
      match s with
      | EmptyString => None
      | String b s' => if Ascii.eqb a b then strip_prefix p' s' else None
      end
  end.

Fixpoint contains_char (c : ascii) (s : string) : bool :=
  match s with
  | EmptyString => false
  | String a s' => Ascii.eqb a c || contains_char c s'
  end.

Fixpoint join (sep : string) (l : list string) : string :=
  match l with
  | [] => ""
  | [x] => x
  | x :: l' => x ++ sep ++ join sep l'
  end.

(** [split_on c s] is [strings.Split(s, c)]: the pieces between the
    occurrences of [c]; the accumulator holds the current piece. *)
Fixpoint split_acc (c : ascii) (acc : string) (s : string) : list string :=
  match s with
  | EmptyString => [acc]
  | String a s' =>
      if Ascii.eqb a c then acc :: split_acc c "" s'
      else split_acc c (acc ++ String a "") s'
  end.

Definition split_on (c : ascii) (s : string) : list string := split_acc c "" s.

Module fmt.

(** Operands of [Sprintf] in this code base: strings and ints. *)
Inductive operand : Type :=
| S_ (s : string)
| D_ (n : Z).

Definition itoa (n : Z) : string := NilZero.string_of_int (Z.to_int n).

(** What one verb prints for one operand.  [%s] and [%v] print a string as
    it is, [%d] and [%v] print an int in decimal; a verb that does not fit
    its operand prints Go's [%!verb(type=value)].  The templates of this
    repository use [%s], [%d] and [%%] only; other valid verbs (widths,
    flags, [%x], [%q], ...) are outside this model. *)
Definition verb (v : ascii) (a : operand) : string :=
  match a with
  | S_ s =>
      if (Ascii.eqb v "s" || Ascii.eqb v "v")%bool then s
      else "%!" ++ String v "(string=" ++ s ++ ")"
  | D_ n =>
      if (Ascii.eqb v "d" || Ascii.eqb v "v")%bool then itoa n
      else "%!" ++ String v "(int=" ++ itoa n ++ ")"
  end.

Definition extra_one (a : operand) : string :=
  match a with
  | S_ s => "string=" ++ s
  | D_ n => "int=" ++ itoa n
  end.

Definition extra (args : list operand) : string :=
  match args with
  | [] => ""
  | _ => "%!(EXTRA " ++ join ", " (map extra_one args) ++ ")"
  end.

(** [fmt.Sprintf(format, args...)]. *)
Fixpoint Sprintf (format : string) (args : list operand) : string :=
  match format with
  | EmptyString => extra args
  | String "%" EmptyString => "%!(NOVERB)" ++ extra args
  | String "%" (String v rest) =>
      if Ascii.eqb v "%" then String "%" (Sprintf rest args)
      else
        match args with
        | [] => "%!" ++ String v "(MISSING)" ++ Sprintf rest []
        | a :: args' => verb v a ++ Sprintf rest args'
        end
  | String c rest => String c (Sprintf rest args)
  end.

End fmt.

Module path.

(** One pass over the path elements: empty elements and [.] vanish, [..]
    removes the element before it; at the root it vanishes, in a relative
    path a leading [..] stays.  [out] is the cleaned path so far,
    reversed. *)
Fixpoint clean_elems (rooted : bool) (out : list string) (elems : list string)
  : list string :=
  match elems with
  | [] => rev out
  | e :: es =>
      if (String.eqb e "" || String.eqb e ".")%bool then clean_elems rooted out es
      else if String.eqb e ".." then
        match out with
        | o :: out' =>
            if String.eqb o ".." then clean_elems rooted (e :: out) es
            else clean_elems rooted out' es
        | [] =>
            if rooted then clean_elems rooted [] es
            else clean_elems rooted [e] es
        end
      else clean_elems rooted (e :: out) es
  end.

(** [path.Clean]: the shortest path equivalent to [p] by lexical
    processing, as the Go library documents it. *)
Definition Clean (p : string) : string :=
  match p with
  | EmptyString => "."
  | String c _ =>
      let rooted := Ascii.eqb c "/" in
      let r := join "/" (clean_elems rooted [] (split_on "/" p)) in
      if rooted then "/" ++ r
      else if String.eqb r "" then "." else r
  end.

End path.

Module ds.

(** [ds.Key] wraps one string; [String()] returns it. *)
Definition Key := string.
Definition Key_String (k : Key) : string := k.

(** [ds.NewKey]: the key of a string, cleaned. *)
Definition NewKey (s : string) : Key :=
  match s with
  | EmptyString => "/"
  | String "/" _ => path.Clean s
  | _ => path.Clean ("/" ++ s)
  end.

End ds.

Module dsq.

(** [dsq.Entry]; expirations play no part here. *)
Record Entry : Type := mkEntry {
  Key : string;
  Value : bytes;
  Size : Z }.

(** [dsq.Result]: an entry, or an error. *)
Record Result : Type := mkResult {
  Entry_ : Entry;
  Error : option error }.

Definition zero_Entry : Entry := mkEntry "" [] 0.
Definition zero_Result : Result := mkResult zero_Entry None.

(** The [Filter] and [Order] interfaces. *)
Record Filter : Type := { Filter_ : Entry -> bool }.
Record Order : Type := { Compare : Entry -> Entry -> Z }.

Record Query : Type := mkQuery {
  Prefix : string;
  Filters : list Filter;
  Orders : list Order;
  Limit : Z;
  Offset : Z;
  KeysOnly : bool;
  ReturnsSizes : bool }.

(** [dsq.Iterator]: two closures over a captured state [S].  [Next]
    returns a result and whether there is one: [false] ends the stream. *)
Record Iterator (S : Type) : Type := {
  Next : S -> (Result * bool) * S;
  Close : S -> option error * S }.
Arguments Next {S} _ _.
Arguments Close {S} _ _.

(** [NextSync] of the results built by [ResultsFromIterator]: one call of
    [Next]; when it says [false] the iterator is closed. *)
Definition NextSync {S} (it : Iterator S) (s : S) : (Result * bool) * S :=
  let '((res, ok), s1) := Next it s in
  if ok then ((res, ok), s1) else ((res, ok), snd (Close it s1)).

(** What a consumer of the results receives: the results of the calls of
    [NextSync] up to the first that says [false] (the loop of [Rest], and
    of the channel that [Next()] feeds).  [None]: the fuel did not reach
    the end of the stream. *)
Fixpoint yielded {S} (it : Iterator S) (fuel : nat) (s : S)
  : option (list Result * S) :=
  match fuel with
  | O => None
  | Datatypes.S n =>
      let '((res, ok), s1) := NextSync it s in
      if ok then
        match yielded it n s1 with
        | Some (l, s2) => Some (res :: l, s2)
        | None => None
        end
      else Some ([], s1)
  end.

(** [dsq.Results], as the sequence it yields. *)
Definition Results := list Result.

(** The post-processing collaborator of go-datastore. *)
Class PostProcess : Type := {
  NaiveFilter : Results -> Filter -> Results;
  NaiveOrder : Results -> list Order -> Results;
  NaiveOffset : Results -> Z -> Results;
  NaiveLimit : Results -> Z -> Results }.

(** [dsq.Less]: the orders in turn, -1 deciding for [a] and 1 against it;
    ties are broken by key. *)
Fixpoint Less (orders : list Order) (a b : Entry) : bool :=
  match orders with
  | [] => String.ltb (Key a) (Key b)
  | cmp :: rest =>
      let c := Compare cmp a b in
      if c =? -1 then true
      else if c =? 1 then false
      else Less rest a b
  end.

Fixpoint insert_by (lt : Entry -> Entry -> bool) (x : Entry) (l : list Entry)
  : list Entry :=
  match l with
  | [] => [x]
  | y :: l' => if lt y x then y :: insert_by lt x l' else x :: l
  end.

Definition sort_by (lt : Entry -> Entry -> bool) (l : list Entry) : list Entry :=
  fold_right (insert_by lt) [] l.

Definition is_error (r : Result) : bool :=
  match Error r with Some _ => true | None => false end.

(** An offset over a sequence: it drops that many entries; an error met
    on the way is passed on and not counted. *)
Fixpoint drop_entries (n : nat) (qr : Results) : Results :=
  match qr with
  | [] => []
  | r :: qr' =>
      match n with
      | O => qr
      | Datatypes.S n' =>
          if is_error r then r :: drop_entries n qr' else drop_entries n' qr'
      end
  end.

(** The collaborator on sequences, after the functions of go-datastore: a
    filter keeps errors and the entries it accepts; an order passes the
    errors on, then the entries sorted by [Less]; an offset drops entries; a
    limit keeps so many results, none or a negative one keeping all. *)
#[export] Instance on_lists : PostProcess := {
  NaiveFilter qr f :=
    filter (fun r => is_error r || Filter_ f (Entry_ r))%bool qr;
  NaiveOrder qr orders :=
    match orders with
    | [] => qr
    | _ =>
        (filter is_error qr ++
         map (fun e => mkResult e None)
             (sort_by (Less orders)
                (map Entry_ (filter (fun r => negb (is_error r)) qr))))%list
    end;
  NaiveOffset qr offset := drop_entries (Z.to_nat offset) qr;
  NaiveLimit qr limit :=
    if limit <=? 0 then qr else firstn (Z.to_nat limit) qr }.

End dsq.

(** ** The executor: [database/sql] over one database

    The database is a set of named tables of (key, data) rows.  The engine
    reads the statements that the two dialect providers issue, and reports
    everything else as an error.  Table names are lower-case identifiers;
    text is compared byte by byte. *)
Module sql.

Inductive value : Type :=
| VStr (s : string)
| VBytes (b : bytes)
| VInt (n : Z)
| VBool (b : bool).

Inductive engine : Type := Postgres | SQLite.

Definition Table := list (string * bytes).
Definition Tables := list (string * Table).

(** *** Patterns of [LIKE] and [GLOB] *)

Inductive ptok : Type :=
| PLit (c : ascii)                               (* this character *)
| PAny                                           (* any one character *)
| PStar                                          (* any characters *)
| PSet (invert : bool) (items : list (ascii * ascii))
| PNever.                                        (* an unclosed set *)

(** [LIKE]: [%] and [_] are wildcards, a backslash quotes the next
    character and may not end the pattern. *)
Fixpoint like_compile (p : string) : option (list ptok) :=
  match p with
  | EmptyString => Some []
  | String c p' =>
      if Ascii.eqb c "\" then
        match p' with
        | EmptyString => None
        | String c' p'' => option_map (cons (PLit c')) (like_compile p'')
        end
      else if Ascii.eqb c "%" then option_map (cons PStar) (like_compile p')
      else if Ascii.eqb c "_" then option_map (cons PAny) (like_compile p')
      else option_map (cons (PLit c)) (like_compile p')
  end.

(** [GLOB]: [*] and [?] are wildcards, [[...]] is a set of characters and
    ranges, [[^...]] its complement; a [']'] that opens a set stands for
    itself; nothing quotes. *)
Inductive gstate : Type :=
| GOut
| GOpen
| GFirst (invert : bool)
| GIn (invert : bool) (items : list (ascii * ascii)) (prior : option ascii).

Fixpoint glob_scan (st : gstate) (p : string) : list ptok :=
  match p with
  | EmptyString => match st with GOut => [] | _ => [PNever] end
  | String c p' =>
      match st with
      | GOut =>
          if Ascii.eqb c "*" then PStar :: glob_scan GOut p'
          else if Ascii.eqb c "?" then PAny :: glob_scan GOut p'
          else if Ascii.eqb c "[" then glob_scan GOpen p'
          else PLit c :: glob_scan GOut p'
      | GOpen =>
          if Ascii.eqb c "^" then glob_scan (GFirst true) p'
          else if Ascii.eqb c "]" then glob_scan (GIn false [(c, c)] None) p'
          else glob_scan (GIn false [(c, c)] (Some c)) p'
      | GFirst inv =>
          if Ascii.eqb c "]" then glob_scan (GIn inv [(c, c)] None) p'
          else glob_scan (GIn inv [(c, c)] (Some c)) p'
      | GIn inv items prior =>
          if Ascii.eqb c "]" then PSet inv items :: glob_scan GOut p'
          else
            match prior, p' with
            | Some lo, String hi p'' =>
                if (Ascii.eqb c "-" && negb (Ascii.eqb hi "]"))%bool
                then glob_scan (GIn inv (items ++ [(lo, hi)]) None) p''
                else glob_scan (GIn inv (items ++ [(c, c)]) (Some c)) p'
            | _, _ => glob_scan (GIn inv (items ++ [(c, c)]) (Some c)) p'
            end
      end
  end.

Definition glob_compile (p : string) : list ptok := glob_scan GOut p.

Definition in_set (items : list (ascii * ascii)) (c : ascii) : bool :=
  existsb (fun r => Ascii.leb (fst r) c && Ascii.leb c (snd r))%bool items.

Fixpoint pmatch (p : list ptok) (s : string) {struct p} : bool :=
  match p with
  | [] => match s with EmptyString => true | _ => false end
  | PStar :: p' =>
      (fix star (s : string) : bool :=
         pmatch p' s ||
         match s with
         | EmptyString => false
         | String _ s' => star s'
         end) s
  | PLit c :: p' =>
      match s with
      | String a s' => Ascii.eqb c a && pmatch p' s'
      | EmptyString => false
      end
  | PAny :: p' =>
      match s with
      | String _ s' => pmatch p' s'
      | EmptyString => false
      end
  | PSet inv items :: p' =>
      match s with
      | String a s' => xorb (in_set items a) inv && pmatch p' s'
      | EmptyString => false
      end
  | PNever :: _ => false
  end.

(** *** Statements *)

Inductive where_op : Type := LIKE | GLOB.

Inductive stmt : Type :=
| Delete_ (t : string)
| Exists_ (t : string)
| Get_ (t : string)
| Upsert_ (t : string)           (* INSERT ... ON CONFLICT (key) DO UPDATE *)
| Replace_ (t : string)          (* INSERT OR REPLACE *)
| OctetLength_ (t : string)
| Length_ (t : string)
| Create_ (t : string)           (* CREATE TABLE IF NOT EXISTS ... WITHOUT ROWID *)
| Select_ (t : string) (where_ : option (where_op * string))
          (limit offset : option Z).

Definition is_lower (c : ascii) : bool := (Ascii.leb "a" c && Ascii.leb c "z")%bool.
Definition is_digit (c : ascii) : bool := (Ascii.leb "0" c && Ascii.leb c "9")%bool.
Definition is_ident_char (c : ascii) : bool :=
  (is_lower c || is_digit c || Ascii.eqb c "_")%bool.

Fixpoint take_while (f : ascii -> bool) (s : string) : string * string :=
  match s with
  | EmptyString => ("", "")
  | String c s' =>
      if f c then let (a, r) := take_while f s' in (String c a, r)
      else ("", s)
  end.

Fixpoint all_chars (f : ascii -> bool) (s : string) : bool :=
  match s with
  | EmptyString => true
  | String c s' => f c && all_chars f s'
  end.

(** A table name: lower-case letters, digits and underscores, not
    starting with a digit. *)
Definition ident (t : string) : bool :=
  match t with
  | EmptyString => false
  | String c _ => negb (is_digit c) && all_chars is_ident_char t
  end.

Definition nl : string := String (ascii_of_nat 10) "".
Definition tab : string := String (ascii_of_nat 9) "".

(** The statements with a fixed text around the table name. *)
Definition shapes : list (string * string * (string -> stmt)) :=
  [ ("DELETE FROM ", " WHERE key = $1", Delete_);
    ("SELECT exists(SELECT 1 FROM ", " WHERE key=$1)", Exists_);
    ("SELECT data FROM ", " WHERE key = $1", Get_);
    ("INSERT INTO ",
     " (key, data) VALUES ($1, $2) ON CONFLICT (key) DO UPDATE SET data = $2",
     Upsert_);
    ("INSERT OR REPLACE INTO ", "(key, data) VALUES($1, $2)", Replace_);
    ("SELECT octet_length(data) FROM ", " WHERE key = $1", OctetLength_);
    ("SELECT length(data) FROM ", " WHERE key = $1", Length_);
    (nl ++ tab ++ tab ++ tab ++ "CREATE TABLE IF NOT EXISTS ",
     " (" ++ nl ++ tab ++ tab ++ tab ++ tab ++ "key TEXT PRIMARY KEY," ++
     nl ++ tab ++ tab ++ tab ++ tab ++ "data BLOB" ++
     nl ++ tab ++ tab ++ tab ++ ") WITHOUT ROWID;" ++ nl ++ tab ++ tab,
     Create_) ].

Fixpoint parse_shapes (l : list (string * string * (string -> stmt)))
         (q : string) : option stmt :=
  match l with
  | [] => None
  | (pre, suf, mk) :: l' =>
      match strip_prefix pre q with
      | Some r =>
          let (t, r') := take_while is_ident_char r in
          if (ident t && String.eqb r' suf)%bool then Some (mk t)
          else parse_shapes l' q
      | None => parse_shapes l' q
      end
  end.

(** A string literal after its opening quote: up to the closing quote, a
    doubled quote standing for one. *)
Fixpoint read_literal (s : string) : option (string * string) :=
  match s with
  | EmptyString => None
  | String c s' =>
      if Ascii.eqb c "'" then
        match s' with
        | String c' s'' =>
            if Ascii.eqb c' "'" then
              match read_literal s'' with
              | Some (l, r) => Some (String c l, r)
              | None => None
              end
            else Some ("", s')
        | EmptyString => Some ("", s')
        end
      else
        match read_literal s' with
        | Some (l, r) => Some (String c l, r)
        | None => None
        end
  end.

Definition digit_value (c : ascii) : Z := Z.of_nat (nat_of_ascii c) - 48.

Fixpoint digits_value (acc : Z) (s : string) : Z :=
  match s with
  | EmptyString => acc
  | String c s' => digits_value (10 * acc + digit_value c) s'
  end.

(** A decimal integer, with its sign. *)
Definition read_int (s : string) : option (Z * string) :=
  let '(neg, s1) :=
    match s with
    | String "-" s' => (true, s')
    | _ => (false, s)
    end in
  let (d, r) := take_while is_digit s1 in
  if String.eqb d "" then None
  else Some ((if neg then - digits_value 0 d else digits_value 0 d), r).

(** An optional clause: [Some (None, s)] when [s] does not start with the
    keyword, [None] when it does and the rest does not read. *)
Definition clause {A} (kw : string) (rd : string -> option (A * string))
           (s : string) : option (option A * string) :=
  match strip_prefix kw s with
  | None => Some (None, s)
  | Some r =>
      match rd r with
      | Some (a, r') => Some (Some a, r')
      | None => None
      end
  end.

Definition read_where (op : where_op) (s : string)
  : option ((where_op * string) * string) :=
  match read_literal s with
  | Some (l, r) =>
      match strip_prefix " ORDER BY key" r with
      | Some r' => Some ((op, l), r')
      | None => None
      end
  | None => None
  end.

(** The bulk select: the table, then the optional clauses in order. *)
Definition parse_select (q : string) : option stmt :=
  match strip_prefix "SELECT key, data FROM " q with
  | None => None
  | Some r =>
      let (t, r0) := take_while is_ident_char r in
      if negb (ident t) then None else
      match clause " WHERE key LIKE '" (read_where LIKE) r0 with
      | None => None
      | Some (wl, r1) =>
          match clause " WHERE key GLOB '" (read_where GLOB) r1 with
          | None => None
          | Some (wg, r2) =>
              match wl, wg with
              | Some _, Some _ => None
              | _, _ =>
                  match clause " LIMIT " read_int r2 with
                  | None => None
                  | Some (lim, r3) =>
                      match clause " OFFSET " read_int r3 with
                      | None => None
                      | Some (off, r4) =>
                          if String.eqb r4 "" then
                            Some (Select_ t
                                    match wl with Some x => Some x | None => wg end
                                    lim off)
                          else None
                      end
                  end
              end
          end
      end
  end.

Definition parse (q : string) : option stmt :=
  match parse_shapes shapes q with
  | Some s => Some s
  | None => parse_select q
  end.

(** *** Tables and what the statements do to them *)

Fixpoint lookup {A} (k : string) (l : list (string * A)) : option A :=
  match l with
  | [] => None
  | (k', a) :: l' => if String.eqb k' k then Some a else lookup k l'
  end.

(** Replace the row of [k], or add one at the end. *)
Fixpoint store {A} (k : string) (a : A) (l : list (string * A))
  : list (string * A) :=
  match l with
  | [] => [(k, a)]
  | (k', a') :: l' =>
      if String.eqb k' k then (k, a) :: l' else (k', a') :: store k a l'
  end.

Definition remove {A} (k : string) (l : list (string * A)) : list (string * A) :=
  filter (fun r => negb (String.eqb (fst r) k)) l.

Definition matching {A} (k : string) (l : list (string * A)) : Z :=
  Z.of_nat (length (filter (fun r => String.eqb (fst r) k) l)).

Fixpoint insert_row (x : string * bytes) (l : Table) : Table :=
  match l with
  | [] => [x]
  | y :: l' => if String.leb (fst y) (fst x) then y :: insert_row x l' else x :: l
  end.

(** [ORDER BY key]. *)
Definition order_by_key (l : Table) : Table := fold_right insert_row [] l.

Inductive outcome (A : Type) : Type :=
| Done (a : A)
| Failed (e : error).
Arguments Done {A} a.
Arguments Failed {A} e.

Definition syntax_error : error := ErrNew "syntax error".
Definition no_such_table (t : string) : error := ErrNew ("no such table: " ++ t).

Definition on_table {A} (t : string) (ts : Tables) (k : Table -> outcome A)
  : outcome A :=
  match lookup t ts with
  | Some tb => k tb
  | None => Failed (no_such_table t)
  end.

Definition len (b : bytes) : Z := Z.of_nat (length b).

(** A statement that writes: the rows affected and the new tables. *)
Definition exec (e : engine) (q : string) (args : list value) (ts : Tables)
  : outcome (Z * Tables) :=
  match parse q, e, args with
  | Some (Delete_ t), _, [VStr k] =>
      on_table t ts (fun tb => Done (matching k tb, store t (remove k tb) ts))
  | Some (Upsert_ t), Postgres, [VStr k; VBytes v] =>
      on_table t ts (fun tb => Done (1, store t (store k v tb) ts))
  | Some (Replace_ t), SQLite, [VStr k; VBytes v] =>
      on_table t ts (fun tb => Done (1, store t (remove k tb ++ [(k, v)])%list ts))
  | Some (Create_ t), SQLite, [] =>
      match lookup t ts with
      | Some _ => Done (0, ts)
      | None => Done (0, (ts ++ [(t, [])])%list)
      end
  | _, _, _ => Failed syntax_error
  end.

(** A statement read through [QueryRow]: the first row's column, if any. *)
Definition query_row (e : engine) (q : string) (args : list value) (ts : Tables)
  : outcome (option value) :=
  match parse q, e, args with
  | Some (Get_ t), _, [VStr k] =>
      on_table t ts (fun tb => Done (option_map VBytes (lookup k tb)))
  | Some (Exists_ t), Postgres, [VStr k] =>
      on_table t ts (fun tb =>
        Done (Some (VBool (match lookup k tb with Some _ => true | None => false end))))
  | Some (Exists_ t), SQLite, [VStr k] =>
      on_table t ts (fun tb =>
        Done (Some (VInt (match lookup k tb with Some _ => 1 | None => 0 end))))
  | Some (OctetLength_ t), Postgres, [VStr k] =>
      on_table t ts (fun tb => Done (option_map (fun v => VInt (len v)) (lookup k tb)))
  | Some (Length_ t), SQLite, [VStr k] =>
      on_table t ts (fun tb => Done (option_map (fun v => VInt (len v)) (lookup k tb)))
  | _, _, _ => Failed syntax_error
  end.

(** [WHERE key LIKE/GLOB pattern ORDER BY key]. *)
Definition restrict (e : engine) (where_ : option (where_op * string))
           (tb : Table) : outcome Table :=
  match where_, e with
  | None, _ => Done tb
  | Some (LIKE, p), Postgres =>
      match like_compile p with
      | Some toks => Done (order_by_key (filter (fun r => pmatch toks (fst r)) tb))
      | None => Failed (ErrNew "LIKE pattern must not end with escape character")
      end
  | Some (GLOB, p), SQLite =>
      Done (order_by_key (filter (fun r => pmatch (glob_compile p) (fst r)) tb))
  | _, _ => Failed syntax_error
  end.

(** [LIMIT] and [OFFSET]: the offset is skipped first.  Postgres refuses
    negative numbers; SQLite has no [OFFSET] without [LIMIT], reads a
    negative limit as none and a negative offset as zero. *)
Definition window (e : engine) (limit offset : option Z) (rows : Table)
  : outcome Table :=
  match e with
  | Postgres =>
      match limit, offset with
      | Some l, _ =>
          if l <? 0 then Failed (ErrNew "LIMIT must not be negative")
          else
            match offset with
            | Some o =>
                if o <? 0 then Failed (ErrNew "OFFSET must not be negative")
                else Done (firstn (Z.to_nat l) (skipn (Z.to_nat o) rows))
            | None => Done (firstn (Z.to_nat l) rows)
            end
      | None, Some o =>
          if o <? 0 then Failed (ErrNew "OFFSET must not be negative")
          else Done (skipn (Z.to_nat o) rows)
      | None, None => Done rows
      end
  | SQLite =>
      match limit, offset with
      | None, Some _ => Failed syntax_error
      | None, None => Done rows
      | Some l, _ =>
          let skipped :=
            match offset with
            | Some o => skipn (Z.to_nat o) rows
            | None => rows
            end in
          if l <? 0 then Done skipped else Done (firstn (Z.to_nat l) skipped)
      end
  end.

Definition select (e : engine) (q : string) (ts : Tables) : outcome Table :=
  match parse q with
  | Some (Select_ t where_ limit offset) =>
      on_table t ts (fun tb =>
        match restrict e where_ tb with
        | Done rows => window e limit offset rows
        | Failed err => Failed err
        end)
  | _ => Failed syntax_error
  end.

(** *** The world: the database, its failures, and what was called *)

Inductive event : Type :=
| EvOpen (driverName dataSourceName : string)
| EvPing
| EvClose
| EvExec (q : string) (args : list value)
| EvQueryRow (q : string) (args : list value)
| EvQuery (q : string)
| EvBegin
| EvTxExec (q : string) (args : list value)
| EvTxCommit
| EvTxRollback.

(** [faults] decides the calls that reach the database, in order: [Some e]
    makes the call fail with [e], [None] (or no entry) lets it through.
    [scan_faults] does the same for the rows that a cursor scans. *)
Record World : Type := mkWorld {
  drivers : list string;
  flavour : engine;
  tables : Tables;
  closed : bool;
  faults : list (option error);
  scan_faults : list (option error);
  log : list event }.

Definition record_ (ev : event) (w : World) : World :=
  mkWorld (drivers w) (flavour w) (tables w) (closed w) (faults w)
          (scan_faults w) (log w ++ [ev]).

Definition set_tables (ts : Tables) (w : World) : World :=
  mkWorld (drivers w) (flavour w) ts (closed w) (faults w) (scan_faults w) (log w).

Definition set_closed (c : bool) (w : World) : World :=
  mkWorld (drivers w) (flavour w) (tables w) c (faults w) (scan_faults w) (log w).

Definition set_faults (fs : list (option error)) (w : World) : World :=
  mkWorld (drivers w) (flavour w) (tables w) (closed w) fs (scan_faults w) (log w).

Definition set_scan_faults (fs : list (option error)) (w : World) : World :=
  mkWorld (drivers w) (flavour w) (tables w) (closed w) (faults w) fs (log w).

(** One call that reaches the database: recorded, then refused when the
    handle is closed, else decided by the next fault. *)
Definition call (ev : event) (w : World) : option error * World :=
  let w := record_ ev w in
  if closed w then (Some ErrDBClosed, w)
  else
    match faults w with
    | [] => (None, w)
    | f :: fs => (f, set_faults fs w)
    end.

(** [*sql.DB]. *)
Record DB : Type := { driverName : string; dataSourceName : string }.

(** [sql.Result]. *)
Record Result_ : Type := { RowsAffected : Z * option error }.

(** [*sql.Row]: the error of the query, or its first row. *)
Record Row : Type := { row_err : option error; row_value : option value }.

(** [*sql.Rows]: the row under the cursor and those to come, each with
    the error its scan meets. *)
Record Rows : Type := {
  current : option (string * bytes * option error);
  pending : list (string * bytes * option error);
  rows_closed : bool }.

(** [*sql.Tx]: a transaction works on its own copy of the tables, taken
    when it begins and installed when it commits; no other writer is
    modelled in between. *)
Record Tx : Type := { done : bool; view : Tables }.

(** [sql.Open] looks the driver up and connects to nothing. *)
Definition Open (driver dsn : string) (w : World) : outcome DB * World :=
  let w := record_ (EvOpen driver dsn) w in
  if existsb (String.eqb driver) (drivers w)
  then (Done {| driverName := driver; dataSourceName := dsn |}, w)
  else (Failed (ErrNew ("sql: unknown driver " ++ driver)), w).

(** [db.Ping()] is the first call that reaches the database. *)
Definition DB_Ping (d : DB) (w : World) : option error * World := call EvPing w.

Definition DB_Close (d : DB) (w : World) : option error * World :=
  (None, set_closed true (record_ EvClose w)).

Definition DB_Exec (d : DB) (q : string) (args : list value) (w : World)
  : outcome Result_ * World :=
  let (f, w) := call (EvExec q args) w in
  match f with
  | Some e => (Failed e, w)
  | None =>
      match exec (flavour w) q args (tables w) with
      | Failed e => (Failed e, w)
      | Done (n, ts) => (Done {| RowsAffected := (n, None) |}, set_tables ts w)
      end
  end.

Definition DB_QueryRow (d : DB) (q : string) (args : list value) (w : World)
  : Row * World :=
  let (f, w) := call (EvQueryRow q args) w in
  match f with
  | Some e => ({| row_err := Some e; row_value := None |}, w)
  | None =>
      match query_row (flavour w) q args (tables w) with
      | Failed e => ({| row_err := Some e; row_value := None |}, w)
      | Done v => ({| row_err := None; row_value := v |}, w)
      end
  end.

Definition scan_error : error := ErrNew "sql: Scan error: unsupported Scan".

(** [row.Scan(&dest)]: the destination is written on success only. *)
Definition Row_Scan {A} (conv : value -> option A) (r : Row) (dest : A)
  : A * option error :=
  match row_err r with
  | Some e => (dest, Some e)
  | None =>
      match row_value r with
      | None => (dest, Some ErrNoRows)
      | Some v =>
          match conv v with
          | Some a => (a, None)
          | None => (dest, Some scan_error)
          end
      end
  end.

Definition to_bytes (v : value) : option bytes :=
  match v with
  | VBytes b => Some b
  | VStr s => Some (list_byte_of_string s)
  | _ => None
  end.

Definition to_bool (v : value) : option bool :=
  match v with
  | VBool b => Some b
  | VInt 0 => Some false
  | VInt 1 => Some true
  | _ => None
  end.

Definition to_int (v : value) : option Z :=
  match v with
  | VInt n => Some n
  | _ => None
  end.

Fixpoint with_scan_faults (rows : Table) (fs : list (option error))
  : list (string * bytes * option error) :=
  match rows with
  | [] => []
  | (k, v) :: rows' =>
      match fs with
      | [] => (k, v, None) :: with_scan_faults rows' []
      | f :: fs' => (k, v, f) :: with_scan_faults rows' fs'
      end
  end.

Definition DB_Query (d : DB) (q : string) (w : World) : outcome Rows * World :=
  let (f, w) := call (EvQuery q) w in
  match f with
  | Some e => (Failed e, w)
  | None =>
      match select (flavour w) q (tables w) with
      | Failed e => (Failed e, w)
      | Done rows =>
          (Done {| current := None;
                   pending := with_scan_faults rows (scan_faults w);
                   rows_closed := false |},
           set_scan_faults (skipn (length rows) (scan_faults w)) w)
      end
  end.

Definition Rows_Close (r : Rows) : option error * Rows :=
  (None, {| current := None; pending := []; rows_closed := true |}).

(** [rows.Next()]: moves to the next row; at the end it closes. *)
Definition Rows_Next (r : Rows) : bool * Rows :=
  if rows_closed r then (false, r)
  else
    match pending r with
    | [] => (false, snd (Rows_Close r))
    | x :: rest =>
        (true, {| current := Some x; pending := rest; rows_closed := false |})
    end.

(** [rows.Scan(&key, &out)]. *)
Definition Rows_Scan (r : Rows) : (string * bytes) * option error :=
  match current r with
  | Some (k, v, None) => ((k, v), None)
  | Some (_, _, Some e) => (("", []), Some e)
  | None => (("", []), Some (ErrNew "sql: Scan called without calling Next"))
  end.

(** [db.Begin()], as the pair that [GetTransaction] looks at. *)
Definition DB_Begin (d : DB) (w : World) : (option Tx * option error) * World :=
  let (f, w) := call EvBegin w in
  match f with
  | Some e => ((None, Some e), w)
  | None => ((Some {| done := false; view := tables w |}, None), w)
  end.

Definition finished (t : Tx) : Tx := {| done := true; view := view t |}.

Definition Tx_Exec (t : Tx) (q : string) (args : list value) (w : World)
  : outcome Result_ * Tx * World :=
  if done t then (Failed ErrTxDone, t, record_ (EvTxExec q args) w)
  else
    let (f, w) := call (EvTxExec q args) w in
    match f with
    | Some e => (Failed e, t, w)
    | None =>
        match exec (flavour w) q args (view t) with
        | Failed e => (Failed e, t, w)
        | Done (n, ts) =>
            (Done {| RowsAffected := (n, None) |},
             {| done := false; view := ts |}, w)
        end
    end.

(** [Commit] ends the transaction either way; the tables change only when
    it succeeds. *)
Definition Tx_Commit (t : Tx) (w : World) : option error * Tx * World :=
  if done t then (Some ErrTxDone, t, record_ EvTxCommit w)
  else
    let (f, w) := call EvTxCommit w in
    match f with
    | Some e => (Some e, finished t, w)
    | None => (None, finished t, set_tables (view t) w)
    end.

(** [Rollback] ends the transaction; its copy is never installed. *)
Definition Tx_Rollback (t : Tx) (w : World) : option error * Tx * World :=
  if done t then (Some ErrTxDone, t, record_ EvTxRollback w)
  else
    let (f, w) := call EvTxRollback w in
    (f, finished t, w).

End sql.

(** ** Package [sqlds] *)
Module sqlds.

(** The [Queries] interface: nine methods, each returning a string. *)
Record Queries : Type := {
  Delete : string;
  Exists : string;
  Get : string;
  Put : string;
  Query : string;
  Prefix : string;
  Limit : string;
  Offset : string;
  GetSize : string }.

Record Datastore : Type := { db : sql.DB; queries : Queries }.

Definition NewDatastore (db : sql.DB) (queries : Queries) : Datastore :=
  {| db := db; queries := queries |}.

Record batch : Type := {
  batch_db : sql.DB;
  batch_queries : Queries;
  txn : option sql.Tx }.

Definition set_txn (t : option sql.Tx) (b : batch) : batch :=
  {| batch_db := batch_db b; batch_queries := batch_queries b; txn := t |}.

Definition batch_GetTransaction (b : batch) (w : sql.World)
  : (option sql.Tx * option error) * batch * sql.World :=
  match txn b with
  | Some t => ((Some t, None), b, w)
  | None =>
      let '((newTransaction, err), w) := sql.DB_Begin (batch_db b) w in
      match err with
      | Some e =>
          let w :=
            match newTransaction with
            | Some t => snd (sql.Tx_Rollback t w)
            | None => w
            end in
          ((None, Some e), b, w)
      | None => ((newTransaction, None), set_txn newTransaction b, w)
      end
  end.

(** [_ = b.txn.Rollback()]: through a nil [b.txn] it panics. *)
Definition rollback_txn (b : batch) (w : sql.World) : go unit * batch * sql.World :=
  match txn b with
  | None => (Panics nil_dereference, b, w)
  | Some t =>
      let '(_, t, w) := sql.Tx_Rollback t w in
      (Returns tt, set_txn (Some t) b, w)
  end.

(** [txn] and [b.txn] are one object: what [Exec] does to it is written
    back to [b]. *)
Definition batch_Put (b : batch) (key : ds.Key) (val : bytes) (w : sql.World)
  : go (option error) * batch * sql.World :=
  let '((txn_, err), b, w) := batch_GetTransaction b w in
  match err with
  | Some e =>
      let '(r, b, w) := rollback_txn b w in
      match r with
      | Panics m => (Panics m, b, w)
      | Returns _ => (Returns (Some e), b, w)
      end
  | None =>
      match txn_ with
      | None => (Panics nil_dereference, b, w)
      | Some t =>
          let '(res, t, w) :=
            sql.Tx_Exec t (Put (batch_queries b))
                        [sql.VStr (ds.Key_String key); sql.VBytes val] w in
          let b := set_txn (Some t) b in
          match res with
          | sql.Failed e =>
              let '(r, b, w) := rollback_txn b w in
              match r with
              | Panics m => (Panics m, b, w)
              | Returns _ => (Returns (Some e), b, w)
              end
          | sql.Done _ => (Returns None, b, w)
          end
      end
  end.

Definition batch_Delete (b : batch) (key : ds.Key) (w : sql.World)
  : go (option error) * batch * sql.World :=
  let '((txn_, err), b, w) := batch_GetTransaction b w in
  match err with
  | Some e =>
      let '(r, b, w) := rollback_txn b w in
      match r with
      | Panics m => (Panics m, b, w)
      | Returns _ => (Returns (Some e), b, w)
      end
  | None =>
      match txn_ with
      | None => (Panics nil_dereference, b, w)
      | Some t =>
          let '(res, t, w) :=
            sql.Tx_Exec t (Delete (batch_queries b))
                        [sql.VStr (ds.Key_String key)] w in
          let b := set_txn (Some t) b in
          match res with
          | sql.Failed e =>
              let '(r, b, w) := rollback_txn b w in
              match r with
              | Panics m => (Panics m, b, w)
              | Returns _ => (Returns (Some e), b, w)
              end
          | sql.Done _ => (Returns None, b, w)
          end
      end
  end.

Definition batch_Commit (b : batch) (w : sql.World)
  : option error * batch * sql.World :=
  match txn b with
  | None => (Some (ErrNew "no transaction started, cannot commit"), b, w)
  | Some t =>
      let '(err, t, w) := sql.Tx_Commit t w in
      match err with
      | Some e =>
          let '(_, t, w) := sql.Tx_Rollback t w in
          (Some e, set_txn (Some t) b, w)
      | None => (None, set_txn (Some t) b, w)
      end
  end.

Definition Datastore_Batch (d : Datastore) : batch * option error :=
  ({| batch_db := db d; batch_queries := queries d; txn := None |}, None).

Definition Datastore_Close (d : Datastore) (w : sql.World)
  : option error * sql.World :=
  sql.DB_Close (db d) w.

Definition Datastore_Delete (d : Datastore) (key : ds.Key) (w : sql.World)
  : option error * sql.World :=
  let (result, w) :=
    sql.DB_Exec (db d) (Delete (queries d)) [sql.VStr (ds.Key_String key)] w in
  match result with
  | sql.Failed e => (Some e, w)
  | sql.Done result =>
      let (rows, err) := sql.RowsAffected result in
      match err with
      | Some e => (Some e, w)
      | None => if rows =? 0 then (Some ErrNotFound, w) else (None, w)
      end
  end.

Definition Datastore_Get (d : Datastore) (key : ds.Key) (w : sql.World)
  : (bytes * option error) * sql.World :=
  let (row, w) :=
    sql.DB_QueryRow (db d) (Get (queries d)) [sql.VStr (ds.Key_String key)] w in
  let (out, err) := sql.Row_Scan sql.to_bytes row [] in
  match err with
  | Some ErrNoRows => (([], Some ErrNotFound), w)
  | None => ((out, None), w)
  | Some e => (([], Some e), w)
  end.

Definition Datastore_Has (d : Datastore) (key : ds.Key) (w : sql.World)
  : (bool * option error) * sql.World :=
  let (row, w) :=
    sql.DB_QueryRow (db d) (Exists (queries d)) [sql.VStr (ds.Key_String key)] w in
  let (exists_, err) := sql.Row_Scan sql.to_bool row false in
  match err with
  | Some ErrNoRows => ((exists_, None), w)
  | None => ((exists_, None), w)
  | Some e => ((exists_, Some e), w)
  end.

Definition Datastore_Put (d : Datastore) (key : ds.Key) (value : bytes)
           (w : sql.World) : option error * sql.World :=
  let (result, w) :=
    sql.DB_Exec (db d) (Put (queries d))
                [sql.VStr (ds.Key_String key); sql.VBytes value] w in
  match result with
  | sql.Failed e => (Some e, w)
  | sql.Done _ => (None, w)
  end.

(** [QueryWithParams] in two steps: the statement it composes, and its
    execution. *)
Definition compose (queries : Queries) (q : dsq.Query) : string :=
  let qNew := Query queries in
  let qNew :=
    if negb (String.eqb (dsq.Prefix q) "") then
      let prefix := ds.Key_String (ds.NewKey (dsq.Prefix q)) in
      if negb (String.eqb prefix "/")
      then qNew ++ fmt.Sprintf (Prefix queries) [fmt.S_ (prefix ++ "/")]
      else qNew
    else qNew in
  if ((length (dsq.Filters q) =? 0) && (length (dsq.Orders q) =? 0))%nat%bool then
    let qNew :=
      if negb (dsq.Limit q =? 0)
      then qNew ++ fmt.Sprintf (Limit queries) [fmt.D_ (dsq.Limit q)]
      else qNew in
    if negb (dsq.Offset q =? 0)
    then qNew ++ fmt.Sprintf (Offset queries) [fmt.D_ (dsq.Offset q)]
    else qNew
  else qNew.

Definition QueryWithParams (d : Datastore) (q : dsq.Query) (w : sql.World)
  : sql.outcome sql.Rows * sql.World :=
  sql.DB_Query (db d) (compose (queries d) q) w.

(** The [Next] closure of [RawQuery]; it captures [rows] and [q]. *)
Definition RawQuery_Next (q : dsq.Query) (rows : sql.Rows)
  : (dsq.Result * bool) * sql.Rows :=
  let (more, rows) := sql.Rows_Next rows in
  if negb more then ((dsq.zero_Result, false), rows)
  else
    let '((key, out), err) := sql.Rows_Scan rows in
    match err with
    | Some e => ((dsq.mkResult dsq.zero_Entry (Some e), false), rows)
    | None =>
        let value := if negb (dsq.KeysOnly q) then out else [] in
        let size := if dsq.ReturnsSizes q then sql.len out else 0 in
        ((dsq.mkResult (dsq.mkEntry key value size) None, true), rows)
    end.

Definition RawQuery_iterator (q : dsq.Query) : dsq.Iterator sql.Rows :=
  {| dsq.Next := RawQuery_Next q; dsq.Close := sql.Rows_Close |}.

(** The results of [ResultsFromIterator] over a cursor: each call of
    [Next] that yields moves past one row, so the rows to come plus one
    bound the calls. *)
Definition results_of (q : dsq.Query) (rows : sql.Rows) : dsq.Results :=
  match dsq.yielded (RawQuery_iterator q) (S (length (sql.pending rows))) rows with
  | Some (l, _) => l
  | None => []
  end.

Definition Datastore_RawQuery (d : Datastore) (q : dsq.Query) (w : sql.World)
  : sql.outcome dsq.Results * sql.World :=
  let (rows, w) := QueryWithParams d q w in
  match rows with
  | sql.Failed e => (sql.Failed e, w)
  | sql.Done rows => (sql.Done (results_of q rows), w)
  end.

Definition Datastore_Query `{dsq.PostProcess} (d : Datastore) (q : dsq.Query)
           (w : sql.World) : sql.outcome dsq.Results * sql.World :=
  let (raw, w) := Datastore_RawQuery d q w in
  match raw with
  | sql.Failed e => (sql.Failed e, w)
  | sql.Done raw =>
      let raw := fold_left dsq.NaiveFilter (dsq.Filters q) raw in
      let raw := dsq.NaiveOrder raw (dsq.Orders q) in
      let raw :=
        if ((0 <? length (dsq.Filters q)) || (0 <? length (dsq.Orders q)))%nat%bool then
          let raw :=
            if negb (dsq.Offset q =? 0) then dsq.NaiveOffset raw (dsq.Offset q)
            else raw in
          if negb (dsq.Limit q =? 0) then dsq.NaiveLimit raw (dsq.Limit q)
          else raw
        else raw in
      (sql.Done raw, w)
  end.

Definition Datastore_Sync (d : Datastore) (key : ds.Key) (w : sql.World)
  : option error * sql.World :=
  (None, w).

Definition Datastore_GetSize (d : Datastore) (key : ds.Key) (w : sql.World)
  : (Z * option error) * sql.World :=
  let (row, w) :=
    sql.DB_QueryRow (db d) (GetSize (queries d)) [sql.VStr (ds.Key_String key)] w in
  let (size, err) := sql.Row_Scan sql.to_int row 0 in
  match err with
  | Some ErrNoRows => ((-1, Some ErrNotFound), w)
  | None => ((size, None), w)
  | Some e => ((0, Some e), w)
  end.

End sqlds.

(** ** Package [postgres] *)
Module postgres.

Record Options : Type := {
  Host : string;
  Port : string;
  User : string;
  Password : string;
  Database : string;
  Table : string }.

Record Queries : Type := {
  deleteQuery : string;
  existsQuery : string;
  getQuery : string;
  putQuery : string;
  queryQuery : string;
  prefixQuery : string;
  limitQuery : string;
  offsetQuery : string;
  getSizeQuery : string }.

Definition NewQueries (tbl : string) : Queries := {|
  deleteQuery := fmt.Sprintf "DELETE FROM %s WHERE key = $1" [fmt.S_ tbl];
  existsQuery := fmt.Sprintf "SELECT exists(SELECT 1 FROM %s WHERE key=$1)" [fmt.S_ tbl];
  getQuery := fmt.Sprintf "SELECT data FROM %s WHERE key = $1" [fmt.S_ tbl];
  putQuery :=
    fmt.Sprintf
      "INSERT INTO %s (key, data) VALUES ($1, $2) ON CONFLICT (key) DO UPDATE SET data = $2"
      [fmt.S_ tbl];
  queryQuery := fmt.Sprintf "SELECT key, data FROM %s" [fmt.S_ tbl];
  prefixQuery := " WHERE key LIKE '%s%%' ORDER BY key";
  limitQuery := " LIMIT %d";
  offsetQuery := " OFFSET %d";
  getSizeQuery :=
    fmt.Sprintf "SELECT octet_length(data) FROM %s WHERE key = $1" [fmt.S_ tbl] |}.

Definition Delete (q : Queries) : string := deleteQuery q.
Definition Exists (q : Queries) : string := existsQuery q.
Definition Get (q : Queries) : string := getQuery q.
Definition Put (q : Queries) : string := putQuery q.
Definition Query (q : Queries) : string := queryQuery q.
Definition Prefix (q : Queries) : string := prefixQuery q.
Definition Limit (q : Queries) : string := limitQuery q.
Definition Offset (q : Queries) : string := offsetQuery q.
Definition GetSize (q : Queries) : string := getSizeQuery q.

(** [Queries] satisfies the interface [sqlds.Queries]. *)
Definition as_Queries (q : Queries) : sqlds.Queries := {|
  sqlds.Delete := Delete q;
  sqlds.Exists := Exists q;
  sqlds.Get := Get q;
  sqlds.Put := Put q;
  sqlds.Query := Query q;
  sqlds.Prefix := Prefix q;
  sqlds.Limit := Limit q;
  sqlds.Offset := Offset q;
  sqlds.GetSize := GetSize q |}.

Definition or_default (s d : string) : string :=
  if String.eqb s "" then d else s.

Definition setDefaults (opts : Options) : Options := {|
  Host := or_default (Host opts) "127.0.0.1";
  Port := or_default (Port opts) "5432";
  User := or_default (User opts) "postgres";
  Password := Password opts;
  Database := or_default (Database opts) "datastore";
  Table := or_default (Table opts) "blocks" |}.

(** [Create]: the options with their defaults, the connection string, and
    [sql.Open]. *)
Definition Create (opts : Options) (w : sql.World)
  : (option sqlds.Datastore * option error) * Options * sql.World :=
  let opts := setDefaults opts in
  let fmtstr := "postgresql:///%s?host=%s&port=%s&user=%s&password=%s&sslmode=disable" in
  let constr :=
    fmt.Sprintf fmtstr
      [fmt.S_ (Database opts); fmt.S_ (Host opts); fmt.S_ (Port opts);
       fmt.S_ (User opts); fmt.S_ (Password opts)] in
  let (db, w) := sql.Open "postgres" constr w in
  match db with
  | sql.Failed e => ((None, Some e), opts, w)
  | sql.Done db =>
      ((Some (sqlds.NewDatastore db (as_Queries (NewQueries (Table opts)))), None),
       opts, w)
  end.

End postgres.

(** ** Package [sqlite] *)
Module sqlite.

Record Options : Type := {
  Driver : string;
  DSN : string;
  Table : string;
  NoCreate : bool;
  Key : bytes;
  CipherPageSize : Z }.

Record Queries : Type := {
  deleteQuery : string;
  existsQuery : string;
  getQuery : string;
  putQuery : string;
  queryQuery : string;
  prefixQuery : string;
  limitQuery : string;
  offsetQuery : string;
  getSizeQuery : string }.

Definition NewQueries (tbl : string) : Queries := {|
  deleteQuery := fmt.Sprintf "DELETE FROM %s WHERE key = $1" [fmt.S_ tbl];
  existsQuery := fmt.Sprintf "SELECT exists(SELECT 1 FROM %s WHERE key=$1)" [fmt.S_ tbl];
  getQuery := fmt.Sprintf "SELECT data FROM %s WHERE key = $1" [fmt.S_ tbl];
  putQuery :=
    fmt.Sprintf "INSERT OR REPLACE INTO %s(key, data) VALUES($1, $2)" [fmt.S_ tbl];
  queryQuery := fmt.Sprintf "SELECT key, data FROM %s" [fmt.S_ tbl];
  prefixQuery := " WHERE key GLOB '%s*' ORDER BY key";
  limitQuery := " LIMIT %d";
  offsetQuery := " OFFSET %d";
  getSizeQuery := fmt.Sprintf "SELECT length(data) FROM %s WHERE key = $1" [fmt.S_ tbl] |}.

Definition Delete (q : Queries) : string := deleteQuery q.
Definition Exists (q : Queries) : string := existsQuery q.
Definition Get (q : Queries) : string := getQuery q.
Definition Put (q : Queries) : string := putQuery q.
Definition Query (q : Queries) : string := queryQuery q.
Definition Prefix (q : Queries) : string := prefixQuery q.
Definition Limit (q : Queries) : string := limitQuery q.
Definition Offset (q : Queries) : string := offsetQuery q.
Definition GetSize (q : Queries) : string := getSizeQuery q.

(** [Queries] satisfies the interface [sqlds.Queries]. *)
Definition as_Queries (q : Queries) : sqlds.Queries := {|
  sqlds.Delete := Delete q;
  sqlds.Exists := Exists q;
  sqlds.Get := Get q;
  sqlds.Put := Put q;
  sqlds.Query := Query q;
  sqlds.Prefix := Prefix q;
  sqlds.Limit := Limit q;
  sqlds.Offset := Offset q;
  sqlds.GetSize := GetSize q |}.

Definition setDefaults (opts : Options) : Options := {|
  Driver := if String.eqb (Driver opts) "" then "sqlite3" else Driver opts;
  DSN := if String.eqb (DSN opts) "" then ":memory:" else DSN opts;
  Table := if String.eqb (Table opts) "" then "blocks" else Table opts;
  NoCreate := NoCreate opts;
  Key := Key opts;
  CipherPageSize :=
    if (negb (length (Key opts) =? 0)%nat && (CipherPageSize opts =? 0))%bool
    then 4096 else CipherPageSize opts |}.

Definition hex_digit (n : N) : ascii :=
  match String.get (N.to_nat n) "0123456789abcdef" with
  | Some c => c
  | None => "0"%char
  end.

(** [hex.EncodeToString]. *)
Fixpoint EncodeToString (b : bytes) : string :=
  match b with
  | [] => ""
  | x :: b' =>
      let n := Byte.to_N x in
      String (hex_digit (N.div n 16)) (String (hex_digit (N.modulo n 16))
        (EncodeToString b'))
  end.

Definition create_table : string :=
  sql.nl ++ sql.tab ++ sql.tab ++ sql.tab ++ "CREATE TABLE IF NOT EXISTS %s (" ++
  sql.nl ++ sql.tab ++ sql.tab ++ sql.tab ++ sql.tab ++ "key TEXT PRIMARY KEY," ++
  sql.nl ++ sql.tab ++ sql.tab ++ sql.tab ++ sql.tab ++ "data BLOB" ++
  sql.nl ++ sql.tab ++ sql.tab ++ sql.tab ++ ") WITHOUT ROWID;" ++
  sql.nl ++ sql.tab ++ sql.tab.

(** [Create]: the options with their defaults, the data source name with
    the cipher arguments, then [sql.Open], [Ping] and the table. *)
Definition Create (opts : Options) (w : sql.World)
  : (option sqlds.Datastore * option error) * Options * sql.World :=
  let opts := setDefaults opts in
  if (negb (length (Key opts) =? 0)%nat && negb (length (Key opts) =? 32)%nat)%bool then
    ((None,
      Some (ErrNew (fmt.Sprintf "bad key length, expected 32 bytes, got %d"
                      [fmt.D_ (sql.len (Key opts))]))), opts, w)
  else
    let args :=
      if negb (length (Key opts) =? 0)%nat then
        [fmt.Sprintf "_pragma_key=x'%s'" [fmt.S_ (EncodeToString (Key opts))];
         fmt.Sprintf "_pragma_cipher_page_size=%d" [fmt.D_ (CipherPageSize opts)]]
      else [] in
    let dsn := DSN opts in
    let dsn :=
      if negb (length args =? 0)%nat then
        (if contains_char "?" dsn then dsn ++ "&" else dsn ++ "?") ++ join "&" args
      else dsn in
    let (db, w) := sql.Open (Driver opts) dsn w in
    match db with
    | sql.Failed e => ((None, Some (ErrWrap e "failed to open database")), opts, w)
    | sql.Done db =>
        let (err, w) := sql.DB_Ping db w in
        match err with
        | Some e =>
            let (_, w) := sql.DB_Close db w in
            ((None, Some (ErrWrap e "failed to ping database")), opts, w)
        | None =>
            let created :=
              if negb (NoCreate opts) then
                let (res, w) :=
                  sql.DB_Exec db (fmt.Sprintf create_table [fmt.S_ (Table opts)]) [] w in
                match res with
                | sql.Failed e => (Some e, w)
                | sql.Done _ => (None, w)
                end
              else (None, w) in
            let (err, w) := created in
            match err with
            | Some e =>
                let (_, w) := sql.DB_Close db w in
                ((None, Some (ErrWrap e "failed to ensure table exists")), opts, w)
            | None =>
                ((Some (sqlds.NewDatastore db (as_Queries (NewQueries (Table opts)))),
                  None), opts, w)
            end
        end
    end.

End sqlite.

(** * Vocabulary of the properties *)

(** The dialect provider that goes with an engine. *)
Definition provider (e : sql.engine) (tbl : string) : sqlds.Queries :=
  match e with
  | sql.Postgres => postgres.as_Queries (postgres.NewQueries tbl)
  | sql.SQLite => sqlite.as_Queries (sqlite.NewQueries tbl)
  end.

Definition starts_with (f : ascii -> bool) (s : string) : bool :=
  match s with
  | EmptyString => false
  | String c _ => f c
  end.

(** Nothing fails: the handle is open and no fault is pending. *)
Definition quiet (w : sql.World) : Prop :=
  sql.closed w = false /\ Forall (fun f => f = None) (sql.faults w).

(** The database runs engine [e] and holds table [t] with these rows. *)
Definition serves (e : sql.engine) (t : string) (rows : sql.Table) (w : sql.World) : Prop :=
  sql.flavour w = e /\ sql.lookup t (sql.tables w) = Some rows.

(** The world after a call that went through. *)
Definition after (ev : sql.event) (w : sql.World) : sql.World :=
  sql.set_faults (tl (sql.faults w)) (sql.record_ ev w).

(** What a put leaves in the table, by engine. *)
Definition put_rows (e : sql.engine) (k : string) (v : bytes) (rows : sql.Table) : sql.Table :=
  match e with
  | sql.Postgres => sql.store k v rows
  | sql.SQLite => (sql.remove k rows ++ [(k, v)])%list
  end.

(** One operation of a batch, as its caller issues it. *)
Inductive step : Type :=
| DoPut (k : ds.Key) (v : bytes)
| DoDelete (k : ds.Key)
| DoCommit.

Definition is_write (s : step) : bool :=
  match s with
  | DoCommit => false
  | _ => true
  end.

Definition run_step (s : step) (b : sqlds.batch) (w : sql.World)
  : go (option error) * sqlds.batch * sql.World :=
  match s with
  | DoPut k v => sqlds.batch_Put b k v w
  | DoDelete k => sqlds.batch_Delete b k w
  | DoCommit => let '(err, b, w) := sqlds.batch_Commit b w in (Returns err, b, w)
  end.

(** A caller that goes on whatever the operations return; a panic ends it. *)
Fixpoint run (l : list step) (b : sqlds.batch) (w : sql.World)
  : list (go (option error)) * sqlds.batch * sql.World :=
  match l with
  | [] => ([], b, w)
  | s :: l' =>
      let '(r, b1, w1) := run_step s b w in
      match r with
      | Panics _ => ([r], b1, w1)
      | Returns _ =>
          let '(rs, b2, w2) := run l' b1 w1 in
          (r :: rs, b2, w2)
      end
  end.

(** The statement that a write sends, with its arguments. *)
Definition statement (qs : sqlds.Queries) (s : step) : string * list sql.value :=
  match s with
  | DoPut k v => (sqlds.Put qs, [sql.VStr (ds.Key_String k); sql.VBytes v])
  | DoDelete k => (sqlds.Delete qs, [sql.VStr (ds.Key_String k)])
  | DoCommit => ("", [])
  end.

(** What a write does to the tables of engine [e] holding table [t]. *)
Definition apply_step (e : sql.engine) (t : string) (ts : sql.Tables) (s : step)
  : sql.Tables :=
  match s, sql.lookup t ts with
  | DoPut k v, Some rows => sql.store t (put_rows e k v rows) ts
  | DoDelete k, Some rows => sql.store t (sql.remove k rows) ts
  | _, _ => ts
  end.

(** The body that [batch.Put] and [batch.Delete] share. *)
Definition batch_exec (b : sqlds.batch) (q : string) (args : list sql.value)
           (w : sql.World) : go (option error) * sqlds.batch * sql.World :=
  let '((txn_, err), b, w) := sqlds.batch_GetTransaction b w in
  match err with
  | Some e =>
      let '(r, b, w) := sqlds.rollback_txn b w in
      match r with
      | Panics m => (Panics m, b, w)
      | Returns _ => (Returns (Some e), b, w)
      end
  | None =>
      match txn_ with
      | None => (Panics nil_dereference, b, w)
      | Some t =>
          let '(res, t, w) := sql.Tx_Exec t q args w in
          let b := sqlds.set_txn (Some t) b in
          match res with
          | sql.Failed e =>
              let '(r, b, w) := sqlds.rollback_txn b w in
              match r with
              | Panics m => (Panics m, b, w)
              | Returns _ => (Returns (Some e), b, w)
              end
          | sql.Done _ => (Returns None, b, w)
          end
      end
  end.

(** The tables that the next write of a batch works on. *)
Definition sees (b : sqlds.batch) (w : sql.World) : sql.Tables :=
  match sqlds.txn b with
  | None => sql.tables w
  | Some t => sql.view t
  end.

(** The batch can still write: no transaction yet, or an open one. *)
Definition live (b : sqlds.batch) : Prop :=
  match sqlds.txn b with
  | None => True
  | Some t => sql.done t = false
  end.

(** The transaction of the batch has ended. *)
Definition ended (b : sqlds.batch) : Prop :=
  exists t, sqlds.txn b = Some t /\ sql.done t = true.

Definition is_error (r : go (option error)) : Prop :=
  exists e, r = Returns (Some e).

(** The result that the iterator of [RawQuery] makes of a scanned row. *)
Definition entry_of (q : dsq.Query) (key : string) (out : bytes) : dsq.Result :=
  dsq.mkResult
    (dsq.mkEntry key
       (if negb (dsq.KeysOnly q) then out else [])
       (if dsq.ReturnsSizes q then sql.len out else 0))
    None.

(** The rows of a cursor up to the first whose scan fails. *)
Fixpoint scanned (q : dsq.Query) (l : list (string * bytes * option error))
  : dsq.Results :=
  match l with
  | (k, v, None) :: l' => entry_of q k v :: scanned q l'
  | _ => []
  end.

Definition fresh_cursor (l : list (string * bytes * option error)) : sql.Rows :=
  {| sql.current := None; sql.pending := l; sql.rows_closed := false |}.

(** The pieces of the composed statement. *)
Definition prefix_part (qs : sqlds.Queries) (q : dsq.Query) : string :=
  if String.eqb (dsq.Prefix q) "" then ""
  else if String.eqb (ds.NewKey (dsq.Prefix q)) "/" then ""
  else fmt.Sprintf (sqlds.Prefix qs) [fmt.S_ (ds.NewKey (dsq.Prefix q) ++ "/")].

Definition limit_part (qs : sqlds.Queries) (q : dsq.Query) : string :=
  if dsq.Limit q =? 0 then ""
  else fmt.Sprintf (sqlds.Limit qs) [fmt.D_ (dsq.Limit q)].

Definition offset_part (qs : sqlds.Queries) (q : dsq.Query) : string :=
  if dsq.Offset q =? 0 then ""
  else fmt.Sprintf (sqlds.Offset qs) [fmt.D_ (dsq.Offset q)].

(** The query has neither filters nor orders. *)
Definition plain (q : dsq.Query) : bool :=
  ((length (dsq.Filters q) =? 0) && (length (dsq.Orders q) =? 0))%nat%bool.

(** The same query without limit and offset. *)
Definition unwindowed (q : dsq.Query) : dsq.Query :=
  dsq.mkQuery (dsq.Prefix q) (dsq.Filters q) (dsq.Orders q) 0 0
              (dsq.KeysOnly q) (dsq.ReturnsSizes q).

(** The offset, then the limit, of [q] on a sequence of results. *)
Definition window_of `{dsq.PostProcess} (q : dsq.Query) (raw : dsq.Results)
  : dsq.Results :=
  let raw :=
    if negb (dsq.Offset q =? 0) then dsq.NaiveOffset raw (dsq.Offset q) else raw in
  if negb (dsq.Limit q =? 0) then dsq.NaiveLimit raw (dsq.Limit q) else raw.

Definition map_outcome {A B} (f : A -> B) (r : sql.outcome A) : sql.outcome B :=
  match r with
  | sql.Done a => sql.Done (f a)
  | sql.Failed e => sql.Failed e
  end.

(** The statement of [q] carries no limit and no offset. *)
Definition no_sql_window (q : dsq.Query) : bool :=
  (negb (plain q) || ((dsq.Limit q =? 0) && (dsq.Offset q =? 0)))%bool.

(** The characters that a pattern of the engine, or the literal around it,
    does not take for themselves. *)
Definition meta (e : sql.engine) (c : ascii) : bool :=
  (Ascii.eqb c "'" ||
   match e with
   | sql.Postgres => Ascii.eqb c "%" || Ascii.eqb c "_" || Ascii.eqb c "\"
   | sql.SQLite => Ascii.eqb c "*" || Ascii.eqb c "?" || Ascii.eqb c "["
   end)%bool.

Definition literal (e : sql.engine) (s : string) : bool :=
  sql.all_chars (fun c => negb (meta e c)) s.

(** Key [k] lies strictly below the path [p]. *)
Definition below (p k : string) : bool := String.prefix (p ++ "/") k.

(** The prefix fragment of each dialect, around the spliced pattern. *)
Definition where_text (e : sql.engine) (p : string) : string :=
  match e with
  | sql.Postgres => " WHERE key LIKE '" ++ p ++ "%' ORDER BY key"
  | sql.SQLite => " WHERE key GLOB '" ++ p ++ "*' ORDER BY key"
  end.

(** A string as a pattern that stands for itself. *)
Fixpoint lits (s : string) : list sql.ptok :=
  match s with
  | EmptyString => []
  | String c s' => sql.PLit c :: lits s'
  end.

(** The wildcard that ends the pattern, and the operator, of each dialect. *)
Definition wildcard (e : sql.engine) : string :=
  match e with
  | sql.Postgres => "%"
  | sql.SQLite => "*"
  end.

Definition operator (e : sql.engine) : sql.where_op :=
  match e with
  | sql.Postgres => sql.LIKE
  | sql.SQLite => sql.GLOB
  end.

(** A datastore over table "blocks" on engine [e], and the world that
    serves it these rows with nothing pending. *)
Definition blocks_store (e : sql.engine) : sqlds.Datastore :=
  sqlds.NewDatastore
    {| sql.driverName := match e with sql.Postgres => "postgres" | sql.SQLite => "sqlite3" end;
       sql.dataSourceName := "" |}
    (provider e "blocks").

Definition blocks_world (e : sql.engine) (rows : sql.Table) (fs : list (option error))
  : sql.World :=
  sql.mkWorld ["postgres"; "sqlite3"] e [("blocks", rows)] false fs [] [].

Definition text (s : string) : bytes := list_byte_of_string s.

Definition keys_of (r : sql.outcome dsq.Results) : list string :=
  match r with
  | sql.Done rs => map (fun r => dsq.Key (dsq.Entry_ r)) rs
  | sql.Failed _ => []
  end.

(** [dsq.OrderByKeyDescending] and a filter on the size of the value. *)
Definition OrderByKeyDescending : dsq.Order :=
  {| dsq.Compare := fun a b =>
       match String.compare (dsq.Key b) (dsq.Key a) with
       | Lt => -1
       | Eq => 0
       | Gt => 1
       end |}.

Definition value_not_empty : dsq.Filter :=
  {| dsq.Filter_ := fun en => negb (length (dsq.Value en) =? 0)%nat |}.

Definition boom : error := ErrNew "boom".

(** The call that a write of a batch makes on its transaction. *)
Definition exec_event (qs : sqlds.Queries) (s : step) : sql.event :=
  sql.EvTxExec (fst (statement qs s)) (snd (statement qs s)).

(** The calls of a row of writes on a batch: [Begin] when the batch has no
    transaction yet and there is a write, then one [Exec] for each. *)
Definition calls_of (b : sqlds.batch) (qs : sqlds.Queries) (l : list step)
  : list sql.event :=
  match sqlds.txn b, l with
  | None, _ :: _ => sql.EvBegin :: map (exec_event qs) l
  | _, _ => map (exec_event qs) l
  end.

(** What [Get] answers from the rows of a table. *)
Definition answer (k : string) (rows : sql.Table) : bytes * option error :=
  match sql.lookup k rows with
  | Some v => (v, None)
  | None => ([], Some ErrNotFound)
  end.

(** A cipher key that [Create] of sqlite lets through: none, or 32 bytes. *)
Definition key_fits (key : bytes) : bool :=
  ((length key =? 0)%nat || (length key =? 32)%nat)%bool.

(** The table of the rows [Create] of sqlite leaves under a name. *)
Definition rows_at (t : string) (ts : sql.Tables) : sql.Table :=
  match sql.lookup t ts with
  | Some rows => rows
  | None => []
  end.

(** The limit and the offset that the statement of a plain query carries. *)
Definition sql_limit (q : dsq.Query) : option Z :=
  if dsq.Limit q =? 0 then None else Some (dsq.Limit q).

Definition sql_offset (q : dsq.Query) : option Z :=
  if dsq.Offset q =? 0 then None else Some (dsq.Offset q).

Definition window_text (lim off : option Z) : string :=
  match lim with Some l => " LIMIT " ++ fmt.itoa l | None => "" end ++
  match off with Some o => " OFFSET " ++ fmt.itoa o | None => "" end.

(** The rows that the prefix of a query selects: all of them, as they lie
    in the table, for no prefix or the root; else those below the key of
    the prefix, by key. *)
Definition prefix_rows (q : dsq.Query) (rows : sql.Table) : sql.Table :=
  if (String.eqb (dsq.Prefix q) "" || String.eqb (ds.NewKey (dsq.Prefix q)) "/")%bool
  then rows
  else sql.order_by_key
         (filter (fun r => below (ds.NewKey (dsq.Prefix q)) (fst r)) rows).

(** Offset [o], then limit [l] (zero: none), of a list. *)
Definition cut {A} (l o : Z) (rows : list A) : list A :=
  let rest := skipn (Z.to_nat o) rows in
  if l =? 0 then rest else firstn (Z.to_nat l) rest.

Definition entries (q : dsq.Query) (rows : sql.Table) : dsq.Results :=
  map (fun r => entry_of q (fst r) (snd r)) rows.

(** * Properties *)

(** ** Strings *)

Lemma append_empty (s : string) : s ++ "" = s.
Proof. induction s as [|c s IH]; simpl; [reflexivity | now rewrite IH]. Qed.

Lemma append_assoc (a b c : string) : (a ++ b) ++ c = a ++ b ++ c.
Proof. induction a as [|x a IH]; simpl; [reflexivity | now rewrite IH]. Qed.

Lemma strip_prefix_app (p s : string) : strip_prefix p (p ++ s) = Some s.
Proof.
  induction p as [|a p IH]; simpl; [reflexivity|].
  now rewrite Ascii.eqb_refl.
Qed.

Lemma take_while_app (f : ascii -> bool) (a r : string) :
  sql.all_chars f a = true ->
  starts_with f r = false ->
  sql.take_while f (a ++ r) = (a, r).
Proof.
  intros Ha Hr. induction a as [|c a IH]; simpl in *.
  - destruct r as [|c r]; simpl in *; [reflexivity|]. now rewrite Hr.
  - apply andb_true_iff in Ha as [Hc Ha]. rewrite Hc, (IH Ha). reflexivity.
Qed.

Lemma ident_chars (t : string) : sql.ident t = true -> sql.all_chars sql.is_ident_char t = true.
Proof.
  destruct t as [|c t]; simpl; [discriminate|].
  intros H. now apply andb_true_iff in H as [_ H].
Qed.

(** ** The engine reads the statements of its provider *)

Lemma parse_shapes_here l pre suf mk (t : string) :
  sql.ident t = true ->
  starts_with sql.is_ident_char suf = false ->
  sql.parse_shapes ((pre, suf, mk) :: l) (pre ++ t ++ suf) = Some (mk t).
Proof.
  intros Ht Hs. simpl.
  rewrite strip_prefix_app, (take_while_app _ _ _ (ident_chars _ Ht) Hs).
  now rewrite Ht, String.eqb_refl.
Qed.

Lemma parse_shapes_next l pre suf mk (q : string) :
  strip_prefix pre q = None ->
  sql.parse_shapes ((pre, suf, mk) :: l) q = sql.parse_shapes l q.
Proof. intros H. simpl. now rewrite H. Qed.

Ltac read_shape :=
  unfold sql.parse, sql.shapes;
  repeat (rewrite parse_shapes_next by reflexivity);
  match goal with
  | |- context [sql.parse_shapes ((?pre, ?suf, ?mk) :: ?l) _] =>
      rewrite (parse_shapes_here l pre suf mk) by (assumption || reflexivity)
  end.

(** The statements of the two providers, as texts around the table name. *)
Lemma Delete_text e t :
  sqlds.Delete (provider e t) = "DELETE FROM " ++ t ++ " WHERE key = $1".
Proof. now destruct e. Qed.

Lemma Exists_text e t :
  sqlds.Exists (provider e t) = "SELECT exists(SELECT 1 FROM " ++ t ++ " WHERE key=$1)".
Proof. now destruct e. Qed.

Lemma Get_text e t :
  sqlds.Get (provider e t) = "SELECT data FROM " ++ t ++ " WHERE key = $1".
Proof. now destruct e. Qed.

Lemma Put_text e t :
  sqlds.Put (provider e t) =
  match e with
  | sql.Postgres =>
      "INSERT INTO " ++ t ++
      " (key, data) VALUES ($1, $2) ON CONFLICT (key) DO UPDATE SET data = $2"
  | sql.SQLite => "INSERT OR REPLACE INTO " ++ t ++ "(key, data) VALUES($1, $2)"
  end.
Proof. now destruct e. Qed.

Lemma GetSize_text e t :
  sqlds.GetSize (provider e t) =
  match e with
  | sql.Postgres => "SELECT octet_length(data) FROM " ++ t ++ " WHERE key = $1"
  | sql.SQLite => "SELECT length(data) FROM " ++ t ++ " WHERE key = $1"
  end.
Proof. now destruct e. Qed.

Lemma Query_text e t : sqlds.Query (provider e t) = "SELECT key, data FROM " ++ t.
Proof. destruct e; cbn; now rewrite append_empty. Qed.

Lemma parse_Delete e t :
  sql.ident t = true -> sql.parse (sqlds.Delete (provider e t)) = Some (sql.Delete_ t).
Proof. intros Ht. rewrite Delete_text. now read_shape. Qed.

Lemma parse_Exists e t :
  sql.ident t = true -> sql.parse (sqlds.Exists (provider e t)) = Some (sql.Exists_ t).
Proof. intros Ht. rewrite Exists_text. now read_shape. Qed.

Lemma parse_Get e t :
  sql.ident t = true -> sql.parse (sqlds.Get (provider e t)) = Some (sql.Get_ t).
Proof. intros Ht. rewrite Get_text. now read_shape. Qed.

Lemma parse_Put e t :
  sql.ident t = true ->
  sql.parse (sqlds.Put (provider e t)) =
  Some (match e with sql.Postgres => sql.Upsert_ t | sql.SQLite => sql.Replace_ t end).
Proof. intros Ht. rewrite Put_text. destruct e; now read_shape. Qed.

Lemma parse_GetSize e t :
  sql.ident t = true ->
  sql.parse (sqlds.GetSize (provider e t)) =
  Some (match e with sql.Postgres => sql.OctetLength_ t | sql.SQLite => sql.Length_ t end).
Proof. intros Ht. rewrite GetSize_text. destruct e; now read_shape. Qed.

(** ** Worlds *)

Lemma call_quiet ev w : quiet w -> sql.call ev w = (None, after ev w).
Proof.
  intros [Hc Hf]. unfold sql.call, after. cbn. rewrite Hc.
  destruct w as [dr fl ts cl fs sf lg]; cbn in *.
  destruct fs as [|f fs]; [reflexivity|].
  inversion Hf; subst. reflexivity.
Qed.

Lemma quiet_after ev w : quiet w -> quiet (after ev w).
Proof.
  intros [Hc Hf]. split; [exact Hc|]. cbn.
  destruct (sql.faults w); [constructor | now inversion Hf].
Qed.

Lemma lookup_store_same {A} (k : string) (a : A) l : sql.lookup k (sql.store k a l) = Some a.
Proof.
  induction l as [|[k' a'] l IH]; simpl.
  - now rewrite String.eqb_refl.
  - destruct (String.eqb k' k) eqn:E; simpl.
    + now rewrite String.eqb_refl.
    + now rewrite E.
Qed.

Lemma lookup_remove_same {A} (k : string) (l : list (string * A)) :
  sql.lookup k (sql.remove k l) = None.
Proof.
  induction l as [|[k' a'] l IH]; simpl; [reflexivity|].
  destruct (String.eqb k' k) eqn:E; simpl; [exact IH | now rewrite E].
Qed.

Lemma lookup_app {A} (k : string) (l1 l2 : list (string * A)) :
  sql.lookup k (l1 ++ l2)%list =
  match sql.lookup k l1 with Some a => Some a | None => sql.lookup k l2 end.
Proof.
  induction l1 as [|[k' a'] l1 IH]; simpl; [reflexivity|].
  now destruct (String.eqb k' k).
Qed.

Lemma matching_absent {A} (k : string) (l : list (string * A)) :
  sql.lookup k l = None -> sql.matching k l = 0.
Proof.
  unfold sql.matching. induction l as [|[k' a'] l IH]; simpl; [reflexivity|].
  destruct (String.eqb k' k); [discriminate | exact IH].
Qed.

Lemma matching_present {A} (k : string) (l : list (string * A)) (a : A) :
  sql.lookup k l = Some a -> (sql.matching k l =? 0) = false.
Proof.
  unfold sql.matching. induction l as [|[k' a'] l IH]; simpl; [discriminate|].
  destruct (String.eqb k' k); [reflexivity | exact IH].
Qed.

Lemma lookup_put_rows e k v rows : sql.lookup k (put_rows e k v rows) = Some v.
Proof.
  destruct e; simpl.
  - apply lookup_store_same.
  - rewrite lookup_app, lookup_remove_same. simpl. now rewrite String.eqb_refl.
Qed.

(** ** The statements, executed *)

Lemma exec_Put e t k v ts rows :
  sql.ident t = true ->
  sql.lookup t ts = Some rows ->
  sql.exec e (sqlds.Put (provider e t)) [sql.VStr k; sql.VBytes v] ts =
  sql.Done (1, sql.store t (put_rows e k v rows) ts).
Proof.
  intros Ht Hl. unfold sql.exec. rewrite (parse_Put e t Ht).
  destruct e; unfold sql.on_table; now rewrite Hl.
Qed.

Lemma exec_Delete e t k ts rows :
  sql.ident t = true ->
  sql.lookup t ts = Some rows ->
  sql.exec e (sqlds.Delete (provider e t)) [sql.VStr k] ts =
  sql.Done (sql.matching k rows, sql.store t (sql.remove k rows) ts).
Proof.
  intros Ht Hl. unfold sql.exec. rewrite (parse_Delete e t Ht).
  destruct e; unfold sql.on_table; now rewrite Hl.
Qed.

Lemma query_row_Get e t k ts rows :
  sql.ident t = true ->
  sql.lookup t ts = Some rows ->
  sql.query_row e (sqlds.Get (provider e t)) [sql.VStr k] ts =
  sql.Done (option_map sql.VBytes (sql.lookup k rows)).
Proof.
  intros Ht Hl. unfold sql.query_row. rewrite (parse_Get e t Ht).
  destruct e; unfold sql.on_table; now rewrite Hl.
Qed.

Lemma query_row_Exists e t k ts rows :
  sql.ident t = true ->
  sql.lookup t ts = Some rows ->
  sql.query_row e (sqlds.Exists (provider e t)) [sql.VStr k] ts =
  sql.Done (Some (match e, sql.lookup k rows with
                  | sql.Postgres, Some _ => sql.VBool true
                  | sql.Postgres, None => sql.VBool false
                  | sql.SQLite, Some _ => sql.VInt 1
                  | sql.SQLite, None => sql.VInt 0
                  end)).
Proof.
  intros Ht Hl. unfold sql.query_row. rewrite (parse_Exists e t Ht).
  destruct e; unfold sql.on_table; rewrite Hl; now destruct (sql.lookup k rows).
Qed.

Lemma query_row_GetSize e t k ts rows :
  sql.ident t = true ->
  sql.lookup t ts = Some rows ->
  sql.query_row e (sqlds.GetSize (provider e t)) [sql.VStr k] ts =
  sql.Done (option_map (fun v => sql.VInt (sql.len v)) (sql.lookup k rows)).
Proof.
  intros Ht Hl. unfold sql.query_row. rewrite (parse_GetSize e t Ht).
  destruct e; unfold sql.on_table; now rewrite Hl.
Qed.

(** ** The point operations on a quiet world *)

Section PointOperations.

Variables (e : sql.engine) (t : string) (d : sqlds.Datastore).
Hypothesis Ht : sql.ident t = true.
Hypothesis Hd : sqlds.queries d = provider e t.

Lemma DB_Exec_quiet q args w :
  quiet w ->
  sql.DB_Exec (sqlds.db d) q args w =
  match sql.exec (sql.flavour w) q args (sql.tables w) with
  | sql.Failed err => (sql.Failed err, after (sql.EvExec q args) w)
  | sql.Done (n, ts) =>
      (sql.Done {| sql.RowsAffected := (n, None) |},
       sql.set_tables ts (after (sql.EvExec q args) w))
  end.
Proof.
  intros Hq. unfold sql.DB_Exec. rewrite (call_quiet _ _ Hq). reflexivity.
Qed.

Lemma DB_QueryRow_quiet q args w :
  quiet w ->
  sql.DB_QueryRow (sqlds.db d) q args w =
  (match sql.query_row (sql.flavour w) q args (sql.tables w) with
   | sql.Failed err => {| sql.row_err := Some err; sql.row_value := None |}
   | sql.Done v => {| sql.row_err := None; sql.row_value := v |}
   end, after (sql.EvQueryRow q args) w).
Proof.
  intros Hq. unfold sql.DB_QueryRow. rewrite (call_quiet _ _ Hq). cbn.
  now destruct (sql.query_row _ _ _ _).
Qed.

Lemma Put_runs w rows k v :
  serves e t rows w -> quiet w ->
  sqlds.Datastore_Put d k v w =
  (None,
   sql.set_tables (sql.store t (put_rows e k v rows) (sql.tables w))
     (after (sql.EvExec (sqlds.Put (provider e t)) [sql.VStr k; sql.VBytes v]) w)).
Proof.
  intros [He Hl] Hq. unfold sqlds.Datastore_Put, ds.Key_String.
  rewrite Hd, (DB_Exec_quiet _ _ _ Hq), He, (exec_Put e t k v _ rows Ht Hl).
  reflexivity.
Qed.

Lemma Delete_runs w rows k :
  serves e t rows w -> quiet w ->
  sqlds.Datastore_Delete d k w =
  (if sql.matching k rows =? 0 then Some ErrNotFound else None,
   sql.set_tables (sql.store t (sql.remove k rows) (sql.tables w))
     (after (sql.EvExec (sqlds.Delete (provider e t)) [sql.VStr k]) w)).
Proof.
  intros [He Hl] Hq. unfold sqlds.Datastore_Delete, ds.Key_String.
  rewrite Hd, (DB_Exec_quiet _ _ _ Hq), He, (exec_Delete e t k _ rows Ht Hl).
  cbn. now destruct (sql.matching k rows =? 0).
Qed.

Lemma Get_runs w rows k :
  serves e t rows w -> quiet w ->
  sqlds.Datastore_Get d k w =
  (match sql.lookup k rows with
   | Some v => (v, None)
   | None => ([], Some ErrNotFound)
   end, after (sql.EvQueryRow (sqlds.Get (provider e t)) [sql.VStr k]) w).
Proof.
  intros [He Hl] Hq. unfold sqlds.Datastore_Get, ds.Key_String.
  rewrite Hd, (DB_QueryRow_quiet _ _ _ Hq), He, (query_row_Get e t k _ rows Ht Hl).
  now destruct (sql.lookup k rows).
Qed.

Lemma Has_runs w rows k :
  serves e t rows w -> quiet w ->
  sqlds.Datastore_Has d k w =
  ((match sql.lookup k rows with Some _ => true | None => false end, None),
   after (sql.EvQueryRow (sqlds.Exists (provider e t)) [sql.VStr k]) w).
Proof.
  intros [He Hl] Hq. unfold sqlds.Datastore_Has, ds.Key_String.
  rewrite Hd, (DB_QueryRow_quiet _ _ _ Hq), He, (query_row_Exists e t k _ rows Ht Hl).
  now destruct e, (sql.lookup k rows).
Qed.

Lemma GetSize_runs w rows k :
  serves e t rows w -> quiet w ->
  sqlds.Datastore_GetSize d k w =
  (match sql.lookup k rows with
   | Some v => (sql.len v, None)
   | None => (-1, Some ErrNotFound)
   end, after (sql.EvQueryRow (sqlds.GetSize (provider e t)) [sql.VStr k]) w).
Proof.
  intros [He Hl] Hq. unfold sqlds.Datastore_GetSize, ds.Key_String.
  rewrite Hd, (DB_QueryRow_quiet _ _ _ Hq), He, (query_row_GetSize e t k _ rows Ht Hl).
  now destruct (sql.lookup k rows).
Qed.

Lemma serves_written w rows rows' ev :
  serves e t rows w ->
  serves e t rows' (sql.set_tables (sql.store t rows' (sql.tables w)) (after ev w)).
Proof. intros [He _]. split; [exact He | apply lookup_store_same]. Qed.

End PointOperations.

(** ** Transactions *)

Lemma call_tables ev w : sql.tables (snd (sql.call ev w)) = sql.tables w.
Proof.
  unfold sql.call. cbn. destruct (sql.closed w); [reflexivity|].
  now destruct (sql.faults w).
Qed.

Lemma call_log ev w : sql.log (snd (sql.call ev w)) = (sql.log w ++ [ev])%list.
Proof.
  unfold sql.call. cbn. destruct (sql.closed w); [reflexivity|].
  now destruct (sql.faults w).
Qed.

Lemma Tx_Exec_tables t q args w :
  sql.tables (snd (sql.Tx_Exec t q args w)) = sql.tables w.
Proof.
  unfold sql.Tx_Exec. destruct (sql.done t); [reflexivity|].
  pose proof (call_tables (sql.EvTxExec q args) w) as H.
  destruct (sql.call _ w) as [[err|] w1]; cbn in *; [exact H|].
  now destruct (sql.exec _ _ _ _) as [[n ts]|err].
Qed.

Lemma Tx_Rollback_tables t w : sql.tables (snd (sql.Tx_Rollback t w)) = sql.tables w.
Proof.
  unfold sql.Tx_Rollback. destruct (sql.done t); [reflexivity|].
  pose proof (call_tables sql.EvTxRollback w) as H.
  now destruct (sql.call _ w).
Qed.

Lemma Tx_Rollback_done t w : sql.done (snd (fst (sql.Tx_Rollback t w))) = true.
Proof.
  unfold sql.Tx_Rollback. destruct (sql.done t) eqn:E; [exact E|].
  now destruct (sql.call _ w).
Qed.

Lemma Tx_Rollback_log t w :
  sql.log (snd (sql.Tx_Rollback t w)) = (sql.log w ++ [sql.EvTxRollback])%list.
Proof.
  unfold sql.Tx_Rollback. destruct (sql.done t); [reflexivity|].
  pose proof (call_log sql.EvTxRollback w) as H.
  now destruct (sql.call _ w).
Qed.

Lemma Tx_Exec_done_stays t q args w :
  sql.done t = true ->
  sql.Tx_Exec t q args w = (sql.Failed ErrTxDone, t, sql.record_ (sql.EvTxExec q args) w).
Proof. intros H. unfold sql.Tx_Exec. now rewrite H. Qed.

Lemma GetTransaction_queries b w :
  sqlds.batch_queries (snd (fst (sqlds.batch_GetTransaction b w))) = sqlds.batch_queries b.
Proof.
  unfold sqlds.batch_GetTransaction. destruct (sqlds.txn b); [reflexivity|].
  destruct (sql.DB_Begin _ w) as [[nt [err|]] w1]; reflexivity.
Qed.

Lemma batch_Put_exec b k v w :
  sqlds.batch_Put b k v w = batch_exec b (sqlds.Put (sqlds.batch_queries b))
                              [sql.VStr (ds.Key_String k); sql.VBytes v] w.
Proof.
  unfold sqlds.batch_Put, batch_exec.
  pose proof (GetTransaction_queries b w) as H.
  destruct (sqlds.batch_GetTransaction b w) as [[[tx err] b1] w1]. cbn in H.
  now rewrite H.
Qed.

Lemma batch_Delete_exec b k w :
  sqlds.batch_Delete b k w = batch_exec b (sqlds.Delete (sqlds.batch_queries b))
                               [sql.VStr (ds.Key_String k)] w.
Proof.
  unfold sqlds.batch_Delete, batch_exec.
  pose proof (GetTransaction_queries b w) as H.
  destruct (sqlds.batch_GetTransaction b w) as [[[tx err] b1] w1]. cbn in H.
  now rewrite H.
Qed.

Lemma run_step_write s b w :
  is_write s = true ->
  run_step s b w =
  batch_exec b (fst (statement (sqlds.batch_queries b) s))
             (snd (statement (sqlds.batch_queries b) s)) w.
Proof.
  destruct s; simpl; intros H;
    [apply batch_Put_exec | apply batch_Delete_exec | discriminate].
Qed.

Lemma GetTransaction_open b t w :
  sqlds.txn b = Some t ->
  sqlds.batch_GetTransaction b w = ((Some t, None), b, w).
Proof. intros H. unfold sqlds.batch_GetTransaction. now rewrite H. Qed.






(** A write whose statement fails in the transaction: the error comes back,
    the transaction has been rolled back, the tables are as they were. *)
Lemma batch_exec_fails b t q args w e t1 w1 :
  sqlds.txn b = Some t ->
  sql.Tx_Exec t q args w = (sql.Failed e, t1, w1) ->
  exists b' w',
    batch_exec b q args w = (Returns (Some e), b', w') /\
    ended b' /\
    sql.tables w' = sql.tables w /\
    sql.log w' = (sql.log w1 ++ [sql.EvTxRollback])%list.
Proof.
  intros Hb Hx. unfold batch_exec. rewrite (GetTransaction_open b t w Hb), Hx.
  unfold sqlds.rollback_txn. cbn [sqlds.txn sqlds.set_txn].
  pose proof (Tx_Rollback_done t1 w1) as Hd.
  pose proof (Tx_Rollback_tables t1 w1) as Ht.
  pose proof (Tx_Rollback_log t1 w1) as Hl.
  pose proof (Tx_Exec_tables t q args w) as He. rewrite Hx in He.
  destruct (sql.Tx_Rollback t1 w1) as [[r t2] w2]. cbn in *.
  eexists _, _. split; [reflexivity|]. repeat split.
  - exists t2. now split.
  - congruence.
  - exact Hl.
Qed.


(** Once the transaction has ended, every write fails and changes nothing. *)
Lemma batch_exec_ended b q args w :
  ended b ->
  exists b' w',
    batch_exec b q args w = (Returns (Some ErrTxDone), b', w') /\
    ended b' /\ sql.tables w' = sql.tables w.
Proof.
  intros [t [Hb Hd]].
  destruct (batch_exec_fails b t q args w ErrTxDone t
              (sql.record_ (sql.EvTxExec q args) w) Hb
              (Tx_Exec_done_stays t q args w Hd))
    as (b' & w' & H1 & H2 & H3 & _).
  now exists b', w'.
Qed.

Lemma batch_Commit_ended b w :
  ended b ->
  exists b' w',
    sqlds.batch_Commit b w = (Some ErrTxDone, b', w') /\
    ended b' /\ sql.tables w' = sql.tables w.
Proof.
  intros [t [Hb Hd]]. unfold sqlds.batch_Commit, sql.Tx_Commit.
  rewrite Hb, Hd. unfold sql.Tx_Rollback. rewrite Hd.
  eexists _, _. split; [reflexivity|]. split; [|reflexivity].
  exists t. now split.
Qed.

Lemma run_step_ended s b w :
  ended b ->
  exists e b' w',
    run_step s b w = (Returns (Some e), b', w') /\
    ended b' /\ sql.tables w' = sql.tables w.
Proof.
  intros H. destruct s as [k v|k|].
  - rewrite (run_step_write (DoPut k v) b w eq_refl).
    destruct (batch_exec_ended b (fst (statement (sqlds.batch_queries b) (DoPut k v)))
                (snd (statement (sqlds.batch_queries b) (DoPut k v))) w H)
      as (b' & w' & H1 & H2 & H3).
    now exists ErrTxDone, b', w'.
  - rewrite (run_step_write (DoDelete k) b w eq_refl).
    destruct (batch_exec_ended b (fst (statement (sqlds.batch_queries b) (DoDelete k)))
                (snd (statement (sqlds.batch_queries b) (DoDelete k))) w H)
      as (b' & w' & H1 & H2 & H3).
    now exists ErrTxDone, b', w'.
  - destruct (batch_Commit_ended b w H) as (b' & w' & H1 & H2 & H3).
    exists ErrTxDone, b', w'. cbn. now rewrite H1.
Qed.

(** After the rollback nothing that the caller does reaches the tables. *)
Lemma run_ended l : forall b w,
  ended b ->
  Forall is_error (fst (fst (run l b w))) /\
  length (fst (fst (run l b w))) = length l /\
  ended (snd (fst (run l b w))) /\
  sql.tables (snd (run l b w)) = sql.tables w.
Proof.
  induction l as [|s l IH]; intros b w H; cbn.
  - repeat split; [constructor | exact H].
  - destruct (run_step_ended s b w H) as (e & b1 & w1 & H1 & H2 & H3).
    rewrite H1. specialize (IH b1 w1 H2).
    destruct (run l b1 w1) as [[rs b2] w2]. cbn in *.
    destruct IH as (I1 & I2 & I3 & I4). repeat split.
    + constructor; [now exists e | exact I1].
    + now rewrite I2.
    + exact I3.
    + congruence.
Qed.


Lemma Tx_Exec_quiet t q args w :
  sql.done t = false -> quiet w ->
  sql.Tx_Exec t q args w =
  match sql.exec (sql.flavour w) q args (sql.view t) with
  | sql.Failed err => (sql.Failed err, t, after (sql.EvTxExec q args) w)
  | sql.Done (n, ts) =>
      (sql.Done {| sql.RowsAffected := (n, None) |},
       {| sql.done := false; sql.view := ts |}, after (sql.EvTxExec q args) w)
  end.
Proof.
  intros Hd Hq. unfold sql.Tx_Exec. rewrite Hd, (call_quiet _ _ Hq). cbn.
  now destruct (sql.exec _ _ _ _) as [[n ts]|err].
Qed.

Lemma DB_Begin_quiet d w :
  quiet w ->
  sql.DB_Begin d w =
  ((Some {| sql.done := false; sql.view := sql.tables w |}, None), after sql.EvBegin w).
Proof. intros Hq. unfold sql.DB_Begin. now rewrite (call_quiet _ _ Hq). Qed.

Lemma Tx_Commit_quiet t w :
  sql.done t = false -> quiet w ->
  sql.Tx_Commit t w =
  (None, sql.finished t, sql.set_tables (sql.view t) (after sql.EvTxCommit w)).
Proof. intros Hd Hq. unfold sql.Tx_Commit. now rewrite Hd, (call_quiet _ _ Hq). Qed.

Section Batches.

Variables (e : sql.engine) (t : string).
Hypothesis Ht : sql.ident t = true.

Lemma exec_statement s ts rows :
  is_write s = true ->
  sql.lookup t ts = Some rows ->
  exists n,
    sql.exec e (fst (statement (provider e t) s)) (snd (statement (provider e t) s)) ts =
    sql.Done (n, apply_step e t ts s).
Proof.
  intros Hs Hl. destruct s as [k v|k|]; [| |discriminate]; cbn [statement fst snd].
  - exists 1. unfold apply_step. rewrite Hl. now apply exec_Put.
  - exists (sql.matching k rows). unfold apply_step. rewrite Hl. now apply exec_Delete.
Qed.

Lemma lookup_apply_step s ts rows :
  sql.lookup t ts = Some rows ->
  exists rows', sql.lookup t (apply_step e t ts s) = Some rows'.
Proof.
  intros Hl. unfold apply_step. rewrite Hl.
  destruct s; eauto using lookup_store_same.
Qed.

(** A write of a live batch on a quiet world goes through: it lands in the
    transaction and nowhere else. *)
Lemma write_runs s b w rows :
  is_write s = true ->
  sqlds.batch_queries b = provider e t ->
  live b -> quiet w -> sql.flavour w = e ->
  sql.lookup t (sees b w) = Some rows ->
  exists b' w',
    run_step s b w = (Returns None, b', w') /\
    sqlds.txn b' = Some {| sql.done := false; sql.view := apply_step e t (sees b w) s |} /\
    sqlds.batch_queries b' = provider e t /\
    quiet w' /\ sql.flavour w' = e /\ sql.tables w' = sql.tables w.
Proof.
  intros Hs Hb Hlive Hq He Hl.
  rewrite (run_step_write s b w Hs), Hb.
  destruct (exec_statement s (sees b w) rows Hs Hl) as [n Hx].
  unfold batch_exec, sqlds.batch_GetTransaction, sees, live in *.
  destruct (sqlds.txn b) as [t0|] eqn:Etx.
  - rewrite (Tx_Exec_quiet t0 _ _ w Hlive Hq), He, Hx.
    eexists _, _. split; [reflexivity|]. cbn.
    split; [reflexivity|]. split; [assumption|].
    split; [now apply quiet_after|]. now split.
  - rewrite (DB_Begin_quiet _ w Hq).
    rewrite (Tx_Exec_quiet {| sql.done := false; sql.view := sql.tables w |}
               _ _ _ eq_refl (quiet_after _ _ Hq)).
    cbn [sql.view sql.flavour after sql.set_faults sql.record_]. rewrite He, Hx.
    eexists _, _. split; [reflexivity|]. cbn.
    split; [reflexivity|]. split; [assumption|].
    split; [now apply (quiet_after _ _ (quiet_after sql.EvBegin _ Hq))|]. now split.
Qed.

Lemma sees_open b w tx : sqlds.txn b = Some tx -> sees b w = sql.view tx.
Proof. intros H. unfold sees. now rewrite H. Qed.

(** Writes in a row: all return nil, the transaction holds their effects in
    order, the committed tables have not moved. *)
Lemma writes_run l : forall b w rows,
  forallb is_write l = true ->
  sqlds.batch_queries b = provider e t ->
  live b -> quiet w -> sql.flavour w = e ->
  sql.lookup t (sees b w) = Some rows ->
  exists b' w',
    run l b w = (repeat (Returns None) (length l), b', w') /\
    sees b' w' = fold_left (apply_step e t) l (sees b w) /\
    live b' /\ (l <> [] -> sqlds.txn b' <> None) /\
    sqlds.batch_queries b' = provider e t /\
    quiet w' /\ sql.flavour w' = e /\ sql.tables w' = sql.tables w.
Proof.
  induction l as [|s l IH]; intros b w rows Hw Hb Hlive Hq He Hl.
  - exists b, w.
    split; [reflexivity|]. split; [reflexivity|]. split; [assumption|].
    split; [congruence|]. split; [assumption|]. split; [assumption|].
    split; [assumption | reflexivity].
  - cbn in Hw. apply andb_true_iff in Hw as [Hs Hw].
    destruct (write_runs s b w rows Hs Hb Hlive Hq He Hl)
      as (b1 & w1 & R1 & T1 & B1 & Q1 & E1 & W1).
    destruct (lookup_apply_step s (sees b w) rows Hl) as [rows1 Hl1].
    assert (S1 : sees b1 w1 = apply_step e t (sees b w) s)
      by (now rewrite (sees_open b1 w1 _ T1)).
    assert (L1 : live b1) by (unfold live; now rewrite T1).
    rewrite <- S1 in Hl1.
    destruct (IH b1 w1 rows1 Hw B1 L1 Q1 E1 Hl1)
      as (b2 & w2 & R2 & S2 & L2 & N2 & B2 & Q2 & E2 & W2).
    exists b2, w2. cbn [run]. rewrite R1, R2. cbn.
    split; [reflexivity|]. split; [now rewrite S2, S1|]. split; [assumption|].
    split.
    { intros _. destruct l as [|s' l'].
      - cbn in R2. injection R2 as <- <-. now rewrite T1.
      - apply N2. discriminate. }
    split; [assumption|]. split; [assumption|]. split; [assumption|]. congruence.
Qed.

Lemma Commit_runs b tx w :
  sqlds.txn b = Some tx -> sql.done tx = false -> quiet w ->
  sqlds.batch_Commit b w =
  (None, sqlds.set_txn (Some (sql.finished tx)) b,
   sql.set_tables (sql.view tx) (after sql.EvTxCommit w)).
Proof.
  intros Hb Hd Hq. unfold sqlds.batch_Commit.
  now rewrite Hb, (Tx_Commit_quiet tx w Hd Hq).
Qed.

End Batches.

Lemma Tx_Commit_fails t w e t' w' :
  sql.Tx_Commit t w = (Some e, t', w') ->
  sql.done t' = true /\ sql.tables w' = sql.tables w /\
  sql.log w' = (sql.log w ++ [sql.EvTxCommit])%list.
Proof.
  unfold sql.Tx_Commit. destruct (sql.done t) eqn:Ed.
  - intros H. injection H as _ <- <-. now repeat split.
  - pose proof (call_tables sql.EvTxCommit w) as Hc.
    pose proof (call_log sql.EvTxCommit w) as Hl.
    destruct (sql.call _ w) as [[err|] w1]; intros H; [|discriminate].
    injection H as _ <- <-. now repeat split.
Qed.

(** ** Point operations and batches *)

(** C10.  For every key, [Sync] returns nil and calls nothing: the world
    that comes back is the world that went in, with its tables and its log
    of executor calls. *)
Theorem Sync_does_nothing (d : sqlds.Datastore) (k : ds.Key) (w : sql.World) :
  sqlds.Datastore_Sync d k w = (None, w) /\
  sql.log (snd (sqlds.Datastore_Sync d k w)) = sql.log w /\
  sql.tables (snd (sqlds.Datastore_Sync d k w)) = sql.tables w.
Proof. repeat split. Qed.

(** C6.  Under both dialects, on a world where nothing fails: [Put(k, v1)]
    then [Get(k)] gives back exactly [v1]; a second [Put(k, v2)] returns no
    error and [Get(k)] then gives [v2]. *)
Theorem Put_then_Get (e : sql.engine) (t : string) (d : sqlds.Datastore)
        (w : sql.World) (rows : sql.Table) (k : ds.Key) (v1 v2 : bytes) :
  sql.ident t = true ->
  sqlds.queries d = provider e t ->
  serves e t rows w ->
  quiet w ->
  let '(e1, w1) := sqlds.Datastore_Put d k v1 w in
  let '(g1, w2) := sqlds.Datastore_Get d k w1 in
  let '(e2, w3) := sqlds.Datastore_Put d k v2 w2 in
  let '(g2, _) := sqlds.Datastore_Get d k w3 in
  e1 = None /\ g1 = (v1, None) /\ e2 = None /\ g2 = (v2, None).
Proof.
  intros Ht Hd Hs Hq.
  rewrite (Put_runs e t d Ht Hd w rows k v1 Hs Hq).
  set (w1 := sql.set_tables _ _).
  assert (S1 : serves e t (put_rows e k v1 rows) w1) by (eapply serves_written; eauto).
  assert (Q1 : quiet w1) by (now apply quiet_after).
  rewrite (Get_runs e t d Ht Hd w1 _ k S1 Q1), lookup_put_rows.
  set (w2 := after _ w1).
  assert (Q2 : quiet w2) by (now apply quiet_after).
  rewrite (Put_runs e t d Ht Hd w2 _ k v2 S1 Q2).
  set (w3 := sql.set_tables _ _).
  assert (S3 : serves e t (put_rows e k v2 (put_rows e k v1 rows)) w3)
    by (eapply serves_written; eauto).
  assert (Q3 : quiet w3) by (now apply quiet_after).
  rewrite (Get_runs e t d Ht Hd w3 _ k S3 Q3), lookup_put_rows.
  now repeat split.
Qed.

Lemma Put_then_Get_witness :
  (let '(e1, w1) := sqlds.Datastore_Put (blocks_store sql.SQLite) "/x" (text "hello")
                      (blocks_world sql.SQLite [] []) in
   let '(g1, w2) := sqlds.Datastore_Get (blocks_store sql.SQLite) "/x" w1 in
   let '(e2, w3) := sqlds.Datastore_Put (blocks_store sql.SQLite) "/x" (text "bye") w2 in
   let '(g2, _) := sqlds.Datastore_Get (blocks_store sql.SQLite) "/x" w3 in
   e1 = None /\ g1 = (text "hello", None) /\ e2 = None /\ g2 = (text "bye", None)) /\
  (let '(e1, w1) := sqlds.Datastore_Put (blocks_store sql.Postgres) "/x" (text "hello")
                      (blocks_world sql.Postgres [("/x", text "old")] []) in
   let '(g1, w2) := sqlds.Datastore_Get (blocks_store sql.Postgres) "/x" w1 in
   let '(e2, w3) := sqlds.Datastore_Put (blocks_store sql.Postgres) "/x" (text "bye") w2 in
   let '(g2, _) := sqlds.Datastore_Get (blocks_store sql.Postgres) "/x" w3 in
   e1 = None /\ g1 = (text "hello", None) /\ e2 = None /\ g2 = (text "bye", None)).
Proof.
  split.
  - exact (Put_then_Get sql.SQLite "blocks" (blocks_store sql.SQLite)
             (blocks_world sql.SQLite [] []) [] "/x" (text "hello") (text "bye")
             eq_refl eq_refl (conj eq_refl eq_refl) (conj eq_refl (Forall_nil _))).
  - exact (Put_then_Get sql.Postgres "blocks" (blocks_store sql.Postgres)
             (blocks_world sql.Postgres [("/x", text "old")] []) [("/x", text "old")]
             "/x" (text "hello") (text "bye")
             eq_refl eq_refl (conj eq_refl eq_refl) (conj eq_refl (Forall_nil _))).
Defined.

(** [Put(k, v)], [Delete(k)], [Get(k)]: the delete finds the row, and the
    get finds none. *)
Lemma Delete_after_Put (e : sql.engine) (t : string) (d : sqlds.Datastore)
      (w : sql.World) (rows : sql.Table) (k : ds.Key) (v : bytes) :
  sql.ident t = true ->
  sqlds.queries d = provider e t ->
  serves e t rows w ->
  quiet w ->
  let '(e1, w1) := sqlds.Datastore_Put d k v w in
  let '(e2, w2) := sqlds.Datastore_Delete d k w1 in
  let '(g, _) := sqlds.Datastore_Get d k w2 in
  e1 = None /\ e2 = None /\ g = ([], Some ErrNotFound).
Proof.
  intros Ht Hd Hs Hq.
  rewrite (Put_runs e t d Ht Hd w rows k v Hs Hq).
  set (w1 := sql.set_tables _ _).
  assert (S1 : serves e t (put_rows e k v rows) w1) by (eapply serves_written; eauto).
  assert (Q1 : quiet w1) by (now apply quiet_after).
  rewrite (Delete_runs e t d Ht Hd w1 _ k S1 Q1).
  rewrite (matching_present k _ v (lookup_put_rows e k v rows)).
  set (w2 := sql.set_tables _ _).
  assert (S2 : serves e t (sql.remove k (put_rows e k v rows)) w2)
    by (eapply serves_written; eauto).
  assert (Q2 : quiet w2) by (now apply quiet_after).
  rewrite (Get_runs e t d Ht Hd w2 _ k S2 Q2), lookup_remove_same.
  now repeat split.
Qed.



(** C9.  The same delete of an absent key: in a batch that can still write
    it returns nil, the statement having affected zero rows; on the
    datastore it returns NotFound. *)
Theorem Delete_of_absent_key_in_and_out_of_batch
        (e : sql.engine) (t : string) (d : sqlds.Datastore) (b : sqlds.batch)
        (w : sql.World) (rows rows' : sql.Table) (k : ds.Key) :
  sql.ident t = true ->
  sqlds.queries d = provider e t ->
  sqlds.batch_queries b = provider e t ->
  live b ->
  serves e t rows w ->
  quiet w ->
  sql.lookup k rows = None ->
  sql.lookup t (sees b w) = Some rows' ->
  sql.lookup k rows' = None ->
  fst (fst (sqlds.batch_Delete b k w)) = Returns None /\
  (exists ts, sql.exec e (sqlds.Delete (sqlds.batch_queries b))
                [sql.VStr (ds.Key_String k)] (sees b w) = sql.Done (0, ts)) /\
  fst (sqlds.Datastore_Delete d k w) = Some ErrNotFound.
Proof.
  intros Ht Hd Hb Hlive Hs Hq Hk Hl' Hk'. split; [|split].
  - destruct Hs as [He _].
    destruct (write_runs e t Ht (DoDelete k) b w rows' eq_refl Hb Hlive Hq He Hl')
      as (b1 & w1 & R & _).
    cbn in R. now rewrite R.
  - rewrite Hb. unfold ds.Key_String.
    rewrite (exec_Delete e t k _ rows' Ht Hl'), (matching_absent k rows' Hk').
    now eexists.
  - now rewrite (Delete_runs e t d Ht Hd w rows k Hs Hq), (matching_absent k rows Hk).
Qed.

Lemma Delete_of_absent_key_in_and_out_of_batch_witness :
  fst (fst (sqlds.batch_Delete (fst (sqlds.Datastore_Batch (blocks_store sql.Postgres)))
              "/missing" (blocks_world sql.Postgres [("/x", text "hello")] []))) =
    Returns None /\
  fst (sqlds.Datastore_Delete (blocks_store sql.Postgres) "/missing"
         (blocks_world sql.Postgres [("/x", text "hello")] [])) = Some ErrNotFound.
Proof.
  destruct (Delete_of_absent_key_in_and_out_of_batch
              sql.Postgres "blocks" (blocks_store sql.Postgres)
              (fst (sqlds.Datastore_Batch (blocks_store sql.Postgres)))
              (blocks_world sql.Postgres [("/x", text "hello")] [])
              [("/x", text "hello")] [("/x", text "hello")] "/missing"
              eq_refl eq_refl eq_refl I (conj eq_refl eq_refl)
              (conj eq_refl (Forall_nil _)) eq_refl eq_refl eq_refl)
    as (B & _ & D).
  now split.
Defined.

(** C7.  [Commit] on a batch that never opened a transaction returns the
    error "no transaction started, cannot commit" and does nothing.  When
    the commit of the transaction fails, [Commit] returns that error
    whatever the rollback says; the rollback is the next call to the
    executor, and the tables have not moved. *)
Theorem Commit_errors (d : sqlds.Datastore) (b : sqlds.batch) (w : sql.World) :
  sqlds.batch_Commit (fst (sqlds.Datastore_Batch d)) w =
    (Some (ErrNew "no transaction started, cannot commit"),
     fst (sqlds.Datastore_Batch d), w) /\
  (sqlds.txn b = None ->
   sqlds.batch_Commit b w =
     (Some (ErrNew "no transaction started, cannot commit"), b, w)) /\
  (forall tx e tx' w',
      sqlds.txn b = Some tx ->
      sql.Tx_Commit tx w = (Some e, tx', w') ->
      exists b' w'',
        sqlds.batch_Commit b w = (Some e, b', w'') /\
        sql.log w'' = (sql.log w ++ [sql.EvTxCommit; sql.EvTxRollback])%list /\
        sql.tables w'' = sql.tables w /\
        ended b').
Proof.
  split; [reflexivity|]. split.
  - intros H. unfold sqlds.batch_Commit. now rewrite H.
  - intros tx e tx' w' Hb Hc. unfold sqlds.batch_Commit. rewrite Hb, Hc.
    destruct (Tx_Commit_fails tx w e tx' w' Hc) as (Hd & Ht & Hl).
    pose proof (Tx_Rollback_done tx' w') as Rd.
    pose proof (Tx_Rollback_tables tx' w') as Rt.
    pose proof (Tx_Rollback_log tx' w') as Rl.
    destruct (sql.Tx_Rollback tx' w') as [[r tx2] w2]. cbn in *.
    eexists _, _. split; [reflexivity|]. split; [|split].
    + rewrite Rl, Hl, <- app_assoc. reflexivity.
    + congruence.
    + exists tx2. now split.
Qed.

Lemma Commit_errors_witness :
  sqlds.batch_Commit (fst (sqlds.Datastore_Batch (blocks_store sql.Postgres)))
                     (blocks_world sql.Postgres [] [Some boom]) =
    (Some (ErrNew "no transaction started, cannot commit"),
     fst (sqlds.Datastore_Batch (blocks_store sql.Postgres)),
     blocks_world sql.Postgres [] [Some boom]) /\
  exists b' w'',
    sqlds.batch_Commit
      (sqlds.set_txn
         (Some {| sql.done := false; sql.view := [("blocks", [("/a", text "x")])] |})
         (fst (sqlds.Datastore_Batch (blocks_store sql.Postgres))))
      (blocks_world sql.Postgres [] [Some boom]) = (Some boom, b', w'') /\
    sql.log w'' = [sql.EvTxCommit; sql.EvTxRollback] /\
    sql.tables w'' = [("blocks", [])].
Proof.
  split.
  - exact (proj1 (Commit_errors (blocks_store sql.Postgres)
                    (fst (sqlds.Datastore_Batch (blocks_store sql.Postgres)))
                    (blocks_world sql.Postgres [] [Some boom]))).
  - destruct (Commit_errors (blocks_store sql.Postgres)
                (sqlds.set_txn
                   (Some {| sql.done := false;
                            sql.view := [("blocks", [("/a", text "x")])] |})
                   (fst (sqlds.Datastore_Batch (blocks_store sql.Postgres))))
                (blocks_world sql.Postgres [] [Some boom]))
      as (_ & _ & C).
    edestruct (C {| sql.done := false; sql.view := [("blocks", [("/a", text "x")])] |}
                 boom)
      as (b' & w'' & R & L & T & _); [reflexivity | reflexivity |].
    exists b', w''. split; [exact R|]. split; [exact L | exact T].
Defined.



(** ** The result stream *)

Lemma yielded_step {S} (it : dsq.Iterator S) n s :
  dsq.yielded it (Datatypes.S n) s =
  let '((res, ok), s1) := dsq.NextSync it s in
  if ok then
    match dsq.yielded it n s1 with
    | Some (l, s2) => Some (res :: l, s2)
    | None => None
    end
  else Some ([], s1).
Proof. reflexivity. Qed.

Lemma NextSync_scans q cur k v l :
  dsq.NextSync (sqlds.RawQuery_iterator q)
    {| sql.current := cur; sql.pending := (k, v, None) :: l; sql.rows_closed := false |} =
  ((entry_of q k v, true),
   {| sql.current := Some (k, v, None); sql.pending := l; sql.rows_closed := false |}).
Proof. reflexivity. Qed.

Lemma yielded_scanned q l : forall cur,
  dsq.yielded (sqlds.RawQuery_iterator q) (S (length l))
    {| sql.current := cur; sql.pending := l; sql.rows_closed := false |} =
  Some (scanned q l, snd (sql.Rows_Close (fresh_cursor []))).
Proof.
  induction l as [|[[k v] [err|]] l IH]; intros cur.
  - reflexivity.
  - reflexivity.
  - cbn [length]. rewrite yielded_step, NextSync_scans, IH. reflexivity.
Qed.

Lemma results_of_scanned q cur l :
  sqlds.results_of q {| sql.current := cur; sql.pending := l; sql.rows_closed := false |} =
  scanned q l.
Proof. unfold sqlds.results_of. cbn [sql.pending]. now rewrite yielded_scanned. Qed.

Lemma scanned_no_error q l : Forall (fun r => dsq.Error r = None) (scanned q l).
Proof.
  induction l as [|[[k v] [err|]] l IH]; cbn; constructor; [reflexivity | exact IH].
Qed.

Lemma scanned_stops q l1 k v err l2 :
  Forall (fun r => snd r = None) l1 ->
  scanned q (l1 ++ (k, v, Some err) :: l2) =
  map (fun r => entry_of q (fst (fst r)) (snd (fst r))) l1.
Proof.
  induction l1 as [|[[k1 v1] f1] l1 IH]; intros H; cbn; [reflexivity|].
  inversion H as [|? ? H1 H2]; subst. cbn in H1. subst f1. now rewrite IH.
Qed.

(** C8.  Where the claim fails.  When the scan of a row fails, the [Next]
    of [RawQuery] hands the error back together with [false], the mark of
    the end of the stream; so the stream ends before that row: it yields
    the rows scanned so far and never an error, neither for the row that
    failed nor for those after it. *)
Theorem scan_error_ends_stream_unreported
        (q : dsq.Query) (l1 l2 : list (string * bytes * option error))
        (k : string) (v : bytes) (err : error) :
  Forall (fun r => snd r = None) l1 ->
  sqlds.RawQuery_Next q (fresh_cursor ((k, v, Some err) :: l2)) =
    ((dsq.mkResult dsq.zero_Entry (Some err), false),
     {| sql.current := Some (k, v, Some err); sql.pending := l2;
        sql.rows_closed := false |}) /\
  dsq.yielded (sqlds.RawQuery_iterator q)
              (S (length (l1 ++ (k, v, Some err) :: l2)))
              (fresh_cursor (l1 ++ (k, v, Some err) :: l2)) =
    Some (map (fun r => entry_of q (fst (fst r)) (snd (fst r))) l1,
          snd (sql.Rows_Close (fresh_cursor []))) /\
  sqlds.results_of q (fresh_cursor (l1 ++ (k, v, Some err) :: l2)) =
    map (fun r => entry_of q (fst (fst r)) (snd (fst r))) l1 /\
  Forall (fun r => dsq.Error r = None)
         (sqlds.results_of q (fresh_cursor (l1 ++ (k, v, Some err) :: l2))).
Proof.
  intros H. split; [reflexivity|]. split; [|split].
  - unfold fresh_cursor. now rewrite yielded_scanned, scanned_stops.
  - unfold fresh_cursor. now rewrite results_of_scanned, scanned_stops.
  - unfold fresh_cursor. rewrite results_of_scanned. apply scanned_no_error.
Qed.

Lemma scan_error_ends_stream_unreported_witness :
  sqlds.results_of (dsq.mkQuery "" [] [] 0 0 false false)
    (fresh_cursor [("/a", text "v1", None); ("/b", text "v2", Some boom);
                   ("/c", text "v3", None)]) =
  [dsq.mkResult (dsq.mkEntry "/a" (text "v1") 0) None].
Proof.
  destruct (scan_error_ends_stream_unreported
              (dsq.mkQuery "" [] [] 0 0 false false)
              [("/a", text "v1", None)] [("/c", text "v3", None)]
              "/b" (text "v2") boom
              (Forall_cons ("/a", text "v1", None) eq_refl (Forall_nil _)))
    as (_ & _ & R & _).
  exact R.
Defined.

(** ** The composed statement *)

Lemma compose_shape (qs : sqlds.Queries) (q : dsq.Query) :
  sqlds.compose qs q =
  sqlds.Query qs ++ prefix_part qs q ++
  (if plain q then limit_part qs q ++ offset_part qs q else "").
Proof.
  unfold sqlds.compose, prefix_part, limit_part, offset_part, plain, ds.Key_String.
  destruct (String.eqb (dsq.Prefix q) ""); cbn [negb];
    [|destruct (String.eqb (ds.NewKey (dsq.Prefix q)) ""); cbn [negb];
      destruct (String.eqb (ds.NewKey (dsq.Prefix q)) "/"); cbn [negb]];
    destruct ((length (dsq.Filters q) =? 0)%nat && (length (dsq.Orders q) =? 0)%nat)%bool;
    destruct (dsq.Limit q =? 0); destruct (dsq.Offset q =? 0); cbn [negb];
    repeat rewrite append_assoc; repeat rewrite append_empty; cbn [append];
    repeat rewrite append_empty; reflexivity.
Qed.

Lemma plain_unwindowed q : plain (unwindowed q) = plain q.
Proof. reflexivity. Qed.

Lemma compose_unwindowed qs q :
  plain q = false -> sqlds.compose qs q = sqlds.compose qs (unwindowed q).
Proof.
  intros H. rewrite !compose_shape, plain_unwindowed, H. reflexivity.
Qed.

Lemma RawQuery_unwindowed d q w :
  plain q = false ->
  sqlds.Datastore_RawQuery d q w = sqlds.Datastore_RawQuery d (unwindowed q) w.
Proof.
  intros H. unfold sqlds.Datastore_RawQuery, sqlds.QueryWithParams.
  rewrite <- (compose_unwindowed _ q H). reflexivity.
Qed.

Lemma plain_lengths q :
  ((0 <? length (dsq.Filters q)) || (0 <? length (dsq.Orders q)))%nat%bool =
  negb (plain q).
Proof.
  unfold plain. now destruct (dsq.Filters q), (dsq.Orders q).
Qed.

(** C1.  The statement is the bulk select, the prefix fragment, and -- only
    when the query has neither filters nor orders -- the limit fragment if
    the limit is not zero and the offset fragment if the offset is not
    zero.  With filters or orders the statement is that of the same query
    without limit and offset, and the results are the offset, then the
    limit, taken in memory from the filtered and ordered results of that
    query. *)
Theorem limit_and_offset_where_they_belong
        `{dsq.PostProcess} (d : sqlds.Datastore) (q : dsq.Query) (w : sql.World) :
  sqlds.compose (sqlds.queries d) q =
    sqlds.Query (sqlds.queries d) ++ prefix_part (sqlds.queries d) q ++
    (if plain q
     then limit_part (sqlds.queries d) q ++ offset_part (sqlds.queries d) q
     else "") /\
  snd (sqlds.Datastore_Query d q w) =
    snd (sql.DB_Query (sqlds.db d) (sqlds.compose (sqlds.queries d) q) w) /\
  (plain q = true ->
   sqlds.Datastore_Query d q w =
     (map_outcome (fun raw => dsq.NaiveOrder raw [])
        (fst (sqlds.Datastore_RawQuery d q w)),
      snd (sqlds.Datastore_RawQuery d q w))) /\
  (plain q = false ->
   sqlds.compose (sqlds.queries d) q =
     sqlds.Query (sqlds.queries d) ++ prefix_part (sqlds.queries d) q /\
   sqlds.compose (sqlds.queries d) q = sqlds.compose (sqlds.queries d) (unwindowed q) /\
   sqlds.Datastore_Query d (unwindowed q) w =
     (map_outcome
        (fun raw =>
           dsq.NaiveOrder (fold_left dsq.NaiveFilter (dsq.Filters q) raw) (dsq.Orders q))
        (fst (sqlds.Datastore_RawQuery d (unwindowed q) w)),
      snd (sqlds.Datastore_RawQuery d (unwindowed q) w)) /\
   sqlds.Datastore_Query d q w =
     (map_outcome (window_of q) (fst (sqlds.Datastore_Query d (unwindowed q) w)),
      snd (sqlds.Datastore_Query d (unwindowed q) w))).
Proof.
  split; [apply compose_shape|]. split; [|split].
  - unfold sqlds.Datastore_Query, sqlds.Datastore_RawQuery, sqlds.QueryWithParams.
    destruct (sql.DB_Query _ _ w) as [[rows|e] w1]; reflexivity.
  - intros Hp. unfold sqlds.Datastore_Query.
    rewrite plain_lengths, Hp.
    destruct (sqlds.Datastore_RawQuery d q w) as [[raw|e] w1]; [|reflexivity].
    unfold plain in Hp. apply andb_true_iff in Hp as [Hf Ho].
    destruct (dsq.Filters q); [|discriminate].
    destruct (dsq.Orders q); [|discriminate]. reflexivity.
  - intros Hp. split; [|split; [|split]].
    + rewrite compose_shape, Hp. now rewrite append_empty.
    + now apply compose_unwindowed.
    + unfold sqlds.Datastore_Query.
      destruct (sqlds.Datastore_RawQuery d (unwindowed q) w) as [[raw|e] w1];
        [|reflexivity].
      rewrite plain_lengths. cbn. now destruct (plain (unwindowed q)).
    + unfold sqlds.Datastore_Query. rewrite (RawQuery_unwindowed d q w Hp).
      destruct (sqlds.Datastore_RawQuery d (unwindowed q) w) as [[raw|e] w1];
        [|reflexivity].
      rewrite !plain_lengths, plain_unwindowed, Hp. reflexivity.
Qed.

Lemma limit_and_offset_where_they_belong_witness :
  sqlds.compose (provider sql.Postgres "blocks")
    (dsq.mkQuery "/a" [value_not_empty] [] 7 3 false false) =
    "SELECT key, data FROM blocks WHERE key LIKE '/a/%' ORDER BY key" /\
  sqlds.compose (provider sql.Postgres "blocks")
    (dsq.mkQuery "/a" [] [] 7 3 false false) =
    "SELECT key, data FROM blocks WHERE key LIKE '/a/%' ORDER BY key LIMIT 7 OFFSET 3" /\
  @sqlds.Datastore_Query dsq.on_lists (blocks_store sql.Postgres)
    (dsq.mkQuery "" [] [OrderByKeyDescending] 1 1 true false)
    (blocks_world sql.Postgres
       [("/2", text "b"); ("/1", text "a"); ("/3", text "c")] []) =
  (map_outcome
     (@window_of dsq.on_lists (dsq.mkQuery "" [] [OrderByKeyDescending] 1 1 true false))
     (fst (@sqlds.Datastore_Query dsq.on_lists (blocks_store sql.Postgres)
             (dsq.mkQuery "" [] [OrderByKeyDescending] 0 0 true false)
             (blocks_world sql.Postgres
                [("/2", text "b"); ("/1", text "a"); ("/3", text "c")] []))),
   snd (@sqlds.Datastore_Query dsq.on_lists (blocks_store sql.Postgres)
          (dsq.mkQuery "" [] [OrderByKeyDescending] 0 0 true false)
          (blocks_world sql.Postgres
             [("/2", text "b"); ("/1", text "a"); ("/3", text "c")] []))).
Proof.
  split; [|split].
  - destruct (@limit_and_offset_where_they_belong dsq.on_lists
                (blocks_store sql.Postgres)
                (dsq.mkQuery "/a" [value_not_empty] [] 7 3 false false)
                (blocks_world sql.Postgres [] [])) as (_ & _ & _ & W).
    exact (proj1 (W eq_refl)).
  - exact (proj1 (@limit_and_offset_where_they_belong dsq.on_lists
                    (blocks_store sql.Postgres)
                    (dsq.mkQuery "/a" [] [] 7 3 false false)
                    (blocks_world sql.Postgres [] []))).
  - destruct (@limit_and_offset_where_they_belong dsq.on_lists
                (blocks_store sql.Postgres)
                (dsq.mkQuery "" [] [OrderByKeyDescending] 1 1 true false)
                (blocks_world sql.Postgres
                   [("/2", text "b"); ("/1", text "a"); ("/3", text "c")] []))
      as (_ & _ & _ & W).
    exact (proj2 (proj2 (proj2 (W eq_refl)))).
Defined.

(** The limit and offset fragments of both providers. *)
Lemma window_fragments (e : sql.engine) (t : string) (q : dsq.Query) :
  limit_part (provider e t) q =
    (if dsq.Limit q =? 0 then "" else " LIMIT " ++ fmt.itoa (dsq.Limit q)) /\
  offset_part (provider e t) q =
    (if dsq.Offset q =? 0 then "" else " OFFSET " ++ fmt.itoa (dsq.Offset q)).
Proof.
  unfold limit_part, offset_part.
  destruct e, (dsq.Limit q =? 0), (dsq.Offset q =? 0); cbn;
    rewrite ?append_empty; split; reflexivity.
Qed.

(** Five rows, a filter and an order, limit 1 and offset 1: the statement
    has no window and the result is the second row of the ordered results;
    without filter and order the window goes into the statement and cuts the
    table as it lies. *)
Example window_after_filter_and_order :
  keys_of (fst (@sqlds.Datastore_Query dsq.on_lists (blocks_store sql.SQLite)
                  (dsq.mkQuery "" [value_not_empty] [OrderByKeyDescending] 1 1 false false)
                  (blocks_world sql.SQLite
                     [("/3", text "c"); ("/1", text "a"); ("/5", text "e");
                      ("/2", text "b"); ("/4", text "d")] []))) = ["/4"] /\
  sql.log (snd (@sqlds.Datastore_Query dsq.on_lists (blocks_store sql.SQLite)
                  (dsq.mkQuery "" [value_not_empty] [OrderByKeyDescending] 1 1 false false)
                  (blocks_world sql.SQLite
                     [("/3", text "c"); ("/1", text "a"); ("/5", text "e");
                      ("/2", text "b"); ("/4", text "d")] []))) =
    [sql.EvQuery "SELECT key, data FROM blocks"] /\
  keys_of (fst (@sqlds.Datastore_Query dsq.on_lists (blocks_store sql.SQLite)
                  (dsq.mkQuery "" [] [] 1 1 false false)
                  (blocks_world sql.SQLite
                     [("/3", text "c"); ("/1", text "a"); ("/5", text "e");
                      ("/2", text "b"); ("/4", text "d")] []))) = ["/1"] /\
  sql.log (snd (@sqlds.Datastore_Query dsq.on_lists (blocks_store sql.SQLite)
                  (dsq.mkQuery "" [] [] 1 1 false false)
                  (blocks_world sql.SQLite
                     [("/3", text "c"); ("/1", text "a"); ("/5", text "e");
                      ("/2", text "b"); ("/4", text "d")] []))) =
    [sql.EvQuery "SELECT key, data FROM blocks LIMIT 1 OFFSET 1"].
Proof. vm_compute. repeat split. Qed.

(** ** Patterns without wildcards *)

Lemma pmatch_star_end (s : string) : sql.pmatch [sql.PStar] s = true.
Proof. induction s as [|c s IH]; [reflexivity|]. cbn in *. exact IH. Qed.

Lemma pmatch_lits (p s : string) :
  sql.pmatch (lits p ++ [sql.PStar])%list s = String.prefix p s.
Proof.
  revert s. induction p as [|c p IH]; intros s.
  - rewrite pmatch_star_end. now destruct s.
  - destruct s as [|a s]; [reflexivity|]. cbn [lits app sql.pmatch String.prefix].
    destruct (ascii_dec c a) as [->|Hn].
    + now rewrite Ascii.eqb_refl, IH.
    + apply Ascii.eqb_neq in Hn. now rewrite Hn.
Qed.

Lemma literal_cons e c s :
  literal e (String c s) = true -> meta e c = false /\ literal e s = true.
Proof.
  unfold literal. cbn. intros H. apply andb_true_iff in H as [H1 H2].
  split; [now apply negb_true_iff in H1 | exact H2].
Qed.

Lemma literal_app e a b : literal e a = true -> literal e b = true -> literal e (a ++ b) = true.
Proof.
  intros Ha Hb. induction a as [|c a IH]; [exact Hb|].
  apply literal_cons in Ha as [Hc Ha]. unfold literal in *. cbn.
  now rewrite Hc, (IH Ha).
Qed.

Lemma like_compile_literal (p : string) :
  literal sql.Postgres p = true ->
  sql.like_compile (p ++ "%") = Some (lits p ++ [sql.PStar])%list.
Proof.
  induction p as [|c p IH]; intros H; [reflexivity|].
  apply literal_cons in H as [Hc Hp]. unfold meta in Hc.
  apply orb_false_iff in Hc as [_ Hc].
  apply orb_false_iff in Hc as [Hc H3].
  apply orb_false_iff in Hc as [H1 H2].
  cbn [append sql.like_compile lits app].
  now rewrite H3, H1, H2, (IH Hp).
Qed.

Lemma glob_compile_literal (p : string) :
  literal sql.SQLite p = true ->
  sql.glob_compile (p ++ "*") = (lits p ++ [sql.PStar])%list.
Proof.
  unfold sql.glob_compile.
  induction p as [|c p IH]; intros H; [reflexivity|].
  apply literal_cons in H as [Hc Hp]. unfold meta in Hc.
  apply orb_false_iff in Hc as [_ Hc].
  apply orb_false_iff in Hc as [Hc H3].
  apply orb_false_iff in Hc as [H1 H2].
  cbn [append sql.glob_scan lits app].
  now rewrite H1, H2, H3, (IH Hp).
Qed.

Lemma filter_same {A} (f g : A -> bool) (l : list A) :
  (forall x, f x = g x) -> filter f l = filter g l.
Proof.
  intros H. induction l as [|x l IH]; cbn; [reflexivity|]. now rewrite H, IH.
Qed.

(** The where clause of a literal pattern keeps the rows whose key starts
    with it, in key order. *)
Lemma restrict_literal e p tb :
  literal e p = true ->
  sql.restrict e (Some (operator e, p ++ wildcard e)) tb =
  sql.Done (sql.order_by_key (filter (fun r => String.prefix p (fst r)) tb)).
Proof.
  intros H. destruct e; cbn [sql.restrict operator wildcard].
  - rewrite (like_compile_literal p H).
    f_equal. f_equal. apply filter_same. intros r. apply pmatch_lits.
  - rewrite (glob_compile_literal p H).
    f_equal. f_equal. apply filter_same. intros r. apply pmatch_lits.
Qed.

Lemma read_literal_app (l r : string) :
  contains_char "'" l = false ->
  starts_with (fun c => Ascii.eqb c "'") r = false ->
  sql.read_literal (l ++ String "'" r) = Some (l, r).
Proof.
  intros Hl Hr. induction l as [|c l IH].
  - cbn [append sql.read_literal]. rewrite Ascii.eqb_refl.
    destruct r as [|a r]; [reflexivity|]. unfold starts_with in Hr. now rewrite Hr.
  - cbn [contains_char] in Hl. apply orb_false_iff in Hl as [Hc Hl].
    cbn [append sql.read_literal]. now rewrite Hc, (IH Hl).
Qed.

Lemma literal_no_quote e s : literal e s = true -> contains_char "'" s = false.
Proof.
  induction s as [|c s IH]; intros H; [reflexivity|].
  apply literal_cons in H as [Hc Hs]. unfold meta in Hc.
  apply orb_false_iff in Hc as [Hc _]. cbn. now rewrite Hc, (IH Hs).
Qed.

Lemma take_while_all (f : ascii -> bool) (a : string) :
  sql.all_chars f a = true -> sql.take_while f a = (a, "").
Proof.
  intros H. rewrite <- (append_empty a) at 1. now apply take_while_app.
Qed.

(** ** The bulk select, read and run *)

Lemma no_shape (q : string) :
  sql.parse_shapes sql.shapes ("SELECT key, data FROM " ++ q) = None.
Proof.
  unfold sql.shapes. repeat (rewrite parse_shapes_next by reflexivity). reflexivity.
Qed.

Lemma parse_select_all (t : string) :
  sql.ident t = true ->
  sql.parse ("SELECT key, data FROM " ++ t) = Some (sql.Select_ t None None None).
Proof.
  intros Ht. unfold sql.parse. rewrite no_shape. unfold sql.parse_select.
  rewrite strip_prefix_app, (take_while_all _ _ (ident_chars _ Ht)), Ht.
  reflexivity.
Qed.

Lemma parse_select_where (e : sql.engine) (t p : string) :
  sql.ident t = true ->
  contains_char "'" p = false ->
  sql.parse ("SELECT key, data FROM " ++ t ++ where_text e p) =
  Some (sql.Select_ t (Some (operator e, p ++ wildcard e)) None None).
Proof.
  intros Ht Hp. unfold sql.parse. rewrite no_shape. unfold sql.parse_select.
  rewrite strip_prefix_app.
  assert (Hq : contains_char "'" (p ++ wildcard e) = false).
  { clear Ht. induction p as [|c p IH]; [now destruct e|].
    cbn in *. apply orb_false_iff in Hp as [Hc Hp]. now rewrite Hc, (IH Hp). }
  destruct e.
  - rewrite (take_while_app _ t (where_text sql.Postgres p) (ident_chars _ Ht) eq_refl), Ht.
    cbn [negb]. unfold where_text, sql.clause at 1.
    rewrite strip_prefix_app. unfold sql.read_where.
    replace (p ++ "%' ORDER BY key") with ((p ++ "%") ++ String "'" " ORDER BY key")
      by (now rewrite append_assoc).
    rewrite (read_literal_app (p ++ "%") " ORDER BY key" Hq eq_refl). reflexivity.
  - rewrite (take_while_app _ t (where_text sql.SQLite p) (ident_chars _ Ht) eq_refl), Ht.
    cbn [negb]. unfold where_text, sql.clause at 1.
    replace (strip_prefix " WHERE key LIKE '" (" WHERE key GLOB '" ++ p ++ "*' ORDER BY key"))
      with (@None string) by reflexivity.
    unfold sql.clause at 1. rewrite strip_prefix_app. unfold sql.read_where.
    replace (p ++ "*' ORDER BY key") with ((p ++ "*") ++ String "'" " ORDER BY key")
      by (now rewrite append_assoc).
    rewrite (read_literal_app (p ++ "*") " ORDER BY key" Hq eq_refl). reflexivity.
Qed.

Lemma window_none e rows : sql.window e None None rows = sql.Done rows.
Proof. now destruct e. Qed.

Lemma DB_Query_quiet d q w :
  quiet w ->
  sql.DB_Query d q w =
  match sql.select (sql.flavour w) q (sql.tables w) with
  | sql.Failed err => (sql.Failed err, after (sql.EvQuery q) w)
  | sql.Done rows =>
      (sql.Done (fresh_cursor (sql.with_scan_faults rows (sql.scan_faults w))),
       sql.set_scan_faults (skipn (length rows) (sql.scan_faults w))
         (after (sql.EvQuery q) w))
  end.
Proof.
  intros Hq. unfold sql.DB_Query. rewrite (call_quiet _ _ Hq). reflexivity.
Qed.

Lemma scanned_without_faults q rows :
  scanned q (sql.with_scan_faults rows []) =
  map (fun r => entry_of q (fst r) (snd r)) rows.
Proof.
  induction rows as [|[k v] rows IH]; cbn; [reflexivity|]. now rewrite IH.
Qed.

Lemma insert_row_In x y l : In y (sql.insert_row x l) <-> y = x \/ In y l.
Proof.
  induction l as [|z l IH]; cbn.
  - intuition.
  - destruct (String.leb (fst z) (fst x)); cbn; [rewrite IH|]; intuition.
Qed.

Lemma order_by_key_In y l : In y (sql.order_by_key l) <-> In y l.
Proof.
  unfold sql.order_by_key. induction l as [|x l IH]; cbn; [reflexivity|].
  rewrite insert_row_In, IH. intuition.
Qed.

Lemma prefix_part_text e t q :
  dsq.Prefix q <> "" ->
  ds.NewKey (dsq.Prefix q) <> "/" ->
  prefix_part (provider e t) q = where_text e (ds.NewKey (dsq.Prefix q) ++ "/").
Proof.
  intros H1 H2. unfold prefix_part.
  apply String.eqb_neq in H1. apply String.eqb_neq in H2. rewrite H1, H2.
  now destruct e.
Qed.

Lemma prefix_part_none qs q :
  dsq.Prefix q = "" \/ ds.NewKey (dsq.Prefix q) = "/" ->
  prefix_part qs q = "".
Proof.
  intros [H|H]; unfold prefix_part; rewrite H; [reflexivity|].
  now destruct (String.eqb (dsq.Prefix q) "").
Qed.

Lemma compose_no_window qs q :
  no_sql_window q = true ->
  sqlds.compose qs q = sqlds.Query qs ++ prefix_part qs q.
Proof.
  intros H. rewrite compose_shape. unfold no_sql_window in H.
  destruct (plain q); cbn in H; [|now rewrite append_empty].
  apply andb_true_iff in H as [Hl Ho]. unfold limit_part, offset_part.
  rewrite Hl, Ho. cbn. now rewrite append_empty.
Qed.

Section BulkSelect.

Variables (e : sql.engine) (t : string) (d : sqlds.Datastore).
Hypothesis Ht : sql.ident t = true.
Hypothesis Hd : sqlds.queries d = provider e t.

Lemma RawQuery_below w rows q :
  serves e t rows w -> quiet w -> sql.scan_faults w = [] ->
  no_sql_window q = true ->
  dsq.Prefix q <> "" ->
  ds.NewKey (dsq.Prefix q) <> "/" ->
  literal e (ds.NewKey (dsq.Prefix q)) = true ->
  fst (sqlds.Datastore_RawQuery d q w) =
  sql.Done (map (fun r => entry_of q (fst r) (snd r))
              (sql.order_by_key
                 (filter (fun r => below (ds.NewKey (dsq.Prefix q)) (fst r)) rows))).
Proof.
  intros [He Hl] Hq Hf Hw H1 H2 H3.
  unfold sqlds.Datastore_RawQuery, sqlds.QueryWithParams.
  rewrite Hd, (compose_no_window _ q Hw), Query_text, (prefix_part_text e t q H1 H2).
  rewrite append_assoc, (DB_Query_quiet _ _ w Hq), He.
  assert (L : literal e (ds.NewKey (dsq.Prefix q) ++ "/") = true)
    by (apply literal_app; [exact H3 | now destruct e]).
  unfold sql.select.
  rewrite (parse_select_where e t _ Ht (literal_no_quote e _ L)).
  unfold sql.on_table. rewrite Hl, (restrict_literal e _ rows L), window_none, Hf.
  cbn [fst]. unfold fresh_cursor. now rewrite results_of_scanned, scanned_without_faults.
Qed.

Lemma RawQuery_everything w rows q :
  serves e t rows w -> quiet w -> sql.scan_faults w = [] ->
  no_sql_window q = true ->
  dsq.Prefix q = "" \/ ds.NewKey (dsq.Prefix q) = "/" ->
  fst (sqlds.Datastore_RawQuery d q w) =
  sql.Done (map (fun r => entry_of q (fst r) (snd r)) rows).
Proof.
  intros [He Hl] Hq Hf Hw H1.
  unfold sqlds.Datastore_RawQuery, sqlds.QueryWithParams.
  rewrite Hd, (compose_no_window _ q Hw), Query_text, (prefix_part_none _ q H1).
  rewrite append_empty, (DB_Query_quiet _ _ w Hq), He.
  unfold sql.select. rewrite (parse_select_all t Ht).
  unfold sql.on_table. rewrite Hl. cbn [sql.restrict]. rewrite window_none, Hf.
  cbn [fst]. unfold fresh_cursor. now rewrite results_of_scanned, scanned_without_faults.
Qed.

End BulkSelect.

(** C3, as the code has it.  With a prefix that is not empty and whose key
    is not the root, the statement carries the prefix fragment of the
    dialect around the key of the prefix followed by a slash; when that key
    has no quote and no wildcard of the dialect, the where clause keeps
    exactly the rows whose key lies strictly below it, in key order, and
    these are the rows that come back.  With an
    empty prefix, or one whose key is the root, the statement carries no
    prefix fragment and every row comes back. *)
Theorem prefix_fragment_and_its_matches
        (e : sql.engine) (t : string) (d : sqlds.Datastore) (q : dsq.Query) :
  sql.ident t = true ->
  sqlds.queries d = provider e t ->
  sqlds.compose (sqlds.queries d) q =
    "SELECT key, data FROM " ++ t ++ prefix_part (sqlds.queries d) q ++
    (if plain q
     then limit_part (sqlds.queries d) q ++ offset_part (sqlds.queries d) q
     else "") /\
  (dsq.Prefix q <> "" -> ds.NewKey (dsq.Prefix q) <> "/" ->
   prefix_part (sqlds.queries d) q = where_text e (ds.NewKey (dsq.Prefix q) ++ "/") /\
   (literal e (ds.NewKey (dsq.Prefix q)) = true ->
    forall rows,
      sql.restrict e
        (Some (operator e, (ds.NewKey (dsq.Prefix q) ++ "/") ++ wildcard e)) rows =
      sql.Done (sql.order_by_key
                  (filter (fun r => below (ds.NewKey (dsq.Prefix q)) (fst r)) rows))) /\
   forall w rows,
     serves e t rows w -> quiet w -> sql.scan_faults w = [] ->
     no_sql_window q = true ->
     literal e (ds.NewKey (dsq.Prefix q)) = true ->
     fst (sqlds.Datastore_RawQuery d q w) =
       sql.Done (map (fun r => entry_of q (fst r) (snd r))
                   (sql.order_by_key
                      (filter (fun r => below (ds.NewKey (dsq.Prefix q)) (fst r)) rows))) /\
     forall rs,
       fst (sqlds.Datastore_RawQuery d q w) = sql.Done rs ->
       forall k,
         In k (map (fun r => dsq.Key (dsq.Entry_ r)) rs) <->
         In k (map fst rows) /\ below (ds.NewKey (dsq.Prefix q)) k = true) /\
  (dsq.Prefix q = "" \/ ds.NewKey (dsq.Prefix q) = "/" ->
   prefix_part (sqlds.queries d) q = "" /\
   forall w rows,
     serves e t rows w -> quiet w -> sql.scan_faults w = [] ->
     no_sql_window q = true ->
     fst (sqlds.Datastore_RawQuery d q w) =
       sql.Done (map (fun r => entry_of q (fst r) (snd r)) rows)).
Proof.
  intros Ht Hd. split; [|split].
  - rewrite compose_shape, Hd, Query_text, append_assoc. reflexivity.
  - intros H1 H2. split; [rewrite Hd; now apply prefix_part_text|]. split.
    { intros Hl rows. apply restrict_literal.
      apply literal_app; [exact Hl | now destruct e]. }
    intros w rows Hs Hq Hf Hw Hl.
    pose proof (RawQuery_below e t d Ht Hd w rows q Hs Hq Hf Hw H1 H2 Hl) as R.
    split; [exact R|]. intros rs Hrs k. rewrite R in Hrs. injection Hrs as <-.
    rewrite map_map. cbn [entry_of dsq.Entry_ dsq.Key].
    rewrite !in_map_iff. split.
    + intros [[k' v] [<- Hin]]. apply order_by_key_In, filter_In in Hin as [Hin Hb].
      split; [exists (k', v); now split | exact Hb].
    + intros [[[k' v] [<- Hin]] Hb]. exists (k', v). split; [reflexivity|].
      apply order_by_key_In, filter_In. now split.
  - intros H. split; [now apply prefix_part_none|].
    intros w rows Hs Hq Hf Hw.
    now apply (RawQuery_everything e t d Ht Hd w rows q).
Qed.

(** C3, as stated, fails: under Postgres the prefix "/a_" is spliced as the
    pattern '/a_/%', whose underscore stands for any character, and the row
    of key "/ab/1", which is not below "/a_", comes back. *)
Lemma wildcard_in_prefix_matches_too_much :
  ~ (forall (e : sql.engine) (t : string) (d : sqlds.Datastore) (q : dsq.Query)
            (w : sql.World) (rows : sql.Table),
        sql.ident t = true ->
        sqlds.queries d = provider e t ->
        serves e t rows w -> quiet w -> sql.scan_faults w = [] ->
        no_sql_window q = true ->
        dsq.Prefix q <> "" -> ds.NewKey (dsq.Prefix q) <> "/" ->
        forall k,
          In k (keys_of (fst (sqlds.Datastore_RawQuery d q w))) ->
          below (ds.NewKey (dsq.Prefix q)) k = true).
Proof.
  intros H.
  specialize (H sql.Postgres "blocks" (blocks_store sql.Postgres)
                (dsq.mkQuery "/a_" [] [] 0 0 false false)
                (blocks_world sql.Postgres [("/ab/1", text "v")] [])
                [("/ab/1", text "v")]
                eq_refl eq_refl (conj eq_refl eq_refl)
                (conj eq_refl (Forall_nil _)) eq_refl eq_refl).
  assert (N1 : dsq.Prefix (dsq.mkQuery "/a_" [] [] 0 0 false false) <> "")
    by discriminate.
  assert (N2 : ds.NewKey (dsq.Prefix (dsq.mkQuery "/a_" [] [] 0 0 false false)) <> "/")
    by (vm_compute; discriminate).
  specialize (H N1 N2 "/ab/1").
  assert (I : In "/ab/1"
                (keys_of (fst (sqlds.Datastore_RawQuery (blocks_store sql.Postgres)
                            (dsq.mkQuery "/a_" [] [] 0 0 false false)
                            (blocks_world sql.Postgres [("/ab/1", text "v")] [])))))
    by (vm_compute; now left).
  specialize (H I). vm_compute in H. discriminate.
Qed.

Lemma prefix_fragment_and_its_matches_witness :
  sqlds.compose (provider sql.SQLite "blocks") (dsq.mkQuery "/a" [] [] 0 0 false false) =
    "SELECT key, data FROM blocks WHERE key GLOB '/a/*' ORDER BY key" /\
  keys_of (fst (sqlds.Datastore_RawQuery (blocks_store sql.SQLite)
                  (dsq.mkQuery "/a" [] [] 0 0 false false)
                  (blocks_world sql.SQLite
                     [("/b/1", text "v3"); ("/a/2", text "v2"); ("/ab", text "x");
                      ("/a/1", text "v1")] []))) = ["/a/1"; "/a/2"].
Proof.
  destruct (prefix_fragment_and_its_matches sql.SQLite "blocks" (blocks_store sql.SQLite)
              (dsq.mkQuery "/a" [] [] 0 0 false false) eq_refl eq_refl)
    as (C & W & _).
  split; [exact C|].
  assert (N1 : dsq.Prefix (dsq.mkQuery "/a" [] [] 0 0 false false) <> "") by discriminate.
  assert (N2 : ds.NewKey (dsq.Prefix (dsq.mkQuery "/a" [] [] 0 0 false false)) <> "/")
    by (vm_compute; discriminate).
  destruct (W N1 N2) as (_ & _ & R).
  destruct (R (blocks_world sql.SQLite
                 [("/b/1", text "v3"); ("/a/2", text "v2"); ("/ab", text "x");
                  ("/a/1", text "v1")] [])
              [("/b/1", text "v3"); ("/a/2", text "v2"); ("/ab", text "x");
               ("/a/1", text "v1")]
              (conj eq_refl eq_refl) (conj eq_refl (Forall_nil _)) eq_refl eq_refl eq_refl)
    as [E _].
  rewrite E. reflexivity.
Defined.

(** C4.  Where the claim fails.  With the driver registered and the first
    call to the database bound to fail, [Create] of postgres still returns
    a datastore and no error: it has opened the handle and called nothing
    else, and the failure comes with the first operation.  [Create] of
    sqlite, on such a world, pings, fails, and returns no datastore. *)
Theorem postgres_Create_probes_nothing
        (opts : postgres.Options) (sopts : sqlite.Options) (w ws : sql.World)
        (err : error) (fs : list (option error)) :
  existsb (String.eqb "postgres") (sql.drivers w) = true ->
  sql.closed w = false ->
  sql.faults w = Some err :: fs ->
  existsb (String.eqb (sqlite.Driver (sqlite.setDefaults sopts))) (sql.drivers ws) = true ->
  sqlite.Key sopts = [] ->
  sql.closed ws = false ->
  sql.faults ws = Some err :: fs ->
  (exists d dsn,
      postgres.Create opts w =
        ((Some d, None), postgres.setDefaults opts,
         sql.record_ (sql.EvOpen "postgres" dsn) w) /\
      forall k, err <> ErrNoRows ->
        fst (sqlds.Datastore_Get d k (sql.record_ (sql.EvOpen "postgres" dsn) w)) =
          ([], Some err)) /\
  fst (fst (sqlite.Create sopts ws)) =
    (None, Some (ErrWrap err "failed to ping database")).
Proof.
  intros Hp Hc Hf Hs Hk Hcs Hfs. split.
  - unfold postgres.Create, sql.Open. cbn [sql.drivers sql.record_]. rewrite Hp.
    eexists _, _. split; [reflexivity|].
    intros k Hn. unfold sqlds.Datastore_Get, sql.DB_QueryRow, sql.call.
    cbn [sql.closed sql.record_ sql.faults]. rewrite Hc, Hf.
    cbn. now destruct err.
  - unfold sqlite.Create. cbn [sqlite.setDefaults sqlite.Key]. rewrite Hk.
    cbn [length Nat.eqb negb andb]. unfold sql.Open.
    cbn [sql.drivers sql.record_]. rewrite Hs.
    unfold sql.DB_Ping, sql.call. cbn [sql.closed sql.record_ sql.faults].
    rewrite Hcs, Hfs. reflexivity.
Qed.

Lemma postgres_Create_probes_nothing_witness :
  (exists d,
      fst (fst (postgres.Create
                  {| postgres.Host := ""; postgres.Port := ""; postgres.User := "";
                     postgres.Password := ""; postgres.Database := "";
                     postgres.Table := "" |}
                  (blocks_world sql.Postgres [] [Some (ErrNew "connection refused")]))) =
        (Some d, None) /\
      fst (sqlds.Datastore_Get d "/x"
             (snd (postgres.Create
                     {| postgres.Host := ""; postgres.Port := ""; postgres.User := "";
                        postgres.Password := ""; postgres.Database := "";
                        postgres.Table := "" |}
                     (blocks_world sql.Postgres [] [Some (ErrNew "connection refused")])))) =
        ([], Some (ErrNew "connection refused"))) /\
  fst (fst (sqlite.Create
              {| sqlite.Driver := ""; sqlite.DSN := ""; sqlite.Table := "";
                 sqlite.NoCreate := false; sqlite.Key := []; sqlite.CipherPageSize := 0 |}
              (blocks_world sql.SQLite [] [Some (ErrNew "connection refused")]))) =
    (None, Some (ErrWrap (ErrNew "connection refused") "failed to ping database")).
Proof.
  destruct (postgres_Create_probes_nothing
              {| postgres.Host := ""; postgres.Port := ""; postgres.User := "";
                 postgres.Password := ""; postgres.Database := ""; postgres.Table := "" |}
              {| sqlite.Driver := ""; sqlite.DSN := ""; sqlite.Table := "";
                 sqlite.NoCreate := false; sqlite.Key := []; sqlite.CipherPageSize := 0 |}
              (blocks_world sql.Postgres [] [Some (ErrNew "connection refused")])
              (blocks_world sql.SQLite [] [Some (ErrNew "connection refused")])
              (ErrNew "connection refused") []
              eq_refl eq_refl eq_refl eq_refl eq_refl eq_refl eq_refl)
    as [[d [dsn [P G]]] S].
  split; [|exact S]. exists d. rewrite P. split; [reflexivity|].
  apply G. discriminate.
Defined.

(** ** The scenarios of the specification *)

(** Prefix "/a" over the keys /a/1, /a/2, /b/1 and /ab, in several orders of
    insertion and under both dialects. *)
Example prefix_a_in_any_order :
  Forall (fun rows =>
            keys_of (fst (sqlds.Datastore_RawQuery (blocks_store sql.Postgres)
                            (dsq.mkQuery "/a" [] [] 0 0 true false)
                            (blocks_world sql.Postgres rows []))) = ["/a/1"; "/a/2"] /\
            keys_of (fst (sqlds.Datastore_RawQuery (blocks_store sql.SQLite)
                            (dsq.mkQuery "/a" [] [] 0 0 true false)
                            (blocks_world sql.SQLite rows []))) = ["/a/1"; "/a/2"])
    [ [("/a/1", text "v1"); ("/a/2", text "v2"); ("/b/1", text "v3"); ("/ab", text "v4")];
      [("/a/2", text "v2"); ("/a/1", text "v1"); ("/ab", text "v4"); ("/b/1", text "v3")];
      [("/b/1", text "v3"); ("/ab", text "v4"); ("/a/2", text "v2"); ("/a/1", text "v1")];
      [("/ab", text "v4"); ("/a/1", text "v1"); ("/b/1", text "v3"); ("/a/2", text "v2")] ].
Proof. repeat constructor. Qed.

(** The embedded engine with default options: the table is created, and
    after [Put("/x", "hello")], [GetSize] is 5 and [Has] is true. *)
Example embedded_defaults :
  let '(r, _, w) :=
    sqlite.Create
      {| sqlite.Driver := ""; sqlite.DSN := ""; sqlite.Table := "";
         sqlite.NoCreate := false; sqlite.Key := []; sqlite.CipherPageSize := 0 |}
      (sql.mkWorld ["sqlite3"] sql.SQLite [] false [] [] []) in
  match r with
  | (Some d, None) =>
      let (e1, w1) := sqlds.Datastore_Put d "/x" (text "hello") w in
      e1 = None /\
      fst (sqlds.Datastore_GetSize d "/x" w1) = (5, None) /\
      fst (sqlds.Datastore_Has d "/x" w1) = (true, None)
  | _ => False
  end.
Proof. vm_compute. repeat split. Qed.

(** * Further properties of the code *)

(** ** Point operations, one after another *)

Lemma lookup_remove_other {A} (k k' : string) (l : list (string * A)) :
  k' <> k -> sql.lookup k' (sql.remove k l) = sql.lookup k' l.
Proof.
  intros Hn. induction l as [|[k0 a0] l IH]; simpl; [reflexivity|].
  destruct (String.eqb_spec k0 k); simpl.
  - subst. destruct (String.eqb_spec k k'); [congruence | exact IH].
  - now rewrite IH.
Qed.

Lemma lookup_store_else {A} (k k' : string) (a : A) l :
  k' <> k -> sql.lookup k' (sql.store k a l) = sql.lookup k' l.
Proof.
  intros Hn. induction l as [|[k0 a0] l IH]; simpl.
  - destruct (String.eqb_spec k k'); [congruence | reflexivity].
  - destruct (String.eqb_spec k0 k); simpl.
    + subst. destruct (String.eqb_spec k k'); [congruence | reflexivity].
    + now rewrite IH.
Qed.

Lemma lookup_put_rows_other e k k' v rows :
  k' <> k -> sql.lookup k' (put_rows e k v rows) = sql.lookup k' rows.
Proof.
  intros Hn. destruct e; simpl.
  - now apply lookup_store_else.
  - rewrite lookup_app, (lookup_remove_other k k' rows Hn).
    destruct (sql.lookup k' rows); [reflexivity|]. simpl.
    destruct (String.eqb_spec k k'); [congruence | reflexivity].
Qed.

Section Sequences.

Variables (e : sql.engine) (t : string) (d : sqlds.Datastore).
Hypothesis Ht : sql.ident t = true.
Hypothesis Hd : sqlds.queries d = provider e t.

(** The three reads of a key, from the rows of the table. *)
Lemma reads_of w rows k :
  serves e t rows w -> quiet w ->
  fst (sqlds.Datastore_Get d k w) =
    match sql.lookup k rows with
    | Some v => (v, None)
    | None => ([], Some ErrNotFound)
    end /\
  fst (sqlds.Datastore_Has d k w) =
    (match sql.lookup k rows with Some _ => true | None => false end, None) /\
  fst (sqlds.Datastore_GetSize d k w) =
    match sql.lookup k rows with
    | Some v => (sql.len v, None)
    | None => (-1, Some ErrNotFound)
    end.
Proof.
  intros Hs Hq.
  now rewrite (Get_runs e t d Ht Hd w rows k Hs Hq), (Has_runs e t d Ht Hd w rows k Hs Hq),
    (GetSize_runs e t d Ht Hd w rows k Hs Hq).
Qed.

Lemma Put_world w rows k v :
  serves e t rows w -> quiet w ->
  fst (sqlds.Datastore_Put d k v w) = None /\
  serves e t (put_rows e k v rows) (snd (sqlds.Datastore_Put d k v w)) /\
  quiet (snd (sqlds.Datastore_Put d k v w)).
Proof.
  intros Hs Hq. rewrite (Put_runs e t d Ht Hd w rows k v Hs Hq). cbn [fst snd].
  split; [reflexivity|]. split; [eapply serves_written; eauto | now apply quiet_after].
Qed.

Lemma Delete_world w rows k :
  serves e t rows w -> quiet w ->
  fst (sqlds.Datastore_Delete d k w) =
    (if sql.matching k rows =? 0 then Some ErrNotFound else None) /\
  serves e t (sql.remove k rows) (snd (sqlds.Datastore_Delete d k w)) /\
  quiet (snd (sqlds.Datastore_Delete d k w)).
Proof.
  intros Hs Hq. rewrite (Delete_runs e t d Ht Hd w rows k Hs Hq). cbn [fst snd].
  split; [reflexivity|]. split; [eapply serves_written; eauto | now apply quiet_after].
Qed.

End Sequences.

(** X1.  [Put(k, v)] then [Delete(k)] then [Get(k)]: the put and the delete
    return nil and the get returns NotFound, under both dialects. *)
Theorem Put_Delete_Get (e : sql.engine) (t : string) (d : sqlds.Datastore)
        (w : sql.World) (rows : sql.Table) (k : ds.Key) (v : bytes) :
  sql.ident t = true ->
  sqlds.queries d = provider e t ->
  serves e t rows w ->
  quiet w ->
  let '(e1, w1) := sqlds.Datastore_Put d k v w in
  let '(e2, w2) := sqlds.Datastore_Delete d k w1 in
  let '(g, _) := sqlds.Datastore_Get d k w2 in
  e1 = None /\ e2 = None /\ g = ([], Some ErrNotFound).
Proof. apply Delete_after_Put. Qed.

Lemma Put_Delete_Get_witness :
  let '(e1, w1) := sqlds.Datastore_Put (blocks_store sql.SQLite) "/x" (text "hello")
                     (blocks_world sql.SQLite [("/y", text "other")] []) in
  let '(e2, w2) := sqlds.Datastore_Delete (blocks_store sql.SQLite) "/x" w1 in
  let '(g, _) := sqlds.Datastore_Get (blocks_store sql.SQLite) "/x" w2 in
  e1 = None /\ e2 = None /\ g = ([], Some ErrNotFound).
Proof.
  exact (Put_Delete_Get sql.SQLite "blocks" (blocks_store sql.SQLite)
           (blocks_world sql.SQLite [("/y", text "other")] []) [("/y", text "other")]
           "/x" (text "hello")
           eq_refl eq_refl (conj eq_refl eq_refl) (conj eq_refl (Forall_nil _))).
Defined.

(** X2.  A [Put] or a [Delete] of one key leaves every other key as it
    was: [Get], [Has] and [GetSize] of another key answer after the write
    what they answered before. *)
Theorem writes_leave_other_keys (e : sql.engine) (t : string) (d : sqlds.Datastore)
        (w : sql.World) (rows : sql.Table) (k k' : ds.Key) (v : bytes) :
  sql.ident t = true ->
  sqlds.queries d = provider e t ->
  serves e t rows w ->
  quiet w ->
  k' <> k ->
  (fst (sqlds.Datastore_Get d k' (snd (sqlds.Datastore_Put d k v w))) =
     fst (sqlds.Datastore_Get d k' w) /\
   fst (sqlds.Datastore_Has d k' (snd (sqlds.Datastore_Put d k v w))) =
     fst (sqlds.Datastore_Has d k' w) /\
   fst (sqlds.Datastore_GetSize d k' (snd (sqlds.Datastore_Put d k v w))) =
     fst (sqlds.Datastore_GetSize d k' w)) /\
  (fst (sqlds.Datastore_Get d k' (snd (sqlds.Datastore_Delete d k w))) =
     fst (sqlds.Datastore_Get d k' w) /\
   fst (sqlds.Datastore_Has d k' (snd (sqlds.Datastore_Delete d k w))) =
     fst (sqlds.Datastore_Has d k' w) /\
   fst (sqlds.Datastore_GetSize d k' (snd (sqlds.Datastore_Delete d k w))) =
     fst (sqlds.Datastore_GetSize d k' w)).
Proof.
  intros Ht Hd Hs Hq Hn.
  destruct (reads_of e t d Ht Hd w rows k' Hs Hq) as (G & H & S).
  destruct (Put_world e t d Ht Hd w rows k v Hs Hq) as (_ & Sp & Qp).
  destruct (Delete_world e t d Ht Hd w rows k Hs Hq) as (_ & Sd & Qd).
  destruct (reads_of e t d Ht Hd _ _ k' Sp Qp) as (Gp & Hp & Szp).
  destruct (reads_of e t d Ht Hd _ _ k' Sd Qd) as (Gd & Hdl & Szd).
  rewrite Gp, Hp, Szp, Gd, Hdl, Szd, G, H, S.
  rewrite (lookup_put_rows_other e k k' v rows Hn), (lookup_remove_other k k' rows Hn).
  now repeat split.
Qed.

Lemma writes_leave_other_keys_witness :
  fst (sqlds.Datastore_Get (blocks_store sql.Postgres) "/y"
         (snd (sqlds.Datastore_Put (blocks_store sql.Postgres) "/x" (text "new")
                 (blocks_world sql.Postgres [("/x", text "old"); ("/y", text "other")] [])))) =
    fst (sqlds.Datastore_Get (blocks_store sql.Postgres) "/y"
           (blocks_world sql.Postgres [("/x", text "old"); ("/y", text "other")] [])) /\
  fst (sqlds.Datastore_Get (blocks_store sql.Postgres) "/y"
         (snd (sqlds.Datastore_Delete (blocks_store sql.Postgres) "/x"
                 (blocks_world sql.Postgres [("/x", text "old"); ("/y", text "other")] [])))) =
    fst (sqlds.Datastore_Get (blocks_store sql.Postgres) "/y"
           (blocks_world sql.Postgres [("/x", text "old"); ("/y", text "other")] [])).
Proof.
  destruct (writes_leave_other_keys sql.Postgres "blocks" (blocks_store sql.Postgres)
              (blocks_world sql.Postgres [("/x", text "old"); ("/y", text "other")] [])
              [("/x", text "old"); ("/y", text "other")] "/x" "/y" (text "new")
              eq_refl eq_refl (conj eq_refl eq_refl) (conj eq_refl (Forall_nil _))
              ltac:(discriminate))
    as [(P & _) (D & _)].
  now split.
Defined.

(** X3.  The three reads agree on every key: [Has] never fails and is true
    exactly when [Get] succeeds; when [Get] succeeds [GetSize] is the length
    of the bytes it returns; when [Get] returns NotFound so does [GetSize],
    with -1. *)
Theorem reads_agree (e : sql.engine) (t : string) (d : sqlds.Datastore)
        (w : sql.World) (rows : sql.Table) (k : ds.Key) :
  sql.ident t = true ->
  sqlds.queries d = provider e t ->
  serves e t rows w ->
  quiet w ->
  snd (fst (sqlds.Datastore_Has d k w)) = None /\
  (fst (fst (sqlds.Datastore_Has d k w)) = true <->
   snd (fst (sqlds.Datastore_Get d k w)) = None) /\
  (snd (fst (sqlds.Datastore_Get d k w)) = None ->
   fst (sqlds.Datastore_GetSize d k w) =
     (sql.len (fst (fst (sqlds.Datastore_Get d k w))), None)) /\
  (snd (fst (sqlds.Datastore_Get d k w)) <> None ->
   fst (sqlds.Datastore_Get d k w) = ([], Some ErrNotFound) /\
   fst (sqlds.Datastore_GetSize d k w) = (-1, Some ErrNotFound)).
Proof.
  intros Ht Hd Hs Hq.
  destruct (reads_of e t d Ht Hd w rows k Hs Hq) as (G & H & S).
  rewrite G, H, S. destruct (sql.lookup k rows) as [v|]; cbn.
  - repeat split; congruence.
  - repeat split; congruence.
Qed.

Lemma reads_agree_witness :
  fst (sqlds.Datastore_Has (blocks_store sql.SQLite) "/x"
         (blocks_world sql.SQLite [("/x", text "hello")] [])) = (true, None) /\
  fst (sqlds.Datastore_GetSize (blocks_store sql.SQLite) "/x"
         (blocks_world sql.SQLite [("/x", text "hello")] [])) = (5, None).
Proof.
  destruct (reads_agree sql.SQLite "blocks" (blocks_store sql.SQLite)
              (blocks_world sql.SQLite [("/x", text "hello")] [])
              [("/x", text "hello")] "/x"
              eq_refl eq_refl (conj eq_refl eq_refl) (conj eq_refl (Forall_nil _)))
    as (H1 & H2 & H3 & _).
  split.
  - apply injective_projections; [|exact H1]. apply H2. reflexivity.
  - rewrite (H3 eq_refl). reflexivity.
Defined.

(** X4.  [Delete] of a key that has a row returns nil and removes it: a
    second [Delete] of the same key returns NotFound, and [Has] is false. *)
Theorem Delete_twice (e : sql.engine) (t : string) (d : sqlds.Datastore)
        (w : sql.World) (rows : sql.Table) (k : ds.Key) (v : bytes) :
  sql.ident t = true ->
  sqlds.queries d = provider e t ->
  serves e t rows w ->
  quiet w ->
  sql.lookup k rows = Some v ->
  let '(e1, w1) := sqlds.Datastore_Delete d k w in
  let '(e2, w2) := sqlds.Datastore_Delete d k w1 in
  e1 = None /\ e2 = Some ErrNotFound /\
  fst (sqlds.Datastore_Has d k w1) = (false, None).
Proof.
  intros Ht Hd Hs Hq Hk.
  destruct (Delete_world e t d Ht Hd w rows k Hs Hq) as (E1 & S1 & Q1).
  destruct (sqlds.Datastore_Delete d k w) as [e1 w1]. cbn [fst snd] in *.
  destruct (Delete_world e t d Ht Hd w1 _ k S1 Q1) as (E2 & _ & _).
  destruct (reads_of e t d Ht Hd w1 _ k S1 Q1) as (_ & H & _).
  destruct (sqlds.Datastore_Delete d k w1) as [e2 w2]. cbn [fst snd] in *.
  rewrite E1, E2, H, (matching_present k rows v Hk), lookup_remove_same,
    (matching_absent k _ (lookup_remove_same k rows)).
  now repeat split.
Qed.

Lemma Delete_twice_witness :
  let '(e1, w1) := sqlds.Datastore_Delete (blocks_store sql.Postgres) "/x"
                     (blocks_world sql.Postgres [("/x", text "hello")] []) in
  let '(e2, w2) := sqlds.Datastore_Delete (blocks_store sql.Postgres) "/x" w1 in
  e1 = None /\ e2 = Some ErrNotFound /\
  fst (sqlds.Datastore_Has (blocks_store sql.Postgres) "/x" w1) = (false, None).
Proof.
  exact (Delete_twice sql.Postgres "blocks" (blocks_store sql.Postgres)
           (blocks_world sql.Postgres [("/x", text "hello")] [])
           [("/x", text "hello")] "/x" (text "hello")
           eq_refl eq_refl (conj eq_refl eq_refl) (conj eq_refl (Forall_nil _)) eq_refl).
Defined.

(** ** What the operations leave alone *)



Lemma store_same {A} (k : string) (a : A) (l : list (string * A)) :
  sql.lookup k l = Some a -> sql.store k a l = l.
Proof.
  induction l as [|[k0 a0] l IH]; simpl; [discriminate|].
  destruct (String.eqb_spec k0 k).
  - intros H. injection H as ->. now subst.
  - intros H. now rewrite (IH H).
Qed.

Lemma remove_nothing {A} (k : string) (l : list (string * A)) :
  sql.matching k l = 0 -> sql.remove k l = l.
Proof.
  unfold sql.matching, sql.remove. induction l as [|[k0 a0] l IH]; simpl; [reflexivity|].
  destruct (String.eqb k0 k); simpl.
  - intros H. discriminate H.
  - intros H. now rewrite (IH H).
Qed.

(** A statement with the key as its only argument that affects no row has
    changed no table. *)
Lemma exec_no_row e q k ts ts' :
  sql.exec e q [sql.VStr k] ts = sql.Done (0, ts') -> ts' = ts.
Proof.
  unfold sql.exec.
  destruct (sql.parse q) as [[t|t|t|t|t|t|t|t|t wh lim off]|]; destruct e;
    try discriminate.
  all: unfold sql.on_table; destruct (sql.lookup t ts) as [tb|] eqn:El;
    try discriminate.
  all: intros H; injection H as Hm <-.
  all: rewrite (remove_nothing k tb Hm); exact (store_same t tb ts El).
Qed.

(** X6.  A write that returns an error has written nothing: in every world
    and for every datastore, when [Put] or [Delete] returns an error --
    NotFound included -- the tables are as they were. *)
Theorem failed_writes_write_nothing (d : sqlds.Datastore) (k : ds.Key) (v : bytes)
        (w : sql.World) :
  (fst (sqlds.Datastore_Put d k v w) <> None ->
   sql.tables (snd (sqlds.Datastore_Put d k v w)) = sql.tables w) /\
  (fst (sqlds.Datastore_Delete d k w) <> None ->
   sql.tables (snd (sqlds.Datastore_Delete d k w)) = sql.tables w).
Proof.
  split.
  - unfold sqlds.Datastore_Put, sql.DB_Exec.
    pose proof (call_tables (sql.EvExec (sqlds.Put (sqlds.queries d))
                               [sql.VStr (ds.Key_String k); sql.VBytes v]) w) as T.
    destruct (sql.call _ w) as [[err|] w1]; cbn in *; [intros _; exact T|].
    destruct (sql.exec _ _ _ _) as [[n ts]|err]; cbn; [congruence | intros _; exact T].
  - unfold sqlds.Datastore_Delete, sql.DB_Exec.
    pose proof (call_tables (sql.EvExec (sqlds.Delete (sqlds.queries d))
                               [sql.VStr (ds.Key_String k)]) w) as T.
    destruct (sql.call _ w) as [[err|] w1]; cbn in *; [intros _; exact T|].
    destruct (sql.exec _ _ _ _) as [[n ts]|err] eqn:Ex; cbn; [|intros _; exact T].
    destruct (n =? 0) eqn:En; cbn; [|congruence].
    intros _. apply Z.eqb_eq in En. subst n.
    now rewrite (exec_no_row _ _ _ _ _ Ex).
Qed.

Lemma failed_writes_write_nothing_witness :
  fst (sqlds.Datastore_Put (blocks_store sql.Postgres) "/x" (text "new")
         (blocks_world sql.Postgres [("/x", text "old")] [Some boom])) = Some boom /\
  sql.tables (snd (sqlds.Datastore_Put (blocks_store sql.Postgres) "/x" (text "new")
                     (blocks_world sql.Postgres [("/x", text "old")] [Some boom]))) =
    [("blocks", [("/x", text "old")])] /\
  sql.tables (snd (sqlds.Datastore_Delete (blocks_store sql.Postgres) "/y"
                     (blocks_world sql.Postgres [("/x", text "old")] []))) =
    [("blocks", [("/x", text "old")])].
Proof.
  split; [reflexivity|]. split.
  - apply (proj1 (failed_writes_write_nothing (blocks_store sql.Postgres) "/x" (text "new")
                    (blocks_world sql.Postgres [("/x", text "old")] [Some boom]))).
    discriminate.
  - apply (proj2 (failed_writes_write_nothing (blocks_store sql.Postgres) "/y" (text "new")
                    (blocks_world sql.Postgres [("/x", text "old")] []))).
    discriminate.
Defined.

(** ** Batches *)

(** X7.  When [Begin] fails on the first write of a batch, [Put] and
    [Delete] do not return its error: they call [Rollback] through the nil
    [b.txn] and panic. *)
Theorem first_write_panics_when_Begin_fails
        (b : sqlds.batch) (k : ds.Key) (v : bytes) (w w1 : sql.World) (e : error) :
  sqlds.txn b = None ->
  sql.DB_Begin (sqlds.batch_db b) w = ((None, Some e), w1) ->
  sqlds.batch_Put b k v w = (Panics nil_dereference, b, w1) /\
  sqlds.batch_Delete b k w = (Panics nil_dereference, b, w1).
Proof.
  intros Hb HB.
  unfold sqlds.batch_Put, sqlds.batch_Delete, sqlds.batch_GetTransaction.
  rewrite Hb, HB. unfold sqlds.rollback_txn. rewrite Hb. now split.
Qed.

Lemma first_write_panics_when_Begin_fails_witness :
  fst (fst (sqlds.batch_Put (fst (sqlds.Datastore_Batch (blocks_store sql.Postgres)))
              "/a" (text "x") (blocks_world sql.Postgres [] [Some boom]))) =
    Panics nil_dereference.
Proof.
  destruct (first_write_panics_when_Begin_fails
              (fst (sqlds.Datastore_Batch (blocks_store sql.Postgres)))
              "/a" (text "x") (blocks_world sql.Postgres [] [Some boom])
              (sql.set_faults [] (sql.record_ sql.EvBegin
                                    (blocks_world sql.Postgres [] [Some boom])))
              boom eq_refl eq_refl) as [P _].
  now rewrite P.
Defined.

Section BatchCalls.

Variables (e : sql.engine) (t : string).
Hypothesis Ht : sql.ident t = true.

Lemma write_calls s b w rows :
  is_write s = true ->
  sqlds.batch_queries b = provider e t ->
  live b -> quiet w -> sql.flavour w = e ->
  sql.lookup t (sees b w) = Some rows ->
  sql.log (snd (run_step s b w)) =
  (sql.log w ++ calls_of b (provider e t) [s])%list.
Proof.
  intros Hs Hb Hlive Hq He Hl.
  rewrite (run_step_write s b w Hs), Hb.
  destruct (exec_statement e t Ht s (sees b w) rows Hs Hl) as [n Hx].
  unfold batch_exec, sqlds.batch_GetTransaction, sees, live, calls_of in *.
  destruct (sqlds.txn b) as [t0|] eqn:Etx.
  - rewrite (Tx_Exec_quiet t0 _ _ w Hlive Hq), He, Hx. reflexivity.
  - rewrite (DB_Begin_quiet _ w Hq).
    rewrite (Tx_Exec_quiet {| sql.done := false; sql.view := sql.tables w |}
               _ _ _ eq_refl (quiet_after _ _ Hq)).
    cbn [sql.view sql.flavour after sql.set_faults sql.record_]. rewrite He, Hx.
    cbn. now rewrite <- app_assoc.
Qed.

Lemma writes_calls l : forall b w rows,
  forallb is_write l = true ->
  sqlds.batch_queries b = provider e t ->
  live b -> quiet w -> sql.flavour w = e ->
  sql.lookup t (sees b w) = Some rows ->
  sql.log (snd (run l b w)) = (sql.log w ++ calls_of b (provider e t) l)%list.
Proof.
  induction l as [|s l IH]; intros b w rows Hw Hb Hlive Hq He Hl.
  - cbn. unfold calls_of. destruct (sqlds.txn b); cbn; now rewrite app_nil_r.
  - cbn in Hw. apply andb_true_iff in Hw as [Hs Hw].
    pose proof (write_calls s b w rows Hs Hb Hlive Hq He Hl) as C1.
    destruct (write_runs e t Ht s b w rows Hs Hb Hlive Hq He Hl)
      as (b1 & w1 & R1 & T1 & B1 & Q1 & E1 & W1).
    destruct (lookup_apply_step e t s (sees b w) rows Hl) as [rows1 Hl1].
    assert (L1 : live b1) by (unfold live; now rewrite T1).
    assert (S1 : sql.lookup t (sees b1 w1) = Some rows1)
      by (now rewrite (sees_open b1 w1 _ T1)).
    pose proof (IH b1 w1 rows1 Hw B1 L1 Q1 E1 S1) as C2.
    cbn [run]. rewrite R1 in *. cbn [snd] in C1.
    destruct (run l b1 w1) as [[rs b2] w2]. cbn [snd] in *.
    rewrite C2, C1. unfold calls_of. rewrite T1.
    destruct (sqlds.txn b); cbn; now rewrite <- app_assoc.
Qed.

End BatchCalls.

(** X8.  A batch opens its transaction with its first write and not
    before: on a world where nothing fails, a row of writes on a new batch
    calls [Begin] once, then [Exec] on the transaction once for each write,
    in order, and nothing else; with no write it calls nothing. *)
Theorem batch_begins_once (e : sql.engine) (t : string) (d : sqlds.Datastore)
        (w : sql.World) (rows : sql.Table) (ops : list step) :
  sql.ident t = true ->
  sqlds.queries d = provider e t ->
  serves e t rows w ->
  quiet w ->
  forallb is_write ops = true ->
  sql.log (snd (run ops (fst (sqlds.Datastore_Batch d)) w)) =
  (sql.log w ++
   match ops with
   | [] => []
   | _ => sql.EvBegin :: map (exec_event (provider e t)) ops
   end)%list.
Proof.
  intros Ht Hd [He Hl] Hq Hw.
  rewrite (writes_calls e t Ht ops (fst (sqlds.Datastore_Batch d)) w rows Hw Hd I Hq He Hl).
  unfold calls_of. cbn. now destruct ops.
Qed.

Lemma batch_begins_once_witness :
  sql.log (snd (run [DoPut "/a" (text "x"); DoDelete "/b"; DoPut "/c" (text "z")]
                  (fst (sqlds.Datastore_Batch (blocks_store sql.SQLite)))
                  (blocks_world sql.SQLite [] []))) =
  [sql.EvBegin;
   sql.EvTxExec "INSERT OR REPLACE INTO blocks(key, data) VALUES($1, $2)"
                [sql.VStr "/a"; sql.VBytes (text "x")];
   sql.EvTxExec "DELETE FROM blocks WHERE key = $1" [sql.VStr "/b"];
   sql.EvTxExec "INSERT OR REPLACE INTO blocks(key, data) VALUES($1, $2)"
                [sql.VStr "/c"; sql.VBytes (text "z")]].
Proof.
  exact (batch_begins_once sql.SQLite "blocks" (blocks_store sql.SQLite)
           (blocks_world sql.SQLite [] []) []
           [DoPut "/a" (text "x"); DoDelete "/b"; DoPut "/c" (text "z")]
           eq_refl eq_refl (conj eq_refl eq_refl) (conj eq_refl (Forall_nil _)) eq_refl).
Defined.

Lemma lookup_fold_steps e t l : forall ts rows,
  sql.lookup t ts = Some rows ->
  exists rows', sql.lookup t (fold_left (apply_step e t) l ts) = Some rows'.
Proof.
  induction l as [|s l IH]; intros ts rows H; cbn; [eauto|].
  destruct (lookup_apply_step e t s ts rows H) as [rows1 H1]. eauto.
Qed.

(** The rows of the table after a last write on key [k]. *)
Lemma last_write_answer e t ts rows s :
  sql.lookup t ts = Some rows ->
  is_write s = true ->
  exists rows',
    sql.lookup t (apply_step e t ts s) = Some rows' /\
    match s with
    | DoPut k v => answer k rows' = (v, None)
    | DoDelete k => answer k rows' = ([], Some ErrNotFound)
    | DoCommit => True
    end.
Proof.
  intros H Hs. unfold apply_step. rewrite H.
  destruct s as [k v|k|]; [| |discriminate].
  - eexists. split; [apply lookup_store_same|].
    unfold answer. now rewrite lookup_put_rows.
  - eexists. split; [apply lookup_store_same|].
    unfold answer. now rewrite lookup_remove_same.
Qed.

(** X9.  The writes of a batch are kept from the datastore until [Commit]:
    after any writes on a new batch, [Get] on the datastore still answers
    from the rows as they were; after [Commit], [Get] of the key written
    last answers that write -- the value of a [Put], NotFound for a
    [Delete]. *)
Theorem batch_shows_at_Commit (e : sql.engine) (t : string) (d : sqlds.Datastore)
        (w : sql.World) (rows : sql.Table) (pre : list step) (s : step) (k : ds.Key) :
  sql.ident t = true ->
  sqlds.queries d = provider e t ->
  serves e t rows w ->
  quiet w ->
  forallb is_write pre = true ->
  is_write s = true ->
  let '(_, b1, w1) := run (pre ++ [s]) (fst (sqlds.Datastore_Batch d)) w in
  fst (sqlds.Datastore_Get d k w1) = answer k rows /\
  let '(err, _, w2) := sqlds.batch_Commit b1 w1 in
  err = None /\
  match s with
  | DoPut k' v => fst (sqlds.Datastore_Get d k' w2) = (v, None)
  | DoDelete k' => fst (sqlds.Datastore_Get d k' w2) = ([], Some ErrNotFound)
  | DoCommit => True
  end.
Proof.
  intros Ht Hd Hs Hq Hpre Hw.
  assert (Hops : forallb is_write (pre ++ [s]) = true)
    by (rewrite forallb_app, Hpre; cbn; now rewrite Hw).
  destruct Hs as [He Hl].
  destruct (writes_run e t Ht (pre ++ [s]) (fst (sqlds.Datastore_Batch d)) w rows
              Hops Hd I Hq He Hl)
    as (b1 & w1 & R & S1 & L1 & N1 & B1 & Q1 & E1 & T1).
  rewrite R.
  assert (Sv : serves e t rows w1) by (split; [exact E1 | now rewrite T1]).
  split.
  { now rewrite (Get_runs e t d Ht Hd w1 rows k Sv Q1). }
  assert (Hne : (pre ++ [s])%list <> []) by (now destruct pre).
  specialize (N1 Hne). unfold live in L1.
  destruct (sqlds.txn b1) as [tx|] eqn:Etx; [|congruence].
  rewrite (Commit_runs b1 tx w1 Etx L1 Q1).
  split; [reflexivity|].
  rewrite (sees_open b1 w1 tx Etx) in S1.
  rewrite fold_left_app in S1. cbn [fold_left] in S1.
  destruct (lookup_fold_steps e t pre _ rows Hl) as [rows0 H0].
  destruct (last_write_answer e t _ rows0 s H0 Hw) as (rows' & H1 & A).
  cbn [sees sqlds.Datastore_Batch fst sqlds.txn] in S1, H1.
  rewrite <- S1 in H1.
  set (w2 := sql.set_tables (sql.view tx) (after sql.EvTxCommit w1)).
  assert (S2 : serves e t rows' w2) by (split; [exact E1 | exact H1]).
  assert (Q2 : quiet w2) by (now apply quiet_after).
  destruct s as [k' v|k'|]; [| |exact I].
  - now rewrite (Get_runs e t d Ht Hd w2 rows' k' S2 Q2).
  - now rewrite (Get_runs e t d Ht Hd w2 rows' k' S2 Q2).
Qed.

Lemma batch_shows_at_Commit_witness :
  let '(_, b1, w1) :=
    run ([DoDelete "/a"] ++ [DoPut "/a" (text "new")])
        (fst (sqlds.Datastore_Batch (blocks_store sql.Postgres)))
        (blocks_world sql.Postgres [("/a", text "old")] []) in
  fst (sqlds.Datastore_Get (blocks_store sql.Postgres) "/a" w1) =
    answer "/a" [("/a", text "old")] /\
  let '(err, _, w2) := sqlds.batch_Commit b1 w1 in
  err = None /\
  fst (sqlds.Datastore_Get (blocks_store sql.Postgres) "/a" w2) = (text "new", None).
Proof.
  exact (batch_shows_at_Commit sql.Postgres "blocks" (blocks_store sql.Postgres)
           (blocks_world sql.Postgres [("/a", text "old")] []) [("/a", text "old")]
           [DoDelete "/a"] (DoPut "/a" (text "new")) "/a"
           eq_refl eq_refl (conj eq_refl eq_refl) (conj eq_refl (Forall_nil _))
           eq_refl eq_refl).
Defined.

(** X10.  A batch is spent by its [Commit]: after writes and a [Commit]
    that went through, every further [Put], [Delete] and [Commit] on it
    returns an error and the tables stay as committed. *)
Theorem batch_is_spent_after_Commit (e : sql.engine) (t : string) (d : sqlds.Datastore)
        (w : sql.World) (rows : sql.Table) (ops post : list step) :
  sql.ident t = true ->
  sqlds.queries d = provider e t ->
  serves e t rows w ->
  quiet w ->
  forallb is_write ops = true ->
  ops <> [] ->
  let '(_, b1, w1) := run ops (fst (sqlds.Datastore_Batch d)) w in
  let '(err, b2, w2) := sqlds.batch_Commit b1 w1 in
  let '(rs, _, w3) := run post b2 w2 in
  err = None /\
  Forall is_error rs /\
  length rs = length post /\
  sql.tables w3 = sql.tables w2.
Proof.
  intros Ht Hd [He Hl] Hq Hw Hne.
  destruct (writes_run e t Ht ops (fst (sqlds.Datastore_Batch d)) w rows Hw Hd I Hq He Hl)
    as (b1 & w1 & R & S1 & L1 & N1 & B1 & Q1 & E1 & T1).
  rewrite R. specialize (N1 Hne). unfold live in L1.
  destruct (sqlds.txn b1) as [tx|] eqn:Etx; [|congruence].
  rewrite (Commit_runs b1 tx w1 Etx L1 Q1).
  assert (En : ended (sqlds.set_txn (Some (sql.finished tx)) b1))
    by (exists (sql.finished tx); now split).
  destruct (run_ended post _ (sql.set_tables (sql.view tx) (after sql.EvTxCommit w1)) En)
    as (F & L & _ & T).
  destruct (run post _ _) as [[rs b3] w3]. cbn in *.
  now repeat split.
Qed.

Lemma batch_is_spent_after_Commit_witness :
  let '(_, b1, w1) :=
    run [DoPut "/a" (text "x")]
        (fst (sqlds.Datastore_Batch (blocks_store sql.SQLite)))
        (blocks_world sql.SQLite [] []) in
  let '(err, b2, w2) := sqlds.batch_Commit b1 w1 in
  let '(rs, _, w3) := run [DoPut "/b" (text "y"); DoCommit] b2 w2 in
  err = None /\
  Forall is_error rs /\
  length rs = 2%nat /\
  sql.tables w3 = sql.tables w2.
Proof.
  exact (batch_is_spent_after_Commit sql.SQLite "blocks" (blocks_store sql.SQLite)
           (blocks_world sql.SQLite [] []) []
           [DoPut "/a" (text "x")] [DoPut "/b" (text "y"); DoCommit]
           eq_refl eq_refl (conj eq_refl eq_refl) (conj eq_refl (Forall_nil _))
           eq_refl ltac:(discriminate)).
Defined.

(** ** The constructors *)

Lemma Create_text (t : string) :
  fmt.Sprintf sqlite.create_table [fmt.S_ t] =
  (sql.nl ++ sql.tab ++ sql.tab ++ sql.tab ++ "CREATE TABLE IF NOT EXISTS ") ++ t ++
  (" (" ++ sql.nl ++ sql.tab ++ sql.tab ++ sql.tab ++ sql.tab ++ "key TEXT PRIMARY KEY," ++
   sql.nl ++ sql.tab ++ sql.tab ++ sql.tab ++ sql.tab ++ "data BLOB" ++
   sql.nl ++ sql.tab ++ sql.tab ++ sql.tab ++ ") WITHOUT ROWID;" ++ sql.nl ++ sql.tab ++ sql.tab).
Proof. reflexivity. Qed.

Lemma parse_Create (t : string) :
  sql.ident t = true ->
  sql.parse (fmt.Sprintf sqlite.create_table [fmt.S_ t]) = Some (sql.Create_ t).
Proof. intros Ht. rewrite Create_text. now read_shape. Qed.

Lemma key_fits_passes (key : bytes) :
  key_fits key = true ->
  (negb (length key =? 0)%nat && negb (length key =? 32)%nat)%bool = false.
Proof.
  unfold key_fits. now destruct (length key =? 0)%nat, (length key =? 32)%nat.
Qed.

(** X11.  [Create] of sqlite with a cipher key that is neither empty nor
    32 bytes long returns the bad-key-length error with the length it got,
    and calls nothing: not even [sql.Open]. *)
Theorem sqlite_Create_refuses_other_key_lengths (opts : sqlite.Options) (w : sql.World) :
  sqlite.Key opts <> [] ->
  length (sqlite.Key opts) <> 32%nat ->
  sqlite.Create opts w =
    ((None,
      Some (ErrNew ("bad key length, expected 32 bytes, got " ++
                    fmt.itoa (Z.of_nat (length (sqlite.Key opts)))))),
     sqlite.setDefaults opts, w).
Proof.
  intros Hk Hl. unfold sqlite.Create. cbn [sqlite.setDefaults sqlite.Key].
  apply Nat.eqb_neq in Hl. rewrite Hl.
  destruct (sqlite.Key opts) as [|x key] eqn:E; [congruence|].
  cbn [length Nat.eqb negb andb]. cbn [fmt.Sprintf Ascii.eqb Bool.eqb fmt.verb orb].
  unfold sql.len. cbn [fmt.extra]. now rewrite append_empty.
Qed.

Lemma sqlite_Create_refuses_other_key_lengths_witness :
  sqlite.Create
    {| sqlite.Driver := ""; sqlite.DSN := ""; sqlite.Table := "";
       sqlite.NoCreate := false; sqlite.Key := [Byte.x00; Byte.x01];
       sqlite.CipherPageSize := 0 |}
    (blocks_world sql.SQLite [] []) =
  ((None, Some (ErrNew "bad key length, expected 32 bytes, got 2")),
   {| sqlite.Driver := "sqlite3"; sqlite.DSN := ":memory:"; sqlite.Table := "blocks";
      sqlite.NoCreate := false; sqlite.Key := [Byte.x00; Byte.x01];
      sqlite.CipherPageSize := 4096 |},
   blocks_world sql.SQLite [] []).
Proof.
  exact (sqlite_Create_refuses_other_key_lengths
           {| sqlite.Driver := ""; sqlite.DSN := ""; sqlite.Table := "";
              sqlite.NoCreate := false; sqlite.Key := [Byte.x00; Byte.x01];
              sqlite.CipherPageSize := 0 |}
           (blocks_world sql.SQLite [] [])
           ltac:(discriminate) ltac:(discriminate)).
Defined.

(** X12.  [Create] of sqlite keeps no handle it does not return.  Once
    [sql.Open] has found the driver, [Create] either returns a datastore
    and no error, leaving the handle as open as it was, or returns an
    error and no datastore, and then [Close] was its last call and the
    handle is closed. *)
Theorem sqlite_Create_closes_what_it_does_not_return
        (opts : sqlite.Options) (w : sql.World) :
  existsb (String.eqb (sqlite.Driver (sqlite.setDefaults opts))) (sql.drivers w) = true ->
  key_fits (sqlite.Key opts) = true ->
  let '(r, _, w') := sqlite.Create opts w in
  match r with
  | (Some _, None) => sql.closed w' = sql.closed w
  | (None, Some _) =>
      sql.closed w' = true /\ exists l, sql.log w' = (l ++ [sql.EvClose])%list
  | _ => False
  end.
Proof.
  intros Hd Hk. unfold sqlite.Create.
  assert (EK : sqlite.Key (sqlite.setDefaults opts) = sqlite.Key opts) by reflexivity.
  rewrite EK, (key_fits_passes _ Hk).
  set (o := sqlite.setDefaults opts) in *. clearbody o.
  unfold sql.Open. cbn [sql.drivers sql.record_]. rewrite Hd.
  unfold sql.DB_Ping, sql.DB_Exec, sql.call, sql.DB_Close.
  cbn [sql.closed sql.record_ sql.faults sql.set_faults].
  destruct (sql.closed w) eqn:Ec.
  { split; [reflexivity|]. cbn. eauto. }
  destruct (sql.faults w) as [|[e|] fs] eqn:Ef.
  - destruct (sqlite.NoCreate o); cbn [negb]; [cbn; exact Ec|].
    cbn [sql.closed sql.record_ sql.faults sql.set_faults]. rewrite Ec, Ef.
    destruct (sql.exec _ _ _ _) as [[n ts]|e]; cbn; [exact Ec|].
    split; [reflexivity|eauto].
  - split; [reflexivity|]. cbn. eauto.
  - destruct (sqlite.NoCreate o); cbn [negb]; [cbn; exact Ec|].
    cbn [sql.closed sql.record_ sql.faults sql.set_faults]. rewrite Ec.
    destruct fs as [|[e|] fs]; cbn.
    + destruct (sql.exec _ _ _ _) as [[n ts]|e]; cbn; [exact Ec|].
      split; [reflexivity|eauto].
    + split; [reflexivity|eauto].
    + destruct (sql.exec _ _ _ _) as [[n ts]|e]; cbn; [exact Ec|].
      split; [reflexivity|eauto].
Qed.

Lemma sqlite_Create_closes_what_it_does_not_return_witness :
  let '(r, _, w') :=
    sqlite.Create
      {| sqlite.Driver := ""; sqlite.DSN := ""; sqlite.Table := "";
         sqlite.NoCreate := false; sqlite.Key := []; sqlite.CipherPageSize := 0 |}
      (blocks_world sql.SQLite [] [None; Some boom]) in
  match r with
  | (Some _, None) =>
      sql.closed w' = sql.closed (blocks_world sql.SQLite [] [None; Some boom])
  | (None, Some _) =>
      sql.closed w' = true /\ exists l, sql.log w' = (l ++ [sql.EvClose])%list
  | _ => False
  end.
Proof.
  exact (sqlite_Create_closes_what_it_does_not_return
           {| sqlite.Driver := ""; sqlite.DSN := ""; sqlite.Table := "";
              sqlite.NoCreate := false; sqlite.Key := []; sqlite.CipherPageSize := 0 |}
           (blocks_world sql.SQLite [] [None; Some boom]) eq_refl eq_refl).
Defined.

(** X13.  When the driver is not registered, [sql.Open] is the only call
    of either [Create] and neither returns a datastore: postgres returns
    the very error that [sql.Open] returned, sqlite returns that error
    wrapped as "failed to open database". *)
Theorem Create_without_driver
        (popts : postgres.Options) (sopts : sqlite.Options) (w : sql.World) :
  existsb (String.eqb "postgres") (sql.drivers w) = false ->
  existsb (String.eqb (sqlite.Driver (sqlite.setDefaults sopts))) (sql.drivers w) = false ->
  key_fits (sqlite.Key sopts) = true ->
  exists cause cause' dsn dsn',
    sql.Open "postgres" dsn w =
      (sql.Failed cause, sql.record_ (sql.EvOpen "postgres" dsn) w) /\
    postgres.Create popts w =
      ((None, Some cause), postgres.setDefaults popts,
       sql.record_ (sql.EvOpen "postgres" dsn) w) /\
    sql.Open (sqlite.Driver (sqlite.setDefaults sopts)) dsn' w =
      (sql.Failed cause',
       sql.record_ (sql.EvOpen (sqlite.Driver (sqlite.setDefaults sopts)) dsn') w) /\
    sqlite.Create sopts w =
      ((None, Some (ErrWrap cause' "failed to open database")),
       sqlite.setDefaults sopts,
       sql.record_
         (sql.EvOpen (sqlite.Driver (sqlite.setDefaults sopts)) dsn') w).
Proof.
  intros Hp Hs Hk. unfold postgres.Create, sqlite.Create.
  assert (EK : sqlite.Key (sqlite.setDefaults sopts) = sqlite.Key sopts) by reflexivity.
  rewrite EK, (key_fits_passes _ Hk). unfold sql.Open.
  cbn [sql.drivers sql.record_]. rewrite Hp, Hs.
  eexists _, _, _, _. split; [reflexivity|]. split; [reflexivity|].
  split; reflexivity.
Qed.

Lemma Create_without_driver_witness :
  exists cause cause' dsn dsn',
    sql.Open "postgres" dsn (sql.mkWorld [] sql.Postgres [] false [] [] []) =
      (sql.Failed cause,
       sql.record_ (sql.EvOpen "postgres" dsn)
         (sql.mkWorld [] sql.Postgres [] false [] [] [])) /\
    postgres.Create
      {| postgres.Host := ""; postgres.Port := ""; postgres.User := "";
         postgres.Password := ""; postgres.Database := ""; postgres.Table := "" |}
      (sql.mkWorld [] sql.Postgres [] false [] [] []) =
      ((None, Some cause),
       postgres.setDefaults
         {| postgres.Host := ""; postgres.Port := ""; postgres.User := "";
            postgres.Password := ""; postgres.Database := ""; postgres.Table := "" |},
       sql.record_ (sql.EvOpen "postgres" dsn)
         (sql.mkWorld [] sql.Postgres [] false [] [] [])) /\
    sql.Open "sqlcipher" dsn' (sql.mkWorld [] sql.Postgres [] false [] [] []) =
      (sql.Failed cause',
       sql.record_ (sql.EvOpen "sqlcipher" dsn')
         (sql.mkWorld [] sql.Postgres [] false [] [] [])) /\
    sqlite.Create
      {| sqlite.Driver := "sqlcipher"; sqlite.DSN := ""; sqlite.Table := "";
         sqlite.NoCreate := false; sqlite.Key := []; sqlite.CipherPageSize := 0 |}
      (sql.mkWorld [] sql.Postgres [] false [] [] []) =
      ((None, Some (ErrWrap cause' "failed to open database")),
       sqlite.setDefaults
         {| sqlite.Driver := "sqlcipher"; sqlite.DSN := ""; sqlite.Table := "";
            sqlite.NoCreate := false; sqlite.Key := []; sqlite.CipherPageSize := 0 |},
       sql.record_ (sql.EvOpen "sqlcipher" dsn')
         (sql.mkWorld [] sql.Postgres [] false [] [] [])).
Proof.
  apply (Create_without_driver
           {| postgres.Host := ""; postgres.Port := ""; postgres.User := "";
              postgres.Password := ""; postgres.Database := ""; postgres.Table := "" |}
           {| sqlite.Driver := "sqlcipher"; sqlite.DSN := ""; sqlite.Table := "";
              sqlite.NoCreate := false; sqlite.Key := []; sqlite.CipherPageSize := 0 |}
           (sql.mkWorld [] sql.Postgres [] false [] [] [])).
  - reflexivity.
  - reflexivity.
  - reflexivity.
Defined.

Lemma lookup_app_other {A} (t t' : string) (ts : list (string * A)) (a : A) :
  t' <> t -> sql.lookup t' (ts ++ [(t, a)])%list = sql.lookup t' ts.
Proof.
  intros Hn. rewrite lookup_app. destruct (sql.lookup t' ts); [reflexivity|].
  cbn. apply String.eqb_neq in Hn. rewrite String.eqb_sym. now rewrite Hn.
Qed.

(** X14.  [Create] of sqlite on a database that answers: it opens, pings
    and ensures the table, and returns a datastore with the sqlite
    statements for that table.  A table that was there keeps its rows, one
    that was not is there and empty, and no other table changes. *)
Theorem sqlite_Create_ensures_the_table (opts : sqlite.Options) (w : sql.World) :
  existsb (String.eqb (sqlite.Driver (sqlite.setDefaults opts))) (sql.drivers w) = true ->
  key_fits (sqlite.Key opts) = true ->
  sql.ident (sqlite.Table (sqlite.setDefaults opts)) = true ->
  sqlite.NoCreate opts = false ->
  sql.flavour w = sql.SQLite ->
  quiet w ->
  exists d w',
    sqlite.Create opts w = ((Some d, None), sqlite.setDefaults opts, w') /\
    sqlds.queries d = provider sql.SQLite (sqlite.Table (sqlite.setDefaults opts)) /\
    quiet w' /\
    serves sql.SQLite (sqlite.Table (sqlite.setDefaults opts))
      (rows_at (sqlite.Table (sqlite.setDefaults opts)) (sql.tables w)) w' /\
    (forall t', t' <> sqlite.Table (sqlite.setDefaults opts) ->
                sql.lookup t' (sql.tables w') = sql.lookup t' (sql.tables w)) /\
    exists dsn stmt,
      sql.log w' =
      (sql.log w ++
       [sql.EvOpen (sqlite.Driver (sqlite.setDefaults opts)) dsn; sql.EvPing;
        sql.EvExec stmt []])%list.
Proof.
  intros Hd Hk Ht Hn He Hq. unfold sqlite.Create.
  assert (EK : sqlite.Key (sqlite.setDefaults opts) = sqlite.Key opts) by reflexivity.
  assert (EN : sqlite.NoCreate (sqlite.setDefaults opts) = false) by exact Hn.
  rewrite EK, (key_fits_passes _ Hk), EN.
  set (o := sqlite.setDefaults opts) in *. clearbody o.
  unfold sql.Open. cbn [sql.drivers sql.record_]. rewrite Hd.
  match goal with
  | |- context [sql.record_ (sql.EvOpen ?a ?b) w] => set (dsn := b)
  end.
  assert (Q1 : quiet (sql.record_ (sql.EvOpen (sqlite.Driver o) dsn) w)) by exact Hq.
  unfold sql.DB_Ping. rewrite (call_quiet _ _ Q1).
  apply (quiet_after sql.EvPing) in Q1.
  cbn [negb].
  unfold sql.DB_Exec. rewrite (call_quiet _ _ Q1).
  cbn [sql.flavour sql.tables after sql.record_ sql.set_faults]. rewrite He.
  unfold sql.exec. rewrite (parse_Create _ Ht). unfold rows_at.
  destruct (sql.lookup (sqlite.Table o) (sql.tables w)) as [rows|] eqn:El.
  - eexists _, _. split; [reflexivity|]. split; [reflexivity|].
    split; [now apply quiet_after|]. split; [split; [exact He | exact El]|].
    split; [reflexivity|]. eexists _, _. cbn. rewrite <- !app_assoc. reflexivity.
  - eexists _, _. split; [reflexivity|]. split; [reflexivity|].
    split; [now apply quiet_after|]. split; [split; [exact He|]|].
    + cbn. rewrite lookup_app, El. cbn. now rewrite String.eqb_refl.
    + split; [intros t' Hn'; cbn; now apply lookup_app_other|].
      eexists _, _. cbn. rewrite <- !app_assoc. reflexivity.
Qed.

Lemma sqlite_Create_ensures_the_table_witness :
  exists d w',
    sqlite.Create
      {| sqlite.Driver := ""; sqlite.DSN := ""; sqlite.Table := "";
         sqlite.NoCreate := false; sqlite.Key := []; sqlite.CipherPageSize := 0 |}
      (sql.mkWorld ["sqlite3"] sql.SQLite [("pins", [("/p", text "1")])] false [] [] []) =
      ((Some d, None),
       {| sqlite.Driver := "sqlite3"; sqlite.DSN := ":memory:"; sqlite.Table := "blocks";
          sqlite.NoCreate := false; sqlite.Key := []; sqlite.CipherPageSize := 0 |}, w') /\
    sqlds.queries d = provider sql.SQLite "blocks" /\
    quiet w' /\
    serves sql.SQLite "blocks" [] w' /\
    (forall t', t' <> "blocks" ->
                sql.lookup t' (sql.tables w') =
                sql.lookup t' [("pins", [("/p", text "1")])]) /\
    exists dsn stmt,
      sql.log w' = [sql.EvOpen "sqlite3" dsn; sql.EvPing; sql.EvExec stmt []].
Proof.
  exact (sqlite_Create_ensures_the_table
           {| sqlite.Driver := ""; sqlite.DSN := ""; sqlite.Table := "";
              sqlite.NoCreate := false; sqlite.Key := []; sqlite.CipherPageSize := 0 |}
           (sql.mkWorld ["sqlite3"] sql.SQLite [("pins", [("/p", text "1")])]
              false [] [] [])
           eq_refl eq_refl eq_refl eq_refl eq_refl (conj eq_refl (Forall_nil _))).
Defined.

(** X15.  With [NoCreate], [Create] of sqlite opens and pings and issues
    no statement: the tables are as they were.  When the table is not
    there, the datastore it returns fails every [Put] and writes nothing. *)
Theorem sqlite_Create_with_NoCreate (opts : sqlite.Options) (w : sql.World) :
  existsb (String.eqb (sqlite.Driver (sqlite.setDefaults opts))) (sql.drivers w) = true ->
  key_fits (sqlite.Key opts) = true ->
  sqlite.NoCreate opts = true ->
  quiet w ->
  exists d w',
    sqlite.Create opts w = ((Some d, None), sqlite.setDefaults opts, w') /\
    sql.tables w' = sql.tables w /\
    (exists dsn,
       sql.log w' =
       (sql.log w ++
        [sql.EvOpen (sqlite.Driver (sqlite.setDefaults opts)) dsn; sql.EvPing])%list) /\
    (sql.ident (sqlite.Table (sqlite.setDefaults opts)) = true ->
     sql.flavour w = sql.SQLite ->
     sql.lookup (sqlite.Table (sqlite.setDefaults opts)) (sql.tables w) = None ->
     forall k v, exists err,
       fst (sqlds.Datastore_Put d k v w') = Some err /\
       sql.tables (snd (sqlds.Datastore_Put d k v w')) = sql.tables w).
Proof.
  intros Hd Hk Hn Hq. unfold sqlite.Create.
  assert (EK : sqlite.Key (sqlite.setDefaults opts) = sqlite.Key opts) by reflexivity.
  assert (EN : sqlite.NoCreate (sqlite.setDefaults opts) = true) by exact Hn.
  rewrite EK, (key_fits_passes _ Hk), EN.
  set (o := sqlite.setDefaults opts) in *. clearbody o.
  unfold sql.Open. cbn [sql.drivers sql.record_]. rewrite Hd.
  match goal with
  | |- context [sql.record_ (sql.EvOpen ?a ?b) w] => set (dsn := b)
  end.
  assert (Q1 : quiet (sql.record_ (sql.EvOpen (sqlite.Driver o) dsn) w)) by exact Hq.
  unfold sql.DB_Ping. rewrite (call_quiet _ _ Q1).
  apply (quiet_after sql.EvPing) in Q1. cbn [negb].
  eexists _, _. split; [reflexivity|]. split; [reflexivity|]. split.
  { exists dsn. cbn. now rewrite <- app_assoc. }
  intros Ht He El k v. unfold sqlds.Datastore_Put.
  cbn [sqlds.db sqlds.queries sqlds.NewDatastore].
  unfold sql.DB_Exec. rewrite (call_quiet _ _ Q1).
  cbn [sql.flavour sql.tables after sql.record_ sql.set_faults]. rewrite He.
  change (sqlds.Put (sqlite.as_Queries (sqlite.NewQueries (sqlite.Table o))))
    with (sqlds.Put (provider sql.SQLite (sqlite.Table o))).
  unfold sql.exec. rewrite (parse_Put sql.SQLite _ Ht).
  unfold ds.Key_String, sql.on_table. rewrite El. cbn. eauto.
Qed.

Lemma sqlite_Create_with_NoCreate_witness :
  exists d w',
    sqlite.Create
      {| sqlite.Driver := ""; sqlite.DSN := ""; sqlite.Table := "";
         sqlite.NoCreate := true; sqlite.Key := []; sqlite.CipherPageSize := 0 |}
      (sql.mkWorld ["sqlite3"] sql.SQLite [] false [] [] []) =
      ((Some d, None),
       {| sqlite.Driver := "sqlite3"; sqlite.DSN := ":memory:"; sqlite.Table := "blocks";
          sqlite.NoCreate := true; sqlite.Key := []; sqlite.CipherPageSize := 0 |}, w') /\
    sql.tables w' = [] /\
    (exists dsn, sql.log w' = [sql.EvOpen "sqlite3" dsn; sql.EvPing]) /\
    (sql.ident "blocks" = true ->
     sql.SQLite = sql.SQLite ->
     @sql.lookup sql.Table "blocks" [] = None ->
     forall k v, exists err,
       fst (sqlds.Datastore_Put d k v w') = Some err /\
       sql.tables (snd (sqlds.Datastore_Put d k v w')) = []).
Proof.
  exact (sqlite_Create_with_NoCreate
           {| sqlite.Driver := ""; sqlite.DSN := ""; sqlite.Table := "";
              sqlite.NoCreate := true; sqlite.Key := []; sqlite.CipherPageSize := 0 |}
           (sql.mkWorld ["sqlite3"] sql.SQLite [] false [] [] [])
           eq_refl eq_refl eq_refl (conj eq_refl (Forall_nil _))).
Defined.

Lemma or_default_twice (s d : string) :
  postgres.or_default (postgres.or_default s d) d = postgres.or_default s d.
Proof.
  unfold postgres.or_default. destruct (String.eqb s "") eqn:E; [|now rewrite E].
  now destruct (String.eqb d "").
Qed.

(** X16.  [setDefaults] settles: applied to options it has already filled,
    it changes nothing, in both packages.  [Create] writes the defaults
    into the options it is called on, so a second [Create] on the same
    options does on any world what [Create] on the options as given does. *)
Theorem setDefaults_settles
        (popts : postgres.Options) (sopts : sqlite.Options) (w : sql.World) :
  postgres.setDefaults (postgres.setDefaults popts) = postgres.setDefaults popts /\
  sqlite.setDefaults (sqlite.setDefaults sopts) = sqlite.setDefaults sopts /\
  postgres.Create (postgres.setDefaults popts) w = postgres.Create popts w /\
  sqlite.Create (sqlite.setDefaults sopts) w = sqlite.Create sopts w.
Proof.
  assert (P : postgres.setDefaults (postgres.setDefaults popts) =
              postgres.setDefaults popts).
  { unfold postgres.setDefaults. cbn. now rewrite !or_default_twice. }
  assert (S : sqlite.setDefaults (sqlite.setDefaults sopts) = sqlite.setDefaults sopts).
  { unfold sqlite.setDefaults. cbn. f_equal.
    - destruct (String.eqb (sqlite.Driver sopts) "") eqn:E; [reflexivity|now rewrite E].
    - destruct (String.eqb (sqlite.DSN sopts) "") eqn:E; [reflexivity|now rewrite E].
    - destruct (String.eqb (sqlite.Table sopts) "") eqn:E; [reflexivity|now rewrite E].
    - destruct (length (sqlite.Key sopts) =? 0)%nat; cbn; [reflexivity|].
      destruct (sqlite.CipherPageSize sopts =? 0) eqn:E; [reflexivity|now rewrite E]. }
  split; [exact P|]. split; [exact S|].
  unfold postgres.Create, sqlite.Create. now rewrite P, S.
Qed.

(** ** Numbers in the statement *)

Lemma uint_digits (d : Decimal.uint) :
  sql.all_chars sql.is_digit (NilEmpty.string_of_uint d) = true.
Proof. induction d; cbn; auto. Qed.

Lemma digit_step (acc : Z) (c : ascii) (s : string) :
  sql.digits_value acc (String c s) = sql.digits_value (10 * acc + sql.digit_value c) s.
Proof. reflexivity. Qed.

Lemma digits_value_acc (d : Decimal.uint) (p : positive) :
  sql.digits_value (Zpos p) (NilEmpty.string_of_uint d) = Zpos (Pos.of_uint_acc d p).
Proof.
  revert p. induction d; intros p; cbn [NilEmpty.string_of_uint Pos.of_uint_acc];
    [reflexivity|..];
    rewrite digit_step;
    match goal with
    | |- sql.digits_value ?a _ = Zpos (Pos.of_uint_acc _ ?q) =>
        replace a with (Zpos q)
          by (set (x := sql.digit_value _); vm_compute in x; subst x; lia)
    end; apply IHd.
Qed.

Lemma digits_value_uint (d : Decimal.uint) :
  sql.digits_value 0 (NilEmpty.string_of_uint d) = Z.of_N (Pos.of_uint d).
Proof.
  induction d; cbn [NilEmpty.string_of_uint Pos.of_uint]; [reflexivity|..];
    rewrite digit_step;
    [exact IHd|..];
    match goal with
    | |- sql.digits_value ?a _ = _ =>
        match goal with
        | |- _ = Z.of_N (N.pos (Pos.of_uint_acc _ ?q)) =>
            replace a with (Zpos q) by reflexivity
        end
    end; apply digits_value_acc.
Qed.

Lemma uint_string_nonnil (d : Decimal.uint) :
  d <> Decimal.Nil -> NilZero.string_of_uint d = NilEmpty.string_of_uint d.
Proof. now destruct d. Qed.

Lemma uint_string_first (d : Decimal.uint) :
  d <> Decimal.Nil -> exists c s, NilEmpty.string_of_uint d = String c s.
Proof. destruct d; [congruence|..]; intros _; eexists _, _; reflexivity. Qed.

Lemma read_int_digits (c : ascii) (s rest : string) :
  sql.all_chars sql.is_digit (String c s) = true ->
  starts_with sql.is_digit rest = false ->
  sql.read_int (String c s ++ rest) = Some (sql.digits_value 0 (String c s), rest) /\
  sql.read_int (String "-" (String c s ++ rest)) =
    Some (- sql.digits_value 0 (String c s), rest).
Proof.
  intros Hd Hr. unfold sql.read_int. split.
  - assert (Hc : sql.is_digit c = true)
      by (cbn in Hd; now apply andb_true_iff in Hd as [Hc _]).
    cbn [append].
    destruct c as [[] [] [] [] [] [] [] []]; try discriminate Hc;
      match goal with
      | |- context [sql.take_while _ (String ?c (s ++ rest))] =>
          change (String c (s ++ rest)) with (String c s ++ rest)
      end;
      rewrite (take_while_app _ _ _ Hd Hr); reflexivity.
  - now rewrite (take_while_app _ _ _ Hd Hr).
Qed.

Lemma read_int_itoa (n : Z) (rest : string) :
  starts_with sql.is_digit rest = false ->
  sql.read_int (fmt.itoa n ++ rest) = Some (n, rest).
Proof.
  intros Hr.
  assert (P : forall p,
             sql.read_int (NilEmpty.string_of_uint (Pos.to_uint p) ++ rest) =
               Some (Zpos p, rest) /\
             sql.read_int (String "-" (NilEmpty.string_of_uint (Pos.to_uint p) ++ rest)) =
               Some (Zneg p, rest)).
  { intros p. pose proof (Unsigned.to_uint_nonnil p) as Hn.
    pose proof (uint_digits (Pos.to_uint p)) as Hd.
    pose proof (digits_value_uint (Pos.to_uint p)) as Hv.
    rewrite Unsigned.of_to in Hv.
    destruct (uint_string_first _ Hn) as (c & s & E).
    rewrite E in *. destruct (read_int_digits c s rest Hd Hr) as [R1 R2].
    rewrite R1, R2, Hv. split; reflexivity. }
  unfold fmt.itoa. destruct n as [|p|p]; cbn [Z.to_int NilZero.string_of_int].
  - apply (read_int_digits "0" "" rest eq_refl Hr).
  - rewrite (uint_string_nonnil _ (Unsigned.to_uint_nonnil p)). apply P.
  - rewrite (uint_string_nonnil _ (Unsigned.to_uint_nonnil p)). apply P.
Qed.

(** ** The window of a query without filters and orders *)

Lemma clause_skip {A} (kw : string) (rd : string -> option (A * string)) (s : string) :
  strip_prefix kw s = None -> sql.clause kw rd s = Some (None, s).
Proof. intros H. unfold sql.clause. now rewrite H. Qed.

Lemma clause_int (kw : string) (n : Z) (rest : string) :
  starts_with sql.is_digit rest = false ->
  sql.clause kw sql.read_int (kw ++ fmt.itoa n ++ rest) = Some (Some n, rest).
Proof.
  intros H. unfold sql.clause. now rewrite strip_prefix_app, (read_int_itoa n rest H).
Qed.

Lemma read_window (lim off : option Z) :
  exists r,
    sql.clause " LIMIT " sql.read_int (window_text lim off) = Some (lim, r) /\
    sql.clause " OFFSET " sql.read_int r = Some (off, "").
Proof.
  unfold window_text. destruct lim as [l|], off as [o|].
  - exists (" OFFSET " ++ fmt.itoa o ++ ""). rewrite append_assoc, append_empty.
    split; [now apply clause_int|].
    rewrite <- (append_empty (fmt.itoa o)) at 1. now apply clause_int.
  - exists "". rewrite append_empty. split; [|reflexivity].
    rewrite <- (append_empty (fmt.itoa l)) at 1. now apply clause_int.
  - exists (" OFFSET " ++ fmt.itoa o ++ ""). rewrite append_empty.
    split; [reflexivity|].
    rewrite <- (append_empty (fmt.itoa o)) at 1. now apply clause_int.
  - exists "". split; reflexivity.
Qed.

Lemma window_text_start (lim off : option Z) :
  starts_with sql.is_ident_char (window_text lim off) = false /\
  starts_with (fun c => Ascii.eqb c "'") (" ORDER BY key" ++ window_text lim off) = false /\
  strip_prefix " WHERE key LIKE '" (window_text lim off) = None /\
  strip_prefix " WHERE key GLOB '" (window_text lim off) = None.
Proof. destruct lim, off; repeat split; reflexivity. Qed.

Lemma parse_select_window (e : sql.engine) (t : string) (wh : option string)
      (lim off : option Z) :
  sql.ident t = true ->
  match wh with Some p => contains_char "'" p = false | None => True end ->
  sql.parse ("SELECT key, data FROM " ++ t ++
             match wh with Some p => where_text e p | None => "" end ++
             window_text lim off) =
  Some (sql.Select_ t (option_map (fun p => (operator e, p ++ wildcard e)) wh) lim off).
Proof.
  intros Ht Hp. unfold sql.parse. rewrite no_shape. unfold sql.parse_select.
  rewrite strip_prefix_app.
  destruct (window_text_start lim off) as (W1 & W2 & W3 & W4).
  destruct (read_window lim off) as (r & R1 & R2).
  destruct wh as [p|].
  - assert (Hq : contains_char "'" (p ++ wildcard e) = false).
    { clear Ht. induction p as [|c p IH]; [now destruct e|].
      cbn in *. apply orb_false_iff in Hp as [Hc Hp]. now rewrite Hc, (IH Hp). }
    destruct e.
    + rewrite (take_while_app _ t (where_text sql.Postgres p ++ window_text lim off)
                 (ident_chars _ Ht) eq_refl), Ht.
      cbn [negb]. unfold where_text, sql.clause at 1.
      rewrite !append_assoc, strip_prefix_app. unfold sql.read_where.
      replace (p ++ "%' ORDER BY key" ++ window_text lim off)
        with ((p ++ "%") ++ String "'" (" ORDER BY key" ++ window_text lim off))
        by (now rewrite append_assoc).
      rewrite (read_literal_app (p ++ "%") _ Hq W2), strip_prefix_app.
      rewrite (clause_skip _ _ _ W4), R1, R2. reflexivity.
    + rewrite (take_while_app _ t (where_text sql.SQLite p ++ window_text lim off)
                 (ident_chars _ Ht) eq_refl), Ht.
      cbn [negb]. unfold where_text. rewrite !append_assoc.
      rewrite (clause_skip " WHERE key LIKE '" (sql.read_where sql.LIKE)
                 (" WHERE key GLOB '" ++ p ++ "*' ORDER BY key" ++ window_text lim off)
                 eq_refl).
      unfold sql.clause at 1. rewrite strip_prefix_app. unfold sql.read_where.
      replace (p ++ "*' ORDER BY key" ++ window_text lim off)
        with ((p ++ "*") ++ String "'" (" ORDER BY key" ++ window_text lim off))
        by (now rewrite append_assoc).
      rewrite (read_literal_app (p ++ "*") _ Hq W2), strip_prefix_app.
      rewrite R1, R2. reflexivity.
  - cbn [append option_map].
    rewrite (take_while_app _ t _ (ident_chars _ Ht) W1), Ht. cbn [negb].
    rewrite (clause_skip _ _ _ W3), (clause_skip _ _ _ W4), R1, R2. reflexivity.
Qed.

Lemma window_parts (e : sql.engine) (t : string) (q : dsq.Query) :
  limit_part (provider e t) q ++ offset_part (provider e t) q =
  window_text (sql_limit q) (sql_offset q).
Proof.
  destruct (window_fragments e t q) as [L O]. rewrite L, O.
  unfold window_text, sql_limit, sql_offset.
  now destruct (dsq.Limit q =? 0), (dsq.Offset q =? 0).
Qed.

Section PlainQueries.

Variables (e : sql.engine) (t : string) (d : sqlds.Datastore).
Hypothesis Ht : sql.ident t = true.
Hypothesis Hd : sqlds.queries d = provider e t.

Lemma RawQuery_plain w rows q :
  serves e t rows w -> quiet w -> sql.scan_faults w = [] ->
  plain q = true ->
  literal e (ds.NewKey (dsq.Prefix q)) = true ->
  fst (sqlds.Datastore_RawQuery d q w) =
  map_outcome (entries q)
    (sql.window e (sql_limit q) (sql_offset q) (prefix_rows q rows)).
Proof.
  intros [He Hl] Hq Hf Hp Hlit.
  unfold sqlds.Datastore_RawQuery, sqlds.QueryWithParams.
  rewrite Hd, compose_shape, Hp, window_parts, Query_text, append_assoc.
  rewrite (DB_Query_quiet _ _ w Hq), He. unfold sql.select, prefix_rows.
  destruct (String.eqb (dsq.Prefix q) "" || String.eqb (ds.NewKey (dsq.Prefix q)) "/")%bool
    eqn:E.
  - assert (N : dsq.Prefix q = "" \/ ds.NewKey (dsq.Prefix q) = "/").
    { apply orb_true_iff in E as [E|E]; apply String.eqb_eq in E; auto. }
    rewrite (prefix_part_none _ q N).
    rewrite (parse_select_window e t None _ _ Ht I).
    unfold sql.on_table. rewrite Hl. cbn [option_map sql.restrict].
    destruct (sql.window e _ _ rows) as [rs|err]; cbn [map_outcome fst]; [|reflexivity].
    rewrite Hf. unfold fresh_cursor.
    now rewrite results_of_scanned, scanned_without_faults.
  - apply orb_false_iff in E as [E1 E2].
    apply String.eqb_neq in E1. apply String.eqb_neq in E2.
    rewrite (prefix_part_text e t q E1 E2).
    assert (L : literal e (ds.NewKey (dsq.Prefix q) ++ "/") = true)
      by (apply literal_app; [exact Hlit | now destruct e]).
    rewrite (parse_select_window e t (Some (ds.NewKey (dsq.Prefix q) ++ "/")) _ _ Ht
               (literal_no_quote e _ L)).
    unfold sql.on_table. rewrite Hl. cbn [option_map].
    rewrite (restrict_literal e _ rows L). fold (below (ds.NewKey (dsq.Prefix q))).
    destruct (sql.window e _ _ _) as [rs|err]; cbn [map_outcome fst]; [|reflexivity].
    rewrite Hf. unfold fresh_cursor.
    now rewrite results_of_scanned, scanned_without_faults.
Qed.

End PlainQueries.

Lemma window_cut (e : sql.engine) (q : dsq.Query) (rows : sql.Table) :
  0 <= dsq.Limit q -> 0 <= dsq.Offset q ->
  e = sql.Postgres \/ dsq.Limit q <> 0 \/ dsq.Offset q = 0 ->
  sql.window e (sql_limit q) (sql_offset q) rows =
  sql.Done (cut (dsq.Limit q) (dsq.Offset q) rows).
Proof.
  intros Hl Ho Hc. unfold sql_limit, sql_offset, cut, sql.window.
  assert (Hl' : (dsq.Limit q <? 0) = false) by (apply Z.ltb_ge; lia).
  assert (Ho' : (dsq.Offset q <? 0) = false) by (apply Z.ltb_ge; lia).
  destruct (Z.eqb_spec (dsq.Limit q) 0) as [El|El],
           (Z.eqb_spec (dsq.Offset q) 0) as [Eo|Eo];
    rewrite ?Hl', ?Ho'; try rewrite Eo; cbn [Z.to_nat skipn].
  - now destruct e.
  - destruct e; [reflexivity|].
    destruct Hc as [Hc|[Hc|Hc]]; [discriminate | congruence | congruence].
  - now destruct e.
  - now destruct e.
Qed.

Lemma entries_unwindowed q rows : entries (unwindowed q) rows = entries q rows.
Proof. reflexivity. Qed.

Lemma drop_entries_entries q n : forall rows,
  dsq.drop_entries n (entries q rows) = entries q (skipn n rows).
Proof.
  induction n as [|n IH]; intros [|r rows]; cbn; try reflexivity. apply IH.
Qed.

Lemma window_of_entries q rows :
  0 <= dsq.Limit q ->
  @window_of dsq.on_lists q (entries q rows) =
  entries q (cut (dsq.Limit q) (dsq.Offset q) rows).
Proof.
  intros Hl. unfold window_of, cut. cbn [dsq.NaiveOffset dsq.NaiveLimit dsq.on_lists].
  assert (E : (if negb (dsq.Offset q =? 0)
               then dsq.drop_entries (Z.to_nat (dsq.Offset q)) (entries q rows)
               else entries q rows) =
              entries q (skipn (Z.to_nat (dsq.Offset q)) rows)).
  { destruct (Z.eqb_spec (dsq.Offset q) 0) as [Eo|Eo]; cbn [negb].
    - now rewrite Eo.
    - apply drop_entries_entries. }
  rewrite E. destruct (Z.eqb_spec (dsq.Limit q) 0) as [El|El]; cbn [negb]; [reflexivity|].
  assert (Hp : (dsq.Limit q <=? 0) = false) by (apply Z.leb_gt; lia).
  rewrite Hp. unfold entries. now rewrite firstn_map.
Qed.

(** X17.  A query with neither filters nor orders has its window cut by
    the database.  On a database where nothing fails, for a prefix whose
    key holds no quote and no wildcard of the dialect, and a limit and an
    offset that are not negative, the results are the rows the prefix
    selects -- every row as it lies in the table for no prefix or the
    root, else the rows below the prefix by key -- without the first
    [Offset] of them and then at most [Limit], a limit of zero standing for
    none.  On sqlite this holds when there is a limit or no offset. *)
Theorem plain_query_is_cut_by_the_database
        (e : sql.engine) (t : string) (d : sqlds.Datastore) (w : sql.World)
        (rows : sql.Table) (q : dsq.Query) :
  sql.ident t = true ->
  sqlds.queries d = provider e t ->
  serves e t rows w ->
  quiet w ->
  sql.scan_faults w = [] ->
  plain q = true ->
  literal e (ds.NewKey (dsq.Prefix q)) = true ->
  0 <= dsq.Limit q ->
  0 <= dsq.Offset q ->
  e = sql.Postgres \/ dsq.Limit q <> 0 \/ dsq.Offset q = 0 ->
  fst (sqlds.Datastore_RawQuery d q w) =
    sql.Done (entries q (cut (dsq.Limit q) (dsq.Offset q) (prefix_rows q rows))) /\
  fst (@sqlds.Datastore_Query dsq.on_lists d q w) =
    sql.Done (entries q (cut (dsq.Limit q) (dsq.Offset q) (prefix_rows q rows))).
Proof.
  intros Ht Hd Hs Hq Hf Hp Hlit Hl Ho Hc.
  assert (R := RawQuery_plain e t d Ht Hd w rows q Hs Hq Hf Hp Hlit).
  rewrite (window_cut e q _ Hl Ho Hc) in R. cbn [map_outcome] in R.
  split; [exact R|].
  unfold sqlds.Datastore_Query. rewrite plain_lengths, Hp.
  destruct (sqlds.Datastore_RawQuery d q w) as [[raw|err] w1]; cbn [fst] in *;
    [|discriminate].
  injection R as ->. unfold plain in Hp. apply andb_true_iff in Hp as [Hp1 Hp2].
  destruct (dsq.Filters q); [|discriminate].
  destruct (dsq.Orders q); [|discriminate]. reflexivity.
Qed.

Lemma plain_query_is_cut_by_the_database_witness :
  fst (sqlds.Datastore_RawQuery (blocks_store sql.Postgres)
         (dsq.mkQuery "/a" [] [] 1 1 false false)
         (blocks_world sql.Postgres
            [("/a/2", text "v2"); ("/b", text "v"); ("/a/1", text "v1"); ("/a/3", text "v3")] [])) =
    sql.Done [dsq.mkResult (dsq.mkEntry "/a/2" (text "v2") 0) None] /\
  fst (@sqlds.Datastore_Query dsq.on_lists (blocks_store sql.Postgres)
         (dsq.mkQuery "/a" [] [] 1 1 false false)
         (blocks_world sql.Postgres
            [("/a/2", text "v2"); ("/b", text "v"); ("/a/1", text "v1"); ("/a/3", text "v3")] [])) =
    sql.Done [dsq.mkResult (dsq.mkEntry "/a/2" (text "v2") 0) None].
Proof.
  exact (plain_query_is_cut_by_the_database sql.Postgres "blocks"
           (blocks_store sql.Postgres)
           (blocks_world sql.Postgres
              [("/a/2", text "v2"); ("/b", text "v"); ("/a/1", text "v1"); ("/a/3", text "v3")] [])
           [("/a/2", text "v2"); ("/b", text "v"); ("/a/1", text "v1"); ("/a/3", text "v3")]
           (dsq.mkQuery "/a" [] [] 1 1 false false)
           eq_refl eq_refl (conj eq_refl eq_refl) (conj eq_refl (Forall_nil _))
           eq_refl eq_refl eq_refl ltac:(discriminate) ltac:(discriminate)
           (or_introl eq_refl)).
Defined.

(** X18.  The window means the same with and without filters.  On a
    database where nothing fails, for a query with neither filters nor
    orders, a prefix whose key holds no quote and no wildcard of the
    dialect, a limit and an offset that are not negative and, on sqlite, a
    limit or no offset: the results that the database cut are those of the
    same query without limit and offset, cut in memory as [Query] cuts
    them for a query with filters or orders. *)
Theorem window_in_the_database_or_in_memory
        (e : sql.engine) (t : string) (d : sqlds.Datastore) (w : sql.World)
        (rows : sql.Table) (q : dsq.Query) :
  sql.ident t = true ->
  sqlds.queries d = provider e t ->
  serves e t rows w ->
  quiet w ->
  sql.scan_faults w = [] ->
  plain q = true ->
  literal e (ds.NewKey (dsq.Prefix q)) = true ->
  0 <= dsq.Limit q ->
  0 <= dsq.Offset q ->
  e = sql.Postgres \/ dsq.Limit q <> 0 \/ dsq.Offset q = 0 ->
  fst (@sqlds.Datastore_Query dsq.on_lists d q w) =
  map_outcome (@window_of dsq.on_lists q)
    (fst (@sqlds.Datastore_Query dsq.on_lists d (unwindowed q) w)).
Proof.
  intros Ht Hd Hs Hq Hf Hp Hlit Hl Ho Hc.
  assert (R := RawQuery_plain e t d Ht Hd w rows q Hs Hq Hf Hp Hlit).
  assert (U := RawQuery_plain e t d Ht Hd w rows (unwindowed q) Hs Hq Hf Hp Hlit).
  rewrite (window_cut e q _ Hl Ho Hc) in R. cbn [map_outcome] in R.
  rewrite (window_cut e (unwindowed q) (prefix_rows (unwindowed q) rows)
             (Z.le_refl 0) (Z.le_refl 0) (or_intror (or_intror eq_refl))) in U.
  cbn [map_outcome] in U.
  unfold sqlds.Datastore_Query. rewrite !plain_lengths, plain_unwindowed, Hp.
  destruct (sqlds.Datastore_RawQuery d q w) as [[raw|err] w1]; cbn [fst] in *;
    [|discriminate].
  destruct (sqlds.Datastore_RawQuery d (unwindowed q) w) as [[raw'|err'] w2];
    cbn [fst] in *; [|discriminate].
  injection R as ->. injection U as ->.
  unfold plain in Hp. apply andb_true_iff in Hp as [Hp1 Hp2].
  cbn [unwindowed dsq.Filters dsq.Orders].
  destruct (dsq.Filters q); [|discriminate].
  destruct (dsq.Orders q); [|discriminate].
  cbn [fold_left dsq.NaiveOrder dsq.on_lists negb map_outcome].
  rewrite entries_unwindowed.
  change (prefix_rows (unwindowed q) rows) with (prefix_rows q rows).
  change (cut (dsq.Limit (unwindowed q)) (dsq.Offset (unwindowed q)) (prefix_rows q rows))
    with (prefix_rows q rows).
  now rewrite (window_of_entries q _ Hl).
Qed.

Lemma window_in_the_database_or_in_memory_witness :
  fst (@sqlds.Datastore_Query dsq.on_lists (blocks_store sql.SQLite)
         (dsq.mkQuery "" [] [] 2 1 false false)
         (blocks_world sql.SQLite
            [("/a/2", text "v2"); ("/b", text "v"); ("/a/1", text "v1"); ("/a/3", text "v3")] [])) =
  map_outcome (@window_of dsq.on_lists (dsq.mkQuery "" [] [] 2 1 false false))
    (fst (@sqlds.Datastore_Query dsq.on_lists (blocks_store sql.SQLite)
            (unwindowed (dsq.mkQuery "" [] [] 2 1 false false))
            (blocks_world sql.SQLite
               [("/a/2", text "v2"); ("/b", text "v"); ("/a/1", text "v1"); ("/a/3", text "v3")] []))).
Proof.
  apply (window_in_the_database_or_in_memory sql.SQLite "blocks"
           (blocks_store sql.SQLite)
           (blocks_world sql.SQLite
              [("/a/2", text "v2"); ("/b", text "v"); ("/a/1", text "v1"); ("/a/3", text "v3")] [])
           [("/a/2", text "v2"); ("/b", text "v"); ("/a/1", text "v1"); ("/a/3", text "v3")]
           (dsq.mkQuery "" [] [] 2 1 false false)).
  - reflexivity.
  - reflexivity.
  - split; reflexivity.
  - split; [reflexivity | constructor].
  - reflexivity.
  - reflexivity.
  - reflexivity.
  - discriminate.
  - discriminate.
  - right. left. discriminate.
Defined.

(** X19.  On sqlite a query with neither filters nor orders, an offset
    and no limit fails: its statement ends in the offset fragment with no
    limit fragment before it, which sqlite does not read.  [RawQuery] and
    [Query] return the error of the database and no results. *)
Theorem sqlite_offset_without_limit_fails
        (t : string) (d : sqlds.Datastore) (w : sql.World)
        (rows : sql.Table) (q : dsq.Query) :
  sql.ident t = true ->
  sqlds.queries d = provider sql.SQLite t ->
  serves sql.SQLite t rows w ->
  quiet w ->
  sql.scan_faults w = [] ->
  plain q = true ->
  literal sql.SQLite (ds.NewKey (dsq.Prefix q)) = true ->
  dsq.Limit q = 0 ->
  dsq.Offset q <> 0 ->
  sqlds.compose (sqlds.queries d) q =
    sqlds.Query (sqlds.queries d) ++ prefix_part (sqlds.queries d) q ++
    " OFFSET " ++ fmt.itoa (dsq.Offset q) /\
  exists err,
    fst (sqlds.Datastore_RawQuery d q w) = sql.Failed err /\
    fst (@sqlds.Datastore_Query dsq.on_lists d q w) = sql.Failed err.
Proof.
  intros Ht Hd Hs Hq Hf Hp Hlit Hl Ho.
  assert (R := RawQuery_plain sql.SQLite t d Ht Hd w rows q Hs Hq Hf Hp Hlit).
  unfold sql_limit, sql_offset in R. rewrite Hl in R.
  apply Z.eqb_neq in Ho. rewrite Ho in R. cbn in R.
  split.
  - rewrite compose_shape, Hp, Hd, window_parts.
    unfold window_text, sql_limit, sql_offset. now rewrite Hl, Ho.
  - exists sql.syntax_error. split; [exact R|].
    unfold sqlds.Datastore_Query.
    destruct (sqlds.Datastore_RawQuery d q w) as [[raw|err] w1]; cbn [fst] in *;
      [discriminate|]. exact R.
Qed.

Lemma sqlite_offset_without_limit_fails_witness :
  sqlds.compose (provider sql.SQLite "blocks") (dsq.mkQuery "" [] [] 0 2 false false) =
    "SELECT key, data FROM blocks OFFSET 2" /\
  exists err,
    fst (sqlds.Datastore_RawQuery (blocks_store sql.SQLite)
           (dsq.mkQuery "" [] [] 0 2 false false)
           (blocks_world sql.SQLite
              [("/a/2", text "v2"); ("/b", text "v"); ("/a/1", text "v1"); ("/a/3", text "v3")] [])) = sql.Failed err /\
    fst (@sqlds.Datastore_Query dsq.on_lists (blocks_store sql.SQLite)
           (dsq.mkQuery "" [] [] 0 2 false false)
           (blocks_world sql.SQLite
              [("/a/2", text "v2"); ("/b", text "v"); ("/a/1", text "v1"); ("/a/3", text "v3")] [])) = sql.Failed err.
Proof.
  exact (sqlite_offset_without_limit_fails "blocks"
           (blocks_store sql.SQLite)
           (blocks_world sql.SQLite
              [("/a/2", text "v2"); ("/b", text "v"); ("/a/1", text "v1"); ("/a/3", text "v3")] [])
           [("/a/2", text "v2"); ("/b", text "v"); ("/a/1", text "v1"); ("/a/3", text "v3")]
           (dsq.mkQuery "" [] [] 0 2 false false)
           eq_refl eq_refl (conj eq_refl eq_refl) (conj eq_refl (Forall_nil _))
           eq_refl eq_refl eq_refl eq_refl ltac:(discriminate)).
Defined.

(** X20.  The entries of [RawQuery].  For a query without prefix, limit
    and offset, whatever its filters and orders, [RawQuery] yields one
    entry for each row of the table, in the order of the table and with no
    error: the key of the row; its value, or none under [KeysOnly]; and as
    size the length of the stored value under [ReturnsSizes], also when
    [KeysOnly] keeps the value back, and zero otherwise. *)
Theorem RawQuery_keys_values_and_sizes
        (e : sql.engine) (t : string) (d : sqlds.Datastore) (w : sql.World)
        (rows : sql.Table) (q : dsq.Query) :
  sql.ident t = true ->
  sqlds.queries d = provider e t ->
  serves e t rows w ->
  quiet w ->
  sql.scan_faults w = [] ->
  dsq.Prefix q = "" ->
  dsq.Limit q = 0 ->
  dsq.Offset q = 0 ->
  exists rs,
    fst (sqlds.Datastore_RawQuery d q w) = sql.Done rs /\
    map (fun r => dsq.Key (dsq.Entry_ r)) rs = map fst rows /\
    map (fun r => dsq.Value (dsq.Entry_ r)) rs =
      map (fun r => if dsq.KeysOnly q then [] else snd r) rows /\
    map (fun r => dsq.Size (dsq.Entry_ r)) rs =
      map (fun r => if dsq.ReturnsSizes q then Z.of_nat (length (snd r)) else 0) rows /\
    Forall (fun r => dsq.Error r = None) rs.
Proof.
  intros Ht Hd Hs Hq Hf Hp Hl Ho.
  assert (Hw : no_sql_window q = true)
    by (unfold no_sql_window; rewrite Hl, Ho; now destruct (plain q)).
  rewrite (RawQuery_everything e t d Ht Hd w rows q Hs Hq Hf Hw (or_introl Hp)).
  eexists. split; [reflexivity|]. rewrite !map_map. cbn.
  split; [reflexivity|]. split; [|split].
  - apply map_ext. intros r. now destruct (dsq.KeysOnly q).
  - reflexivity.
  - apply Forall_forall. intros r Hr. apply in_map_iff in Hr as (x & <- & _).
    reflexivity.
Qed.

Lemma RawQuery_keys_values_and_sizes_witness :
  exists rs,
    fst (sqlds.Datastore_RawQuery (blocks_store sql.Postgres)
           (dsq.mkQuery "" [value_not_empty] [] 0 0 true true)
           (blocks_world sql.Postgres [("/b", text "xyz"); ("/a", text "")] [])) =
      sql.Done rs /\
    map (fun r => dsq.Key (dsq.Entry_ r)) rs = ["/b"; "/a"] /\
    map (fun r => dsq.Value (dsq.Entry_ r)) rs = [[]; []] /\
    map (fun r => dsq.Size (dsq.Entry_ r)) rs = [3; 0] /\
    Forall (fun r => dsq.Error r = None) rs.
Proof.
  exact (RawQuery_keys_values_and_sizes sql.Postgres "blocks"
           (blocks_store sql.Postgres)
           (blocks_world sql.Postgres [("/b", text "xyz"); ("/a", text "")] [])
           [("/b", text "xyz"); ("/a", text "")]
           (dsq.mkQuery "" [value_not_empty] [] 0 0 true true)
           eq_refl eq_refl (conj eq_refl eq_refl) (conj eq_refl (Forall_nil _))
           eq_refl eq_refl eq_refl eq_refl).
Defined.

(** X21.  The stream of [RawQuery] ends and closes its cursor.  Whatever
    rows the cursor holds and whichever scans fail, one call of [Next] for
    each row to come and one more reach the end of the stream, and the
    cursor is then closed with no row left. *)
Theorem stream_ends_with_the_cursor_closed
        (q : dsq.Query) (cur : option (string * bytes * option error))
        (l : list (string * bytes * option error)) :
  exists rs s,
    dsq.yielded (sqlds.RawQuery_iterator q) (S (length l))
      {| sql.current := cur; sql.pending := l; sql.rows_closed := false |} =
      Some (rs, s) /\
    sql.rows_closed s = true /\
    sql.pending s = [] /\
    (length rs <= length l)%nat.
Proof.
  rewrite yielded_scanned. eexists _, _. split; [reflexivity|].
  split; [reflexivity|]. split; [reflexivity|].
  induction l as [|[[k v] [err|]] l IH]; cbn; lia.
Qed.

(** ** Two tables of one database *)

(** X22.  Datastores on different tables of one database keep their rows
    apart: a [Put] or a [Delete] through the datastore of one table leaves
    the rows of the other table as they were, and a [Get] through the
    datastore of that other table answers as before. *)
Theorem tables_are_kept_apart
        (e : sql.engine) (t t' : string) (d d' : sqlds.Datastore) (w : sql.World)
        (rows rows' : sql.Table) (k k' : ds.Key) (v : bytes) :
  sql.ident t = true ->
  sql.ident t' = true ->
  t' <> t ->
  sqlds.queries d = provider e t ->
  sqlds.queries d' = provider e t' ->
  serves e t rows w ->
  serves e t' rows' w ->
  quiet w ->
  serves e t' rows' (snd (sqlds.Datastore_Put d k v w)) /\
  serves e t' rows' (snd (sqlds.Datastore_Delete d k w)) /\
  fst (sqlds.Datastore_Get d' k' (snd (sqlds.Datastore_Put d k v w))) = answer k' rows' /\
  fst (sqlds.Datastore_Get d' k' (snd (sqlds.Datastore_Delete d k w))) = answer k' rows'.
Proof.
  intros Ht Ht' Hn Hd Hd' Hs Hs' Hq.
  assert (P : serves e t' rows' (snd (sqlds.Datastore_Put d k v w))).
  { rewrite (Put_runs e t d Ht Hd w rows k v Hs Hq). destruct Hs' as [He Hl].
    split; [exact He|]. cbn. now rewrite (lookup_store_else t t' _ _ Hn). }
  assert (D : serves e t' rows' (snd (sqlds.Datastore_Delete d k w))).
  { rewrite (Delete_runs e t d Ht Hd w rows k Hs Hq). destruct Hs' as [He Hl].
    split; [exact He|]. cbn. now rewrite (lookup_store_else t t' _ _ Hn). }
  split; [exact P|]. split; [exact D|].
  destruct (Put_world e t d Ht Hd w rows k v Hs Hq) as (_ & _ & Q1).
  destruct (Delete_world e t d Ht Hd w rows k Hs Hq) as (_ & _ & Q2).
  rewrite (Get_runs e t' d' Ht' Hd' _ rows' k' P Q1).
  rewrite (Get_runs e t' d' Ht' Hd' _ rows' k' D Q2).
  split; reflexivity.
Qed.

Lemma tables_are_kept_apart_witness :
  serves sql.SQLite "pins" [("/x", text "p")]
    (snd (sqlds.Datastore_Put (blocks_store sql.SQLite) "/x" (text "b")
            (sql.mkWorld ["sqlite3"] sql.SQLite
               [("blocks", []); ("pins", [("/x", text "p")])] false [] [] []))) /\
  serves sql.SQLite "pins" [("/x", text "p")]
    (snd (sqlds.Datastore_Delete (blocks_store sql.SQLite) "/x"
            (sql.mkWorld ["sqlite3"] sql.SQLite
               [("blocks", []); ("pins", [("/x", text "p")])] false [] [] []))) /\
  fst (sqlds.Datastore_Get
         (sqlds.NewDatastore (sqlds.db (blocks_store sql.SQLite)) (provider sql.SQLite "pins"))
         "/x"
         (snd (sqlds.Datastore_Put (blocks_store sql.SQLite) "/x" (text "b")
                 (sql.mkWorld ["sqlite3"] sql.SQLite
                    [("blocks", []); ("pins", [("/x", text "p")])] false [] [] [])))) =
    (text "p", None) /\
  fst (sqlds.Datastore_Get
         (sqlds.NewDatastore (sqlds.db (blocks_store sql.SQLite)) (provider sql.SQLite "pins"))
         "/x"
         (snd (sqlds.Datastore_Delete (blocks_store sql.SQLite) "/x"
                 (sql.mkWorld ["sqlite3"] sql.SQLite
                    [("blocks", []); ("pins", [("/x", text "p")])] false [] [] [])))) =
    (text "p", None).
Proof.
  exact (tables_are_kept_apart sql.SQLite "blocks" "pins"
           (blocks_store sql.SQLite)
           (sqlds.NewDatastore (sqlds.db (blocks_store sql.SQLite))
              (provider sql.SQLite "pins"))
           (sql.mkWorld ["sqlite3"] sql.SQLite
              [("blocks", []); ("pins", [("/x", text "p")])] false [] [] [])
           [] [("/x", text "p")] "/x" "/x" (text "b")
           eq_refl eq_refl ltac:(discriminate) eq_refl eq_refl
           (conj eq_refl eq_refl) (conj eq_refl eq_refl) (conj eq_refl (Forall_nil _))).
Defined.

(** ** What the reads send *)






